(** * Weather ETL pipeline: a shallow embedding of the extract, transform and
    load code, and the properties of its specification.

    The Python sources embedded here are [src/utils.py], [src/extract.py],
    [src/transform.py], [src/load.py], [config/config.py] and [main.py].
    Python dictionaries are finite maps with string keys, Python exceptions
    are an error result, and the effects of the program (HTTP requests,
    sleeping, reading the wall clock, the relational store) are threaded
    through an explicit world. *)

From Stdlib Require Import ZArith QArith Lia.
From stdpp Require Import gmap strings list fin_maps relations.

Set Warnings "-register-all".
Local Open Scope string_scope.
Local Open Scope Z_scope.

(** ** Python values, exceptions and the operators the sources use *)

Module Py.

(** The exception classes that the sources raise or catch.  All of them
    derive from [Exception], so an [except Exception] clause catches each. *)
Inductive exn : Type :=
| KeyError
| TypeError
| ValueError
| IndexError
| AttributeError
| OverflowError
| Timeout            (* requests.exceptions.Timeout *)
| SQLAlchemyError
| ImportError
| RuntimeError.      (* any other subclass of Exception *)

(** The outcome of evaluating an expression or a call: a value, or a raised
    exception. *)
Inductive res (A : Type) : Type :=
| Ok (a : A)
| Raise (e : exn).
Arguments Ok {A} a.
Arguments Raise {A} e.

#[global] Instance res_ret : MRet res := fun A a => Ok a.
#[global] Instance res_bind : MBind res := fun A B k r =>
  match r with
  | Ok a => k a
  | Raise e => Raise e
  end.

(** JSON-shaped Python data.  Integers are unbounded; floats are idealised as
    exact rationals, which is faithful for the comparisons the code makes;
    a [datetime] is identified with the POSIX instant it denotes. *)
Inductive value : Type :=
| VNone
| VBool (b : bool)
| VInt (n : Z)
| VFloat (x : Q)
| VStr (s : string)
| VDatetime (t : Q)
| VList (l : list value)
| VDict (d : gmap string value).

(** [bool(v)]: the truth value Python gives to [v] in an [if]. *)
Definition truthy (v : value) : bool :=
  match v with
  | VNone => false
  | VBool b => b
  | VInt n => negb (Z.eqb n 0)
  | VFloat x => negb (Qeq_bool x 0)
  | VStr s => negb (String.eqb s "")
  | VDatetime _ => true
  | VList l => match l with [] => false | _ :: _ => true end
  | VDict d => match map_to_list d with [] => false | _ :: _ => true end
  end.

(** The numeric reading of a value in an arithmetic comparison ([bool] is a
    subclass of [int]). *)
Definition as_number (v : value) : option Q :=
  match v with
  | VBool b => Some (inject_Z (if b then 1 else 0))
  | VInt n => Some (inject_Z n)
  | VFloat x => Some x
  | _ => None
  end.

Definition Qlt_bool (x y : Q) : bool := negb (Qle_bool y x).

(** [v < c] and [v > c] for an integer literal [c]: a [TypeError] unless [v]
    is a number. *)
Definition lt_int (v : value) (c : Z) : res bool :=
  match as_number v with
  | Some x => Ok (Qlt_bool x (inject_Z c))
  | None => Raise TypeError
  end.

Definition gt_int (v : value) (c : Z) : res bool :=
  match as_number v with
  | Some x => Ok (Qlt_bool (inject_Z c) x)
  | None => Raise TypeError
  end.

(** [v[k]] for a string key [k]. *)
Definition getitem (v : value) (k : string) : res value :=
  match v with
  | VDict d => match d !! k with Some x => Ok x | None => Raise KeyError end
  | _ => Raise TypeError
  end.

(** [v[0]].  The keys of a JSON object are strings, so [0] is never a key of
    a dictionary; the first item of a string is a one-character string. *)
Definition getitem0 (v : value) : res value :=
  match v with
  | VList l => match l with x :: _ => Ok x | [] => Raise IndexError end
  | VStr s => match s with
              | String c _ => Ok (VStr (String c EmptyString))
              | EmptyString => Raise IndexError
              end
  | VDict _ => Raise KeyError
  | _ => Raise TypeError
  end.

(** [v.get(k, dflt)]: only dictionaries have the method. *)
Definition get (v : value) (k : string) (dflt : value) : res value :=
  match v with
  | VDict d => Ok (default dflt (d !! k))
  | _ => Raise AttributeError
  end.

(** [s in t] on strings: [s] occurs in [t] as a substring. *)
Fixpoint is_substring (s t : string) : bool :=
  String.prefix s t ||
  match t with
  | EmptyString => false
  | String _ t' => is_substring s t'
  end.

Definition eq_str (k : string) (v : value) : bool :=
  match v with
  | VStr s => String.eqb k s
  | _ => false
  end.

(** [k in v] for a string [k]: key membership on a dictionary, element
    membership on a list, substring on a string. *)
Definition contains (k : string) (v : value) : res bool :=
  match v with
  | VDict d => Ok (bool_decide (is_Some (d !! k)))
  | VList l => Ok (existsb (eq_str k) l)
  | VStr s => Ok (is_substring k s)
  | _ => Raise TypeError
  end.

(** Rounding a rational to the closest multiple of 1/100, ties to the even
    choice, as [round(x, 2)] documents. *)
Definition Qround2 (x : Q) : Q :=
  let n := Qnum x * 100 in
  let d := Zpos (Qden x) in
  let q := n / d in
  let r := n mod d in
  let up := match 2 * r ?= d with
            | Lt => false
            | Gt => true
            | Eq => Z.odd q
            end in
  Qred (Qmake (if up then q + 1 else q) 100).

(** [round(v, 2)]: an [int] (or [bool]) rounds to an [int], a [float] to a
    [float]; anything else is a [TypeError]. *)
Definition round2 (v : value) : res value :=
  match v with
  | VBool b => Ok (VInt (if b then 1 else 0))
  | VInt n => Ok (VInt n)
  | VFloat x => Ok (VFloat (Qround2 x))
  | _ => Raise TypeError
  end.

(** The instants [datetime] can represent (years 1 to 9999), read in UTC; the
    exact bounds of [datetime.fromtimestamp] depend on the platform. *)
Definition timestamp_min : Q := inject_Z (-62135596800).
Definition timestamp_max : Q := inject_Z 253402300799.

Definition representable (t : Q) : bool :=
  Qle_bool timestamp_min t && Qle_bool t timestamp_max.

(** [datetime.fromtimestamp(v)]. *)
Definition fromtimestamp (v : value) : res value :=
  match as_number v with
  | Some t => if representable t then Ok (VDatetime t) else Raise OverflowError
  | None => Raise TypeError
  end.

End Py.
Import Py.

(** A dictionary display [{k1: v1, ..., kn: vn}] with distinct keys. *)
Definition dict (items : list (string * value)) : value :=
  VDict (list_to_map items).

(** ** The relational store *)

(** Modelled from the spec: the schema of the store is not in the sources.
    Its three tables are those of section 6, with the columns that the SQL
    text of [src/load.py] names: [cities] and [weather_conditions] are keyed
    by an identifier that the store assigns, [weather_measurements] has the
    conflict target [(city_id, measurement_timestamp)]. *)
Record city_row : Type := {
  city_id : Z;
  city_name : value;
  country_code : value;
  latitude : value;
  longitude : value;
  timezone_offset : value
}.

Record condition_row : Type := {
  condition_id : Z;
  main_condition : value;
  description : value;
  icon_code : value
}.

(** A row of [weather.weather_measurements]: the thirteen columns of the
    insert statement, in its order. *)
Record measurement_row : Type := {
  m_city_id : value;
  m_condition_id : value;
  temperature_celsius : value;
  feels_like_celsius : value;
  temp_min_celsius : value;
  temp_max_celsius : value;
  pressure_hpa : value;
  humidity_percent : value;
  visibility_meters : value;
  wind_speed_mps : value;
  wind_direction_degrees : value;
  cloudiness_percent : value;
  measurement_timestamp : value
}.

Record Database : Type := {
  cities : list city_row;
  weather_conditions : list condition_row;
  weather_measurements : list measurement_row;
  next_city_id : Z;
  next_condition_id : Z
}.

(** The store with one row more in a table; a new city or condition uses up
    the next identifier of its sequence. *)
Definition add_city (row : city_row) (d : Database) : Database :=
  {| cities := cities d ++ [row];
     weather_conditions := weather_conditions d;
     weather_measurements := weather_measurements d;
     next_city_id := next_city_id d + 1;
     next_condition_id := next_condition_id d |}.

Definition add_condition (row : condition_row) (d : Database) : Database :=
  {| cities := cities d;
     weather_conditions := weather_conditions d ++ [row];
     weather_measurements := weather_measurements d;
     next_city_id := next_city_id d;
     next_condition_id := next_condition_id d + 1 |}.

Definition add_measurement (row : measurement_row) (d : Database) : Database :=
  {| cities := cities d;
     weather_conditions := weather_conditions d;
     weather_measurements := weather_measurements d ++ [row];
     next_city_id := next_city_id d;
     next_condition_id := next_condition_id d |}.

(** SQL [a = b] in a [WHERE] clause or a uniqueness check: true only for two
    non-null scalars of one kind that are equal; [NULL] equals nothing. *)
Definition sql_eq (a b : value) : bool :=
  match a, b with
  | VStr s, VStr t => String.eqb s t
  | VBool x, VBool y => Bool.eqb x y
  | VDatetime x, VDatetime y => Qeq_bool x y
  | VInt x, VInt y => Z.eqb x y
  | VInt x, VFloat y => Qeq_bool (inject_Z x) y
  | VFloat x, VInt y => Qeq_bool x (inject_Z y)
  | VFloat x, VFloat y => Qeq_bool x y
  | _, _ => false
  end.

(** ** The world the program runs in *)

(** What one HTTP GET can come to. *)
Inductive http_outcome : Type :=
| Response (body : value)        (* 2xx status and a JSON body *)
| HTTPError (status_code : Z)    (* raise_for_status raised *)
| RequestTimeout                 (* requests.exceptions.Timeout *)
| RequestException               (* any other requests failure *)
| Unexpected (e : exn).          (* an exception outside requests *)

(** The behaviour of the collaborators, fixed for a run: the answer to the
    k-th HTTP request, the k-th reading of the wall clock, whether the k-th
    connection scope on the store fails, and whether creating or disposing
    of the engine raises. *)
Record Env : Type := {
  http_get : nat -> string -> http_outcome;
  wall_clock : nat -> Q;
  db_fault : nat -> bool;
  create_engine_fails : bool;
  dispose_fails : bool
}.

Record World : Type := {
  http_calls : nat;      (* requests issued so far *)
  sleeps : list Z;       (* delays slept so far, oldest first *)
  clock_reads : nat;     (* readings of the wall clock so far *)
  db_calls : nat;        (* connection scopes opened so far *)
  db : Database
}.

Definition with_http_calls (n : nat) (w : World) : World :=
  {| http_calls := n; sleeps := sleeps w; clock_reads := clock_reads w;
     db_calls := db_calls w; db := db w |}.
Definition with_sleeps (l : list Z) (w : World) : World :=
  {| http_calls := http_calls w; sleeps := l; clock_reads := clock_reads w;
     db_calls := db_calls w; db := db w |}.
Definition with_clock_reads (n : nat) (w : World) : World :=
  {| http_calls := http_calls w; sleeps := sleeps w; clock_reads := n;
     db_calls := db_calls w; db := db w |}.
Definition with_db_calls (n : nat) (w : World) : World :=
  {| http_calls := http_calls w; sleeps := sleeps w; clock_reads := clock_reads w;
     db_calls := n; db := db w |}.
Definition with_db (d : Database) (w : World) : World :=
  {| http_calls := http_calls w; sleeps := sleeps w; clock_reads := clock_reads w;
     db_calls := db_calls w; db := d |}.

(** Effectful code: a world transformer that returns or raises. *)
Definition M (A : Type) : Type := World -> res A * World.

#[global] Instance M_ret : MRet M := fun A a w => (Ok a, w).
#[global] Instance M_bind : MBind M := fun A B k m w =>
  match m w with
  | (Ok a, w') => k a w'
  | (Raise e, w') => (Raise e, w')
  end.

Definition raise {A : Type} (e : exn) : M A := fun w => (Raise e, w).

Definition lift {A : Type} (r : res A) : M A := fun w => (r, w).

(** [try: body except Exception as e: handler e]. *)
Definition try_except {A : Type} (body : M A) (handler : exn -> M A) : M A :=
  fun w =>
    match body w with
    | (Ok a, w') => (Ok a, w')
    | (Raise e, w') => handler e w'
    end.

(** ** Configuration ([config/config.py]) *)

Record city_entry : Type := {
  name : string;
  country : option string
}.

Record Config : Type := {
  API_KEY : option string;
  DB_PASSWORD : option string;
  CITIES : list city_entry;
  MAX_RETRIES : Z;
  RETRY_DELAY : Z
}.

(** Truth value of an optional string ([None] and the empty string are
    false). *)
Definition truthy_str (s : option string) : bool :=
  match s with
  | Some s => negb (String.eqb s "")
  | None => false
  end.

(** [Config.validate]. *)
Definition Config_validate (cfg : Config) : res bool :=
  if negb (truthy_str (API_KEY cfg)) then Raise ValueError
  else if negb (truthy_str (DB_PASSWORD cfg)) then Raise ValueError
  else Ok true.

(** ** [src/utils.py] *)

(** [time.sleep(delay)]. *)
Definition sleep (delay : Z) : M unit :=
  fun w => (Ok tt, with_sleeps (sleeps w ++ [delay])%list w).

(** The body of [wrapper]: the [for attempt in range(max_retries)] loop over
    the attempts still to make.  Leaving the loop returns [None]. *)
Fixpoint retry_loop (max_retries delay : Z) (func : M value)
    (attempts : list Z) : M value :=
  match attempts with
  | [] => mret VNone
  | attempt :: rest =>
      try_except func (fun e =>
        if attempt =? max_retries - 1 then raise e
        else _ ← sleep delay; retry_loop max_retries delay func rest)
  end.

Definition retry_on_failure (max_retries delay : Z) (func : M value) : M value :=
  retry_loop max_retries delay func (seqZ 0 max_retries).

(** The [for field in required_fields] loop of [validate_weather_data]. *)
Fixpoint check_required (required_fields : list string) (data : value) : res unit :=
  match required_fields with
  | [] => Ok tt
  | field :: rest =>
      present ← contains field data;
      if negb present then Raise ValueError else check_required rest data
  end.

Definition validate_weather_data (data : value) : res bool :=
  _ ← check_required ["coord"; "main"; "name"] data;
  main ← getitem data "main";
  temp_celsius ← get main "temp" VNone;
  out_of_range ←
    (if truthy temp_celsius
     then below ← lt_int temp_celsius (-100);
          if below : bool then Ok true else gt_int temp_celsius 60
     else Ok false) : res bool;
  if out_of_range : bool then Raise ValueError else Ok true.

Section Program.

Context (cfg : Config) (env : Env).

(** ** [src/extract.py] *)

(** [WeatherExtractor.__init__]. *)
Definition WeatherExtractor_init : res unit :=
  if negb (truthy_str (API_KEY cfg)) then Raise ValueError else Ok tt.

(** The query string: ["{city_name},{country_code}"] when a non-empty
    country code is given, the city name otherwise. *)
Definition query_of (city_name : string) (country_code : option string) : string :=
  if truthy_str country_code
  then city_name ++ "," ++ default "" country_code
  else city_name.

(** The function [fetch_weather_by_city] as written, before the retry
    decorator is applied: one GET, and the [except] clauses in their order
    ([HTTPError], [Timeout], [RequestException]). *)
Definition fetch_weather_by_city_once (city_name : string)
    (country_code : option string) : M value :=
  fun w =>
    let query := query_of city_name country_code in
    let w' := with_http_calls (S (http_calls w)) w in
    match http_get env (http_calls w) query with
    | Response data => (Ok data, w')
    | HTTPError _ => (Ok VNone, w')
    | RequestTimeout => (Raise Timeout, w')
    | RequestException => (Ok VNone, w')
    | Unexpected e => (Raise e, w')
    end.

(** The decorated method. *)
Definition fetch_weather_by_city (city_name : string)
    (country_code : option string) : M value :=
  retry_on_failure (MAX_RETRIES cfg) (RETRY_DELAY cfg)
    (fetch_weather_by_city_once city_name country_code).

(** The loop of [fetch_weather_for_cities], with the list [weather_data]
    built so far. *)
Fixpoint fetch_loop (cities : list city_entry) (weather_data : list value)
    : M (list value) :=
  match cities with
  | [] => mret weather_data
  | city :: rest =>
      weather_data' ←
        try_except
          (data ← fetch_weather_by_city (name city) (country city);
           mret (if truthy data then (weather_data ++ [data])%list else weather_data))
          (fun _ => mret weather_data);
      fetch_loop rest weather_data'
  end.

Definition fetch_weather_for_cities (cities : list city_entry) : M (list value) :=
  fetch_loop cities [].

(** ** [src/transform.py] *)

(** [datetime.now()]. *)
Definition now : M value :=
  fun w => (Ok (VDatetime (wall_clock env (clock_reads w))),
            with_clock_reads (S (clock_reads w)) w).

(** The [try] block of [transform_single_record]. *)
Definition transform_body (raw_data : value) : M value :=
  _ ← lift (validate_weather_data raw_data);
  v_name ← lift (getitem raw_data "name");
  v_country ← lift (sys ← getitem raw_data "sys"; getitem sys "country");
  v_lat ← lift (coord ← getitem raw_data "coord"; getitem coord "lat");
  v_lon ← lift (coord ← getitem raw_data "coord"; getitem coord "lon");
  v_timezone ← lift (get raw_data "timezone" (VInt 0));
  let city_data := dict [
    ("city_name", v_name);
    ("country_code", v_country);
    ("latitude", v_lat);
    ("longitude", v_lon);
    ("timezone_offset", v_timezone)] in
  weather_info ← lift (weather ← getitem raw_data "weather"; getitem0 weather);
  v_main ← lift (getitem weather_info "main");
  v_description ← lift (getitem weather_info "description");
  v_icon ← lift (getitem weather_info "icon");
  let condition_data := dict [
    ("main_condition", v_main);
    ("description", v_description);
    ("icon_code", v_icon)] in
  main_data ← lift (getitem raw_data "main");
  wind_data ← lift (get raw_data "wind" (dict []));
  v_temp ← lift (t ← getitem main_data "temp"; round2 t);
  v_feels_like ← lift (t ← getitem main_data "feels_like"; round2 t);
  v_temp_min ← lift (t ← getitem main_data "temp_min"; round2 t);
  v_temp_max ← lift (t ← getitem main_data "temp_max"; round2 t);
  v_pressure ← lift (getitem main_data "pressure");
  v_humidity ← lift (getitem main_data "humidity");
  v_visibility ← lift (get raw_data "visibility" VNone);
  v_wind_speed ← lift (get wind_data "speed" VNone);
  v_wind_deg ← lift (get wind_data "deg" VNone);
  v_cloudiness ← lift (clouds ← get raw_data "clouds" (dict []); get clouds "all" VNone);
  v_measured ← lift (dt ← getitem raw_data "dt"; fromtimestamp dt);
  v_called ← now;
  let measurement_data := dict [
    ("temperature_celsius", v_temp);
    ("feels_like_celsius", v_feels_like);
    ("temp_min_celsius", v_temp_min);
    ("temp_max_celsius", v_temp_max);
    ("pressure_hpa", v_pressure);
    ("humidity_percent", v_humidity);
    ("visibility_meters", v_visibility);
    ("wind_speed_mps", v_wind_speed);
    ("wind_direction_degrees", v_wind_deg);
    ("cloudiness_percent", v_cloudiness);
    ("measurement_timestamp", v_measured);
    ("api_call_timestamp", v_called)] in
  mret (dict [
    ("city", city_data);
    ("condition", condition_data);
    ("measurement", measurement_data)]).

(** [transform_single_record]: the two handlers, [except KeyError] and
    [except Exception], both return [None]. *)
Definition transform_single_record (raw_data : value) : M value :=
  try_except (transform_body raw_data)
    (fun e => match e with
              | KeyError => mret VNone
              | _ => mret VNone
              end).

(** The loop of [transform_multiple_records], with the list
    [transformed_records] built so far. *)
Fixpoint transform_loop (raw_data_list : list value)
    (transformed_records : list value) : M (list value) :=
  match raw_data_list with
  | [] => mret transformed_records
  | raw_data :: rest =>
      transformed ← transform_single_record raw_data;
      transform_loop rest
        (if truthy transformed
         then (transformed_records ++ [transformed])%list
         else transformed_records)
  end.

Definition transform_multiple_records (raw_data_list : list value) : M (list value) :=
  transform_loop raw_data_list [].

End Program.

(** [a or b] on conditions, evaluating [b] only when [a] is false. *)
Definition py_or (a b : res bool) : res bool :=
  x ← a; if x : bool then Ok true else b.

(** The [for section in required_sections] loop of
    [validate_transformed_data]: [false] stands for the early
    [return False]. *)
Fixpoint sections_present (required_sections : list string) (data : value) : res bool :=
  match required_sections with
  | [] => Ok true
  | section :: rest =>
      present ← contains section data;
      if negb present then Ok false else sections_present rest data
  end.

(** The [try] block of [validate_transformed_data]. *)
Definition validate_transformed_body (transformed_data : value) : res bool :=
  present ← sections_present ["city"; "condition"; "measurement"] transformed_data;
  if negb present then Ok false else
  temp ← (m ← getitem transformed_data "measurement"; getitem m "temperature_celsius");
  bad_temp ← py_or (lt_int temp (-100)) (gt_int temp 60);
  if bad_temp : bool then Ok false else
  humidity ← (m ← getitem transformed_data "measurement"; getitem m "humidity_percent");
  bad_humidity ← py_or (lt_int humidity 0) (gt_int humidity 100);
  if bad_humidity : bool then Ok false else Ok true.

Definition validate_transformed_data (transformed_data : value) : res bool :=
  match validate_transformed_body transformed_data with
  | Ok b => Ok b
  | Raise _ => Ok false
  end.

(** ** [src/load.py] *)

Section Loader.

Context (env : Env).

(** [WeatherLoader.__init__]: the failure of [create_engine] is logged and
    raised again. *)
Definition WeatherLoader_init : res unit :=
  if create_engine_fails env then Raise RuntimeError else Ok tt.

(** Entering [with self.engine.connect() as conn].  A data-layer failure
    anywhere in the scope (connectivity loss, constraint or type violation)
    is decided here, once per scope, so that a failed scope leaves the tables
    as they were (nothing was committed). *)
Definition connect : M unit :=
  fun w =>
    (if db_fault env (db_calls w) then Raise SQLAlchemyError else Ok tt,
     with_db_calls (S (db_calls w)) w).

(** The value bound to the parameter [:k] of a statement executed with the
    parameters [params]; a parameter without a value is a statement error. *)
Definition bind_param (params : value) (k : string) : res value :=
  match params with
  | VDict d => match d !! k with Some x => Ok x | None => Raise SQLAlchemyError end
  | _ => Raise SQLAlchemyError
  end.

(** [WHERE city_name = :city_name AND country_code = :country_code]. *)
Definition city_matches (v_name v_country : value) (r : city_row) : bool :=
  sql_eq (city_name r) v_name && sql_eq (country_code r) v_country.

(** [SELECT city_id FROM weather.cities WHERE ...], then [fetchone()]. *)
Definition select_city (v_name v_country : value) : M (option city_row) :=
  fun w => (Ok (List.find (city_matches v_name v_country) (cities (db w))), w).

(** [INSERT INTO weather.cities (...) VALUES (...) RETURNING city_id], then
    [commit()]: the new row takes the next identifier of the sequence. *)
Definition insert_city (v_name v_country v_lat v_lon v_tz : value) : M Z :=
  fun w =>
    let row := {| city_id := next_city_id (db w); city_name := v_name;
                  country_code := v_country; latitude := v_lat;
                  longitude := v_lon; timezone_offset := v_tz |} in
    (Ok (city_id row), with_db (add_city row (db w)) w).

(** The [try] block of [load_city]. *)
Definition load_city_body (city_data : value) : M (option Z) :=
  _ ← connect;
  v_name ← lift (getitem city_data "city_name");
  v_country ← lift (getitem city_data "country_code");
  row ← select_city v_name v_country;
  match row with
  | Some r => mret (Some (city_id r))
  | None =>
      p_name ← lift (bind_param city_data "city_name");
      p_country ← lift (bind_param city_data "country_code");
      p_lat ← lift (bind_param city_data "latitude");
      p_lon ← lift (bind_param city_data "longitude");
      p_tz ← lift (bind_param city_data "timezone_offset");
      new_id ← insert_city p_name p_country p_lat p_lon p_tz;
      mret (Some new_id)
  end.

Definition load_city (city_data : value) : M (option Z) :=
  try_except (load_city_body city_data)
    (fun e => match e with
              | SQLAlchemyError => mret None
              | _ => mret None
              end).

(** [WHERE main_condition = :main_condition AND description = :description]. *)
Definition condition_matches (v_main v_description : value) (r : condition_row) : bool :=
  sql_eq (main_condition r) v_main && sql_eq (description r) v_description.

(** [SELECT condition_id FROM weather.weather_conditions WHERE ...], then
    [fetchone()]. *)
Definition select_condition (v_main v_description : value) : M (option condition_row) :=
  fun w =>
    (Ok (List.find (condition_matches v_main v_description)
                   (weather_conditions (db w))), w).

(** [INSERT INTO weather.weather_conditions (...) VALUES (...) RETURNING
    condition_id], then [commit()]. *)
Definition insert_condition (v_main v_description v_icon : value) : M Z :=
  fun w =>
    let row := {| condition_id := next_condition_id (db w);
                  main_condition := v_main; description := v_description;
                  icon_code := v_icon |} in
    (Ok (condition_id row), with_db (add_condition row (db w)) w).

(** The [try] block of [load_weather_condition]. *)
Definition load_weather_condition_body (condition_data : value) : M (option Z) :=
  _ ← connect;
  v_main ← lift (getitem condition_data "main_condition");
  v_description ← lift (getitem condition_data "description");
  row ← select_condition v_main v_description;
  match row with
  | Some r => mret (Some (condition_id r))
  | None =>
      p_main ← lift (bind_param condition_data "main_condition");
      p_description ← lift (bind_param condition_data "description");
      p_icon ← lift (bind_param condition_data "icon_code");
      new_id ← insert_condition p_main p_description p_icon;
      mret (Some new_id)
  end.

Definition load_weather_condition (condition_data : value) : M (option Z) :=
  try_except (load_weather_condition_body condition_data)
    (fun e => match e with
              | SQLAlchemyError => mret None
              | _ => mret None
              end).

(** The dictionary [data] that [load_measurement] hands to [execute]:
    [{'city_id': .., 'condition_id': .., **measurement_data}] (a later key
    replaces an earlier one), with ['api_call_timestamp'] popped. *)
Definition measurement_params (measurement_data : value) (city_id condition_id : Z)
    : res value :=
  match measurement_data with
  | VDict m =>
      let data := m ∪ <["city_id" := VInt city_id]>
                        (<["condition_id" := VInt condition_id]> ∅) in
      Ok (VDict (delete "api_call_timestamp" data))
  | _ => Raise TypeError
  end.

(** The row that the [VALUES] clause builds from the bound parameters. *)
Definition measurement_values (data : value) : res measurement_row :=
  p1 ← bind_param data "city_id";
  p2 ← bind_param data "condition_id";
  p3 ← bind_param data "temperature_celsius";
  p4 ← bind_param data "feels_like_celsius";
  p5 ← bind_param data "temp_min_celsius";
  p6 ← bind_param data "temp_max_celsius";
  p7 ← bind_param data "pressure_hpa";
  p8 ← bind_param data "humidity_percent";
  p9 ← bind_param data "visibility_meters";
  p10 ← bind_param data "wind_speed_mps";
  p11 ← bind_param data "wind_direction_degrees";
  p12 ← bind_param data "cloudiness_percent";
  p13 ← bind_param data "measurement_timestamp";
  Ok {| m_city_id := p1; m_condition_id := p2;
        temperature_celsius := p3; feels_like_celsius := p4;
        temp_min_celsius := p5; temp_max_celsius := p6;
        pressure_hpa := p7; humidity_percent := p8;
        visibility_meters := p9; wind_speed_mps := p10;
        wind_direction_degrees := p11; cloudiness_percent := p12;
        measurement_timestamp := p13 |}.

(** Two rows collide on the conflict target
    [(city_id, measurement_timestamp)]. *)
Definition conflicts (new_row old_row : measurement_row) : bool :=
  sql_eq (m_city_id old_row) (m_city_id new_row) &&
  sql_eq (measurement_timestamp old_row) (measurement_timestamp new_row).

(** [INSERT INTO weather.weather_measurements (...) VALUES (...) ON CONFLICT
    (city_id, measurement_timestamp) DO NOTHING], then [commit()]. *)
Definition insert_measurement (row : measurement_row) : M unit :=
  fun w =>
    if existsb (conflicts row) (weather_measurements (db w)) then (Ok tt, w)
    else (Ok tt, with_db (add_measurement row (db w)) w).

(** The [try] block of [load_measurement]. *)
Definition load_measurement_body (measurement_data : value)
    (city_id condition_id : Z) : M bool :=
  _ ← connect;
  data ← lift (measurement_params measurement_data city_id condition_id);
  row ← lift (measurement_values data);
  _ ← insert_measurement row;
  mret true.

Definition load_measurement (measurement_data : value)
    (city_id condition_id : Z) : M bool :=
  try_except (load_measurement_body measurement_data city_id condition_id)
    (fun e => match e with
              | SQLAlchemyError => mret false
              | _ => mret false
              end).

(** The [try] block of [load_weather_record].  [not city_id] holds of [None]
    and of [0].  The message logged on success reads
    [transformed_data['city']['city_name']]. *)
Definition load_weather_record_body (transformed_data : value) : M bool :=
  city_data ← lift (getitem transformed_data "city");
  city_id ← load_city city_data;
  match city_id with
  | None => mret false
  | Some city_id =>
  if city_id =? 0 then mret false else
  condition_data ← lift (getitem transformed_data "condition");
  condition_id ← load_weather_condition condition_data;
  match condition_id with
  | None => mret false
  | Some condition_id =>
  if condition_id =? 0 then mret false else
  measurement_data ← lift (getitem transformed_data "measurement");
  success ← load_measurement measurement_data city_id condition_id;
  _ ← (if success : bool
       then lift (c ← getitem transformed_data "city"; getitem c "city_name")
       else mret VNone);
  mret success
  end end.

Definition load_weather_record (transformed_data : value) : M bool :=
  try_except (load_weather_record_body transformed_data) (fun _ => mret false).

(** The dictionary of counts that [load_multiple_records] returns. *)
Record load_result : Type := {
  success : nat;
  failure : nat;
  total : nat
}.

(** The loop of [load_multiple_records], with the two counters. *)
Fixpoint load_loop (transformed_data_list : list value)
    (success_count failure_count : nat) : M (nat * nat) :=
  match transformed_data_list with
  | [] => mret (success_count, failure_count)
  | data :: rest =>
      loaded ← load_weather_record data;
      if loaded : bool
      then load_loop rest (success_count + 1)%nat failure_count
      else load_loop rest success_count (failure_count + 1)%nat
  end.

Definition load_multiple_records (transformed_data_list : list value) : M load_result :=
  counts ← load_loop transformed_data_list 0%nat 0%nat;
  mret {| success := fst counts;
          failure := snd counts;
          total := length transformed_data_list |}.

(** [test_connection]: a [SELECT 1] round trip. *)
Definition test_connection : M bool :=
  try_except (_ ← connect; mret true) (fun _ => mret false).

(** [close]: dispose of the engine. *)
Definition close : M unit :=
  if dispose_fails env then raise RuntimeError else mret tt.

End Loader.

(** ** [main.py] *)

(** A transformer class, as [main.py] uses one: an instance is made without
    arguments and asked for [transform_multiple_records]. *)
Definition transformer_class : Type := list value -> M (list value).

(** The classes that [src/transform.py] defines, by name:
    [weather_transformer] (line 9) is the only one. *)
Definition src_transform (env : Env) : list (string * transformer_class) :=
  [("weather_transformer", transform_multiple_records env)].

(** [from module import name]: what the module binds [name] to, and an
    [ImportError] when it binds no such name. *)
Definition import_from {A : Type} (bindings : list (string * A)) (name : string)
    : res A :=
  match List.find (fun binding => String.eqb (fst binding) name) bindings with
  | Some binding => Ok (snd binding)
  | None => Raise ImportError
  end.

Section Pipeline.

Context (cfg : Config) (env : Env).

(** [run_etl_pipeline], for the class that the global name
    [WeatherTransformer] of [main.py] is bound to: the banner reads the wall
    clock, then the [try] block runs; any exception that reaches the handler
    makes the run a failure. *)
Definition run_etl_pipeline (WeatherTransformer : transformer_class) : M bool :=
  _ ← now env;
  try_except
    (_ ← lift (Config_validate cfg);
     _ ← lift (WeatherExtractor_init cfg);
     _ ← lift (WeatherLoader_init env);
     connected ← test_connection env;
     if negb connected then mret false else
     raw_data_list ← fetch_weather_for_cities cfg env (CITIES cfg);
     if negb (truthy (VList raw_data_list)) then mret false else
     transformed_data_list ← WeatherTransformer raw_data_list;
     if negb (truthy (VList transformed_data_list)) then mret false else
     result ← load_multiple_records env transformed_data_list;
     _ ← close env;
     mret true)
    (fun _ => mret false).

(** [main.py], run as a script or imported: its top level binds
    [WeatherTransformer] by [from src.transform import WeatherTransformer]
    (line 6), before [run_etl_pipeline] is defined and before the
    [__main__] block calls it.  Nothing catches an exception of the top
    level.  The other names that [main.py] imports are defined by their
    modules. *)
Definition main : M bool :=
  WeatherTransformer ← lift (import_from (src_transform env) "WeatherTransformer");
  run_etl_pipeline WeatherTransformer.

End Pipeline.

(** ** Outcomes of a request, as the fetch sees them *)

(** The exception that [fetch_weather_by_city] lets escape on an outcome,
    if any. *)
Definition raised (o : http_outcome) : option exn :=
  match o with
  | RequestTimeout => Some Timeout
  | Unexpected e => Some e
  | _ => None
  end.

(** The value that [fetch_weather_by_city] returns on an outcome, if it
    returns. *)
Definition returned (o : http_outcome) : option value :=
  match o with
  | Response data => Some data
  | HTTPError _ | RequestException => Some VNone
  | _ => None
  end.

(** The world after [k] more requests and [j] more sleeps of [delay]. *)
Definition after_requests (k j : nat) (delay : Z) (w : World) : World :=
  with_sleeps (sleeps w ++ replicate j delay)%list
    (with_http_calls (http_calls w + k)%nat w).

(** The results of the fetches made for [cities], one per city and in
    order, each starting in the world the previous one left. *)
Fixpoint fetch_each (cfg : Config) (env : Env) (cities : list city_entry)
    (w : World) : list (res value) * World :=
  match cities with
  | [] => ([], w)
  | city :: rest =>
      let '(r, w') := fetch_weather_by_city cfg env (name city) (country city) w in
      let '(rs, w'') := fetch_each cfg env rest w' in
      (r :: rs, w'')
  end.

(** The record a fetch contributes to the batch: the value it returned, when
    that value is true in Python's sense. *)
Definition kept (r : res value) : option value :=
  match r with
  | Ok data => if truthy data then Some data else None
  | Raise _ => None
  end.

(** The record a fetch would contribute if every result other than [None]
    were kept. *)
Definition non_null (r : res value) : option value :=
  match r with
  | Ok VNone => None
  | Ok data => Some data
  | Raise _ => None
  end.

(** ** Invariant of the store *)

(** Modelled from the spec: the identifiers of cities and conditions are
    assigned by the store (section 4.3, the newly assigned identifier), from
    sequences that start at 1, the schema not being in the sources: the
    identifiers in the tables and the next ones to be issued are positive. *)
Definition positive_ids (d : Database) : Prop :=
  0 < next_city_id d /\ 0 < next_condition_id d /\
  Forall (fun r => 0 < city_id r) (cities d) /\
  Forall (fun r => 0 < condition_id r) (weather_conditions d).

(** The results of the loads made for the records of a batch, one per record
    and in order, each starting in the world the previous one left. *)
Fixpoint load_each (env : Env) (transformed_data_list : list value) (w : World)
    : list (res bool) * World :=
  match transformed_data_list with
  | [] => ([], w)
  | data :: rest =>
      let '(r, w') := load_weather_record env data w in
      let '(rs, w'') := load_each env rest w' in
      (r :: rs, w'')
  end.

Definition loaded (r : res bool) : bool :=
  match r with Ok b => b | Raise _ => false end.

(** ** Well-formed raw records

    The required part of a provider record, as the data model has it: the
    fields [transform_single_record] reads without a default are present and
    of the kind it uses them at, and an optional group that is present is an
    object. *)

Definition is_number (v : value) : bool :=
  match as_number v with Some _ => true | None => false end.

Definition lookup_is (P : value -> bool) (m : gmap string value) (k : string) : bool :=
  match m !! k with Some v => P v | None => false end.

Definition has_key (m : gmap string value) (k : string) : bool :=
  lookup_is (fun _ => true) m k.

Definition temperature_ok (v : value) : bool :=
  match as_number v with
  | Some x => Qle_bool (inject_Z (-100)) x && Qle_bool x (inject_Z 60)
  | None => false
  end.

Definition timestamp_ok (v : value) : bool :=
  match as_number v with Some t => representable t | None => false end.

Definition absent_or_dict (m : gmap string value) (k : string) : bool :=
  match m !! k with
  | None | Some (VDict _) => true
  | Some _ => false
  end.

Definition well_formed_raw (d : gmap string value) : bool :=
  has_key d "name" &&
  match d !! "coord" with
  | Some (VDict c) => has_key c "lat" && has_key c "lon"
  | _ => false
  end &&
  match d !! "sys" with
  | Some (VDict s) => has_key s "country"
  | _ => false
  end &&
  match d !! "weather" with
  | Some (VList (VDict first :: _)) =>
      has_key first "main" && has_key first "description" && has_key first "icon"
  | _ => false
  end &&
  match d !! "main" with
  | Some (VDict m) =>
      lookup_is temperature_ok m "temp" && lookup_is is_number m "feels_like" &&
      lookup_is is_number m "temp_min" && lookup_is is_number m "temp_max" &&
      has_key m "pressure" && has_key m "humidity"
  | _ => false
  end &&
  lookup_is timestamp_ok d "dt" &&
  absent_or_dict d "wind" && absent_or_dict d "clouds".

(** The normalized record that the mapping yields on a well-formed raw
    record, field by field: what is absent reads as [None]. *)

Definition field (m : gmap string value) (k : string) : value :=
  default VNone (m !! k).

Definition subfield (d : gmap string value) (group k : string) : value :=
  match d !! group with
  | Some (VDict g) => field g k
  | _ => VNone
  end.

Definition rounded (v : value) : value :=
  match round2 v with Ok r => r | Raise _ => VNone end.

Definition datetime_of (v : value) : value :=
  match fromtimestamp v with Ok r => r | Raise _ => VNone end.

Definition first_condition (d : gmap string value) : gmap string value :=
  match d !! "weather" with
  | Some (VList (VDict first :: _)) => first
  | _ => ∅
  end.

Definition normalized_city (d : gmap string value) : value :=
  dict [("city_name", field d "name");
        ("country_code", subfield d "sys" "country");
        ("latitude", subfield d "coord" "lat");
        ("longitude", subfield d "coord" "lon");
        ("timezone_offset", default (VInt 0) (d !! "timezone"))].

Definition condition_fields (d : gmap string value) : gmap string value :=
  list_to_map [
    ("main_condition", field (first_condition d) "main");
    ("description", field (first_condition d) "description");
    ("icon_code", field (first_condition d) "icon")].

Definition measurement_fields (d : gmap string value) (called : value)
    : gmap string value :=
  list_to_map [
    ("temperature_celsius", rounded (subfield d "main" "temp"));
    ("feels_like_celsius", rounded (subfield d "main" "feels_like"));
    ("temp_min_celsius", rounded (subfield d "main" "temp_min"));
    ("temp_max_celsius", rounded (subfield d "main" "temp_max"));
    ("pressure_hpa", subfield d "main" "pressure");
    ("humidity_percent", subfield d "main" "humidity");
    ("visibility_meters", field d "visibility");
    ("wind_speed_mps", subfield d "wind" "speed");
    ("wind_direction_degrees", subfield d "wind" "deg");
    ("cloudiness_percent", subfield d "clouds" "all");
    ("measurement_timestamp", datetime_of (field d "dt"));
    ("api_call_timestamp", called)].

Definition normalized_fields (d : gmap string value) (called : value)
    : gmap string value :=
  list_to_map [
    ("city", normalized_city d);
    ("condition", VDict (condition_fields d));
    ("measurement", VDict (measurement_fields d called))].

Definition normalized (d : gmap string value) (called : value) : value :=
  VDict (normalized_fields d called).

(** ** Further functions of the sources *)

(** [test_api_connection] of [src/extract.py]: one fetch of London, GB. *)
Definition test_api_connection (cfg : Config) (env : Env) : M bool :=
  try_except
    (data ← fetch_weather_by_city cfg env "London" (Some "GB");
     mret (truthy data))
    (fun _ => mret false).

(** The humidity test of [validate_transformed_data]. *)
Definition humidity_ok (v : value) : bool :=
  match as_number v with
  | Some h => Qle_bool (inject_Z 0) h && Qle_bool h (inject_Z 100)
  | None => false
  end.

(** The results of the transformations made for the items of a batch, one
    per item and in order, each starting in the world the previous one
    left. *)
Fixpoint transform_each (env : Env) (raw_data_list : list value) (w : World)
    : list (res value) * World :=
  match raw_data_list with
  | [] => ([], w)
  | raw_data :: rest =>
      let '(r, w') := transform_single_record env raw_data w in
      let '(rs, w'') := transform_each env rest w' in
      (r :: rs, w'')
  end.

(** ** Constraints of the schema, and growth of the store *)

(** No two entries of a list are the same in the sense of [same]. *)
Definition distinct {A : Type} (same : A -> A -> bool) (l : list A) : Prop :=
  forall i j x y, l !! i = Some x -> l !! j = Some y -> same x y = true -> i = j.

(** Two rows with one natural key: (name, country) for cities, (main
    condition, description) for conditions. *)
Definition same_city (r1 r2 : city_row) : bool :=
  city_matches (city_name r1) (country_code r1) r2.

Definition same_condition (r1 r2 : condition_row) : bool :=
  condition_matches (main_condition r1) (description r1) r2.

(** Modelled from the spec: the constraints that the schema, which is not in
    the sources, puts on the tables (section 6): the identifiers are primary
    keys, assigned from sequences that are ahead of every identifier in use;
    [cities] is unique on name and country, [weather_conditions] on main
    condition and description, [weather_measurements] on the conflict target
    (city_id, measurement_timestamp). *)
Definition schema_constraints (d : Database) : Prop :=
  Forall (fun r => city_id r < next_city_id d) (cities d) /\
  Forall (fun r => condition_id r < next_condition_id d) (weather_conditions d) /\
  NoDup (city_id <$> cities d) /\
  NoDup (condition_id <$> weather_conditions d) /\
  distinct same_city (cities d) /\
  distinct same_condition (weather_conditions d) /\
  distinct conflicts (weather_measurements d).

(** Every measurement refers to a city and to a condition of the store. *)
Definition references_resolve (d : Database) : Prop :=
  Forall (fun r =>
            (exists c, c ∈ cities d /\ m_city_id r = VInt (city_id c)) /\
            (exists k, k ∈ weather_conditions d /\
                       m_condition_id r = VInt (condition_id k)))
         (weather_measurements d).

(** The store [d'] is [d] with rows added at the end of its tables: no row
    of [d] was changed or removed. *)
Definition extends (d d' : Database) : Prop :=
  cities d `prefix_of` cities d' /\
  weather_conditions d `prefix_of` weather_conditions d' /\
  weather_measurements d `prefix_of` weather_measurements d' /\
  next_city_id d <= next_city_id d' /\
  next_condition_id d <= next_condition_id d'.

(** The changes that the statements of [src/load.py] commit: the insert of a
    city (of a condition) under the next identifier of its sequence, after a
    select that found no row with its key, and the insert of a measurement
    that collides with no row on the conflict target. *)
Inductive commits (d : Database) : Database -> Prop :=
| commits_city row :
    city_id row = next_city_id d ->
    List.find (city_matches (city_name row) (country_code row)) (cities d) = None ->
    commits d (add_city row d)
| commits_condition row :
    condition_id row = next_condition_id d ->
    List.find (condition_matches (main_condition row) (description row))
              (weather_conditions d) = None ->
    commits d (add_condition row d)
| commits_measurement row :
    existsb (conflicts row) (weather_measurements d) = false ->
    commits d (add_measurement row d).

(** Between [w] and [w'] only the store was used: no request was issued,
    nothing slept, the clock was not read, and at most [n] connection scopes
    were opened. *)
Definition store_only (n : nat) (w w' : World) : Prop :=
  http_calls w' = http_calls w /\ sleeps w' = sleeps w /\
  clock_reads w' = clock_reads w /\
  (db_calls w <= db_calls w' <= db_calls w + n)%nat.

(** The measurement section of a record has no key [city_id] or
    [condition_id] of its own, which would replace, in the parameters of the
    insert, the identifier that the loader passes. *)
Definition ids_from_loader (transformed_data : value) : Prop :=
  forall m, getitem transformed_data "measurement" = Ok (VDict m) ->
            m !! "city_id" = None /\ m !! "condition_id" = None.

(** The row of [weather_measurements] that the loader builds from the
    normalized record of [d], for the city [cid] and the condition [did]. *)
Definition normalized_row (d : gmap string value) (cid did : Z) : measurement_row :=
  {| m_city_id := VInt cid; m_condition_id := VInt did;
     temperature_celsius := rounded (subfield d "main" "temp");
     feels_like_celsius := rounded (subfield d "main" "feels_like");
     temp_min_celsius := rounded (subfield d "main" "temp_min");
     temp_max_celsius := rounded (subfield d "main" "temp_max");
     pressure_hpa := subfield d "main" "pressure";
     humidity_percent := subfield d "main" "humidity";
     visibility_meters := field d "visibility";
     wind_speed_mps := subfield d "wind" "speed";
     wind_direction_degrees := subfield d "wind" "deg";
     cloudiness_percent := subfield d "clouds" "all";
     measurement_timestamp := datetime_of (field d "dt") |}.

(** ** Sample data of the test suite ([tests/conftest.py],
    [tests/test_transform.py]) *)

Definition sample_main (temp : value) (humidity : value) : value :=
  dict [("temp", temp); ("feels_like", VFloat (71 # 5));
        ("temp_min", VFloat 13); ("temp_max", VFloat 17);
        ("pressure", VInt 1013); ("humidity", humidity)].

(** [minimal_data] of [test_transform_with_missing_optional_fields], with the
    temperature and the humidity left open. *)
Definition minimal_raw (temp humidity : value) : gmap string value :=
  list_to_map [
    ("coord", dict [("lon", VFloat (-1257 # 10000)); ("lat", VFloat (515085 # 10000))]);
    ("weather", VList [dict [("id", VInt 800); ("main", VStr "Clear");
                             ("description", VStr "clear sky"); ("icon", VStr "01d")]]);
    ("main", sample_main temp humidity);
    ("dt", VInt 1609459200);
    ("sys", dict [("country", VStr "GB")]);
    ("name", VStr "London")].

Definition minimal_data : value := VDict (minimal_raw (VFloat (31 # 2)) (VInt 65)).

(** [sample_raw_weather_data]: the minimal record with the optional groups. *)
Definition sample_raw (temp humidity : value) : gmap string value :=
  <["visibility" := VInt 10000]>
  (<["wind" := dict [("speed", VFloat (7 # 2)); ("deg", VInt 180)]]>
  (<["clouds" := dict [("all", VInt 20)]]>
  (<["timezone" := VInt 0]> (minimal_raw temp humidity)))).

Definition sample_raw_weather_data : value :=
  VDict (sample_raw (VFloat (31 # 2)) (VInt 65)).

(** The record [invalid_weather_data] of [tests/conftest.py]: no [coord]. *)
Definition invalid_weather_data : gmap string value :=
  list_to_map [("name", VStr "London"); ("main", dict [("temp", VFloat (31 # 2))])].

(** The record of [test_transform_with_multiple_weather_conditions]. *)
Definition two_conditions_raw : gmap string value :=
  list_to_map [
    ("coord", dict [("lon", VInt 0); ("lat", VInt 0)]);
    ("weather", VList [
       dict [("main", VStr "Rain"); ("description", VStr "light rain"); ("icon", VStr "10d")];
       dict [("main", VStr "Clouds"); ("description", VStr "few clouds"); ("icon", VStr "02d")]]);
    ("main", sample_main (VFloat (31 # 2)) (VInt 65));
    ("dt", VInt 1609459200);
    ("sys", dict [("country", VStr "GB")]);
    ("name", VStr "TestCity")].

Definition sample_measurement (temp humidity : value) : gmap string value :=
  list_to_map [
    ("temperature_celsius", temp);
    ("feels_like_celsius", VFloat (71 # 5));
    ("temp_min_celsius", VFloat 13);
    ("temp_max_celsius", VFloat 17);
    ("pressure_hpa", VInt 1013);
    ("humidity_percent", humidity);
    ("visibility_meters", VInt 10000);
    ("wind_speed_mps", VFloat (7 # 2));
    ("wind_direction_degrees", VInt 180);
    ("cloudiness_percent", VInt 20);
    ("measurement_timestamp", VDatetime 1609459200);
    ("api_call_timestamp", VDatetime 1609459260)].

Definition sample_city : value :=
  dict [("city_name", VStr "London"); ("country_code", VStr "GB");
        ("latitude", VFloat (515085 # 10000)); ("longitude", VFloat (-1257 # 10000));
        ("timezone_offset", VInt 0)].

Definition sample_condition : value :=
  dict [("main_condition", VStr "Clear"); ("description", VStr "clear sky");
        ("icon_code", VStr "01d")].

(** [sample_transformed_data], with the temperature and the humidity left
    open. *)
Definition sample_transformed (temp humidity : value) : gmap string value :=
  list_to_map [
    ("city", sample_city);
    ("condition", sample_condition);
    ("measurement", VDict (sample_measurement temp humidity))].

Definition sample_transformed_data : value :=
  VDict (sample_transformed (VFloat (31 # 2)) (VInt 65)).

Definition empty_database : Database :=
  {| cities := []; weather_conditions := []; weather_measurements := [];
     next_city_id := 1; next_condition_id := 1 |}.

Definition initial_world : World :=
  {| http_calls := 0; sleeps := []; clock_reads := 0; db_calls := 0;
     db := empty_database |}.

(** A run in which the k-th request, for the query [q], is answered by
    [answer k q], the connection scopes listed by [faulty] fail and the clock
    stands still. *)
Definition run_env (answer : nat -> string -> http_outcome) (faulty : nat -> bool) : Env :=
  {| http_get := answer;
     wall_clock := fun _ => inject_Z 1609459260;
     db_fault := faulty;
     create_engine_fails := false;
     dispose_fails := false |}.

(** A run in which the store never fails. *)
Definition quiet_env (answer : nat -> string -> http_outcome) : Env :=
  run_env answer (fun _ => false).

(** A run in which no request is answered. *)
Definition store_env (faulty : nat -> bool) : Env :=
  run_env (fun _ _ => RequestException) faulty.

Definition london : city_entry := {| name := "London"; country := Some "GB" |}.
Definition paris : city_entry := {| name := "Paris"; country := Some "FR" |}.
Definition tokyo : city_entry := {| name := "Tokyo"; country := Some "JP" |}.

(** [sample_cities] of [tests/conftest.py]. *)
Definition sample_cities : list city_entry := [london; paris; tokyo].

Definition sample_config (cities : list city_entry) : Config :=
  {| API_KEY := Some "key"; DB_PASSWORD := Some "postgres";
     CITIES := cities; MAX_RETRIES := 3; RETRY_DELAY := 5 |}.

(** * Properties *)

(** ** Python operators *)

Lemma res_bind_Ok {A B} (a : A) (k : A -> res B) : (Ok a ≫= k) = k a.
Proof. reflexivity. Qed.

Lemma contains_dict d k : contains k (VDict d) = Ok (bool_decide (is_Some (d !! k))).
Proof. reflexivity. Qed.

Lemma contains_dict_Some d k v : d !! k = Some v -> contains k (VDict d) = Ok true.
Proof. intros H. rewrite contains_dict, H. reflexivity. Qed.

Lemma contains_dict_None d k : d !! k = None -> contains k (VDict d) = Ok false.
Proof. intros H. rewrite contains_dict, H. reflexivity. Qed.

Lemma Qlt_bool_iff x y : Qlt_bool x y = true <-> (x < y)%Q.
Proof.
  unfold Qlt_bool. rewrite negb_true_iff. split.
  - intros H. apply Qnot_le_lt. intros Hle. apply Qle_bool_iff in Hle. congruence.
  - intros H. destruct (Qle_bool y x) eqn:E; [|reflexivity].
    apply Qle_bool_iff in E. exfalso. exact (Qlt_not_le _ _ H E).
Qed.

Lemma Qlt_bool_false_iff x y : Qlt_bool x y = false <-> (y <= x)%Q.
Proof.
  unfold Qlt_bool. rewrite negb_false_iff. apply Qle_bool_iff.
Qed.

(** ** The validation gate on transformed records *)

Lemma validate_transformed_in_range td m temp hum t h :
  is_Some (td !! "city") -> is_Some (td !! "condition") ->
  td !! "measurement" = Some (VDict m) ->
  m !! "temperature_celsius" = Some temp ->
  m !! "humidity_percent" = Some hum ->
  as_number temp = Some t -> as_number hum = Some h ->
  validate_transformed_data (VDict td) = Ok true <->
  (inject_Z (-100) <= t /\ t <= inject_Z 60 /\ inject_Z 0 <= h /\ h <= inject_Z 100)%Q.
Proof.
  intros Hc Hk Hm Ht Hh Nt Nh.
  unfold validate_transformed_data, validate_transformed_body.
  cbn [sections_present]. rewrite !contains_dict, Hm.
  rewrite !bool_decide_true by eauto. cbn [negb].
  rewrite !res_bind_Ok. cbn [negb getitem]. rewrite Hm. rewrite !res_bind_Ok. cbn [getitem].
  rewrite Ht, Hh, !res_bind_Ok.
  unfold py_or, lt_int, gt_int. rewrite Nt, Nh, !res_bind_Ok.
  destruct (Qlt_bool t (inject_Z (-100))) eqn:E1.
  { rewrite res_bind_Ok. apply Qlt_bool_iff in E1. split; [discriminate|].
    intros (H1 & _). exfalso. exact (Qlt_not_le _ _ E1 H1). }
  apply Qlt_bool_false_iff in E1.
  destruct (Qlt_bool (inject_Z 60) t) eqn:E2.
  { rewrite res_bind_Ok. apply Qlt_bool_iff in E2. split; [discriminate|].
    intros (_ & H1 & _). exfalso. exact (Qlt_not_le _ _ E2 H1). }
  apply Qlt_bool_false_iff in E2. rewrite !res_bind_Ok.
  destruct (Qlt_bool h (inject_Z 0)) eqn:E3.
  { rewrite res_bind_Ok. apply Qlt_bool_iff in E3. split; [discriminate|].
    intros (_ & _ & H1 & _). exfalso. exact (Qlt_not_le _ _ E3 H1). }
  apply Qlt_bool_false_iff in E3.
  destruct (Qlt_bool (inject_Z 100) h) eqn:E4.
  { rewrite res_bind_Ok. apply Qlt_bool_iff in E4. split; [discriminate|].
    intros (_ & _ & _ & H1). exfalso. exact (Qlt_not_le _ _ E4 H1). }
  apply Qlt_bool_false_iff in E4. rewrite !res_bind_Ok. tauto.
Qed.

Lemma validate_transformed_missing_section td :
  td !! "city" = None \/ td !! "condition" = None \/ td !! "measurement" = None ->
  validate_transformed_data (VDict td) = Ok false.
Proof.
  intros H.
  unfold validate_transformed_data, validate_transformed_body.
  cbn [sections_present].
  destruct (td !! "city") as [c|] eqn:Ec;
    [rewrite (contains_dict_Some _ _ _ Ec) | rewrite (contains_dict_None _ _ Ec); reflexivity].
  rewrite res_bind_Ok. cbn [negb].
  destruct (td !! "condition") as [k|] eqn:Ek;
    [rewrite (contains_dict_Some _ _ _ Ek) | rewrite (contains_dict_None _ _ Ek); reflexivity].
  rewrite res_bind_Ok. cbn [negb].
  destruct (td !! "measurement") as [m|] eqn:Em;
    [|rewrite (contains_dict_None _ _ Em); reflexivity].
  destruct H as [H|[H|H]]; discriminate.
Qed.

(** C7: [validate_transformed_data] accepts exactly the temperatures of
    [-100, 60] and the humidities of [0, 100], both bounds included; on the
    sample record humidity 150 and -10 fail and 65 passes, temperature -99.0
    and 59.0 (and the bounds -100 and 60) pass, -100.0001 and 60.0001 fail;
    a record without its city, condition or measurement section fails. *)
Theorem validate_transformed_data_gate :
  (forall td m temp hum t h,
      is_Some (td !! "city") -> is_Some (td !! "condition") ->
      td !! "measurement" = Some (VDict m) ->
      m !! "temperature_celsius" = Some temp ->
      m !! "humidity_percent" = Some hum ->
      as_number temp = Some t -> as_number hum = Some h ->
      validate_transformed_data (VDict td) = Ok true <->
      (inject_Z (-100) <= t /\ t <= inject_Z 60 /\
       inject_Z 0 <= h /\ h <= inject_Z 100)%Q) /\
  (forall td,
      td !! "city" = None \/ td !! "condition" = None \/ td !! "measurement" = None ->
      validate_transformed_data (VDict td) = Ok false) /\
  let check temp humidity :=
    validate_transformed_data (VDict (sample_transformed temp humidity)) in
  check (VFloat (31 # 2)) (VInt 150) = Ok false /\
  check (VFloat (31 # 2)) (VInt (-10)) = Ok false /\
  check (VFloat (31 # 2)) (VInt 65) = Ok true /\
  check (VFloat (31 # 2)) (VInt 0) = Ok true /\
  check (VFloat (31 # 2)) (VInt 100) = Ok true /\
  check (VFloat (-99)) (VInt 65) = Ok true /\
  check (VFloat 59) (VInt 65) = Ok true /\
  check (VFloat (-100)) (VInt 65) = Ok true /\
  check (VFloat 60) (VInt 65) = Ok true /\
  check (VFloat (-1000001 # 10000)) (VInt 65) = Ok false /\
  check (VFloat (600001 # 10000)) (VInt 65) = Ok false.
Proof.
  split; [exact validate_transformed_in_range|].
  split; [exact validate_transformed_missing_section|].
  cbv zeta. repeat split; vm_compute; reflexivity.
Qed.

Lemma validate_transformed_data_gate_witness :
  validate_transformed_data sample_transformed_data = Ok true /\
  validate_transformed_data (VDict (delete "city" (sample_transformed (VFloat (31 # 2)) (VInt 65))))
    = Ok false.
Proof.
  destruct validate_transformed_data_gate as (Hrange & Hmissing & _).
  split.
  - apply (Hrange (sample_transformed (VFloat (31 # 2)) (VInt 65))
                  (sample_measurement (VFloat (31 # 2)) (VInt 65))
                  (VFloat (31 # 2)) (VInt 65) (31 # 2)%Q (inject_Z 65));
      try reflexivity; try (eexists; reflexivity).
    vm_compute. repeat split; discriminate.
  - apply Hmissing. left. reflexivity.
Defined.

(** ** The effect monad *)

Lemma M_bind_lift {A B} (r : res A) (k : A -> M B) w :
  (lift r ≫= k) w = match r with Ok a => k a w | Raise e => (Raise e, w) end.
Proof. destruct r; reflexivity. Qed.

Lemma M_bind_unfold {A B} (m : M A) (k : A -> M B) w :
  (m ≫= k) w =
  match m w with (Ok a, w') => k a w' | (Raise e, w') => (Raise e, w') end.
Proof. reflexivity. Qed.

(** ** Rejection of raw records by the transformer *)

Lemma transform_single_record_invalid env raw e w :
  validate_weather_data raw = Raise e ->
  transform_single_record env raw w = (Ok VNone, w).
Proof.
  intros H. unfold transform_single_record, try_except, transform_body.
  rewrite M_bind_lift, H. destruct e; reflexivity.
Qed.

(** [transform_single_record] returns, whatever it is given. *)
Lemma transform_single_record_returns env raw w :
  exists v w', transform_single_record env raw w = (Ok v, w').
Proof.
  unfold transform_single_record, try_except.
  destruct (transform_body env raw w) as [[v|e] w'].
  - eauto.
  - destruct e; eauto.
Qed.

Lemma validate_weather_data_missing d :
  d !! "coord" = None \/ d !! "main" = None \/ d !! "name" = None ->
  validate_weather_data (VDict d) = Raise ValueError.
Proof.
  intros H. unfold validate_weather_data. cbn [check_required].
  destruct (d !! "coord") as [c|] eqn:Ec;
    [rewrite (contains_dict_Some _ _ _ Ec) | rewrite (contains_dict_None _ _ Ec); reflexivity].
  rewrite res_bind_Ok. cbn [negb].
  destruct (d !! "main") as [m|] eqn:Em;
    [rewrite (contains_dict_Some _ _ _ Em) | rewrite (contains_dict_None _ _ Em); reflexivity].
  rewrite res_bind_Ok. cbn [negb].
  destruct (d !! "name") as [n|] eqn:En;
    [|rewrite (contains_dict_None _ _ En); reflexivity].
  destruct H as [H|[H|H]]; discriminate.
Qed.

(** A number other than zero is true. *)
Lemma truthy_number v x : as_number v = Some x -> ~ (x == 0)%Q -> truthy v = true.
Proof.
  destruct v as [|b|n|y| | | |]; cbn [as_number truthy]; try discriminate;
    intros [= <-] Hx.
  - destruct b; [reflexivity|]. exfalso. apply Hx. reflexivity.
  - apply negb_true_iff, Z.eqb_neq. intros ->. apply Hx. reflexivity.
  - apply negb_true_iff. destruct (Qeq_bool y 0) eqn:E; [|reflexivity].
    exfalso. apply Hx. apply Qeq_bool_iff. exact E.
Qed.

Lemma validate_weather_data_out_of_range d m temp x :
  d !! "main" = Some (VDict m) -> m !! "temp" = Some temp ->
  as_number temp = Some x ->
  (x < inject_Z (-100) \/ inject_Z 60 < x)%Q ->
  validate_weather_data (VDict d) = Raise ValueError.
Proof.
  intros Hm Ht Hx Hr.
  destruct (d !! "coord") as [c|] eqn:Ec;
    [|apply validate_weather_data_missing; auto].
  destruct (d !! "name") as [n|] eqn:En;
    [|apply validate_weather_data_missing; auto].
  unfold validate_weather_data. cbn [check_required].
  rewrite (contains_dict_Some _ _ _ Ec), (contains_dict_Some _ _ _ Hm),
    (contains_dict_Some _ _ _ En).
  rewrite !res_bind_Ok. cbn [negb getitem]. rewrite Hm, !res_bind_Ok.
  cbn [get]. rewrite Ht, !res_bind_Ok.
  change (default VNone (Some temp)) with temp.
  assert (Hnz : ~ (x == 0)%Q).
  { intros E. rewrite E in Hr. destruct Hr as [Hr|Hr]; revert Hr; vm_compute; congruence. }
  rewrite (truthy_number _ _ Hx Hnz).
  unfold lt_int, gt_int. rewrite Hx, res_bind_Ok.
  destruct (Qlt_bool x (inject_Z (-100))) eqn:E1; [reflexivity|].
  apply Qlt_bool_false_iff in E1.
  destruct Hr as [Hr|Hr]; [exfalso; exact (Qlt_not_le _ _ Hr E1)|].
  apply Qlt_bool_iff in Hr. rewrite Hr. reflexivity.
Qed.

(** C4: a raw record that lacks its [coord], [main] or [name] field, or whose
    main temperature is a number outside [-100, 60], makes
    [transform_single_record] return [None]; nothing is raised and the world
    is left as it was. *)
Theorem transform_single_record_rejects env d w :
  d !! "coord" = None \/ d !! "main" = None \/ d !! "name" = None \/
  (exists m temp x,
      d !! "main" = Some (VDict m) /\ m !! "temp" = Some temp /\
      as_number temp = Some x /\
      (x < inject_Z (-100) \/ inject_Z 60 < x)%Q) ->
  transform_single_record env (VDict d) w = (Ok VNone, w).
Proof.
  intros H. apply transform_single_record_invalid with (e := ValueError).
  destruct H as [H|[H|[H|(m & temp & x & Hm & Ht & Hx & Hr)]]].
  - apply validate_weather_data_missing; auto.
  - apply validate_weather_data_missing; auto.
  - apply validate_weather_data_missing; auto.
  - eapply validate_weather_data_out_of_range; eauto.
Qed.

Lemma transform_single_record_rejects_witness :
  transform_single_record (quiet_env (fun _ _ => RequestException))
    (VDict invalid_weather_data) initial_world = (Ok VNone, initial_world) /\
  transform_single_record (quiet_env (fun _ _ => RequestException))
    (VDict (sample_raw (VFloat 150) (VInt 65))) initial_world = (Ok VNone, initial_world).
Proof.
  split.
  - apply transform_single_record_rejects. left. reflexivity.
  - apply transform_single_record_rejects. right. right. right.
    exists (list_to_map [("temp", VFloat 150); ("feels_like", VFloat (71 # 5));
        ("temp_min", VFloat 13); ("temp_max", VFloat 17);
        ("pressure", VInt 1013); ("humidity", VInt 65)]), (VFloat 150), 150%Q.
    repeat split. right. reflexivity.
Defined.

(** ** The mapping of well-formed raw records *)

Lemma validate_weather_data_in_range d c m n temp :
  d !! "coord" = Some c -> d !! "main" = Some (VDict m) -> d !! "name" = Some n ->
  m !! "temp" = Some temp -> temperature_ok temp = true ->
  validate_weather_data (VDict d) = Ok true.
Proof.
  intros Hc Hm Hn Ht Hok.
  unfold validate_weather_data. cbn [check_required].
  rewrite (contains_dict_Some _ _ _ Hc), (contains_dict_Some _ _ _ Hm),
    (contains_dict_Some _ _ _ Hn).
  rewrite !res_bind_Ok. cbn [negb getitem]. rewrite Hm, !res_bind_Ok.
  cbn [get]. rewrite Ht, !res_bind_Ok.
  change (default VNone (Some temp)) with temp.
  unfold temperature_ok in Hok. destruct (as_number temp) as [x|] eqn:Hx; [|discriminate].
  apply andb_true_iff in Hok as [Hlo Hhi].
  destruct (truthy temp); [|reflexivity].
  unfold lt_int, gt_int, Qlt_bool. rewrite Hx, Hlo, !res_bind_Ok. cbn [negb].
  rewrite Hhi. reflexivity.
Qed.

Lemma round2_number v : is_number v = true -> round2 v = Ok (rounded v).
Proof. destruct v; try discriminate; reflexivity. Qed.

Lemma temperature_ok_number v : temperature_ok v = true -> is_number v = true.
Proof.
  unfold temperature_ok, is_number. destruct (as_number v); [reflexivity|discriminate].
Qed.

Lemma fromtimestamp_ok v : timestamp_ok v = true -> fromtimestamp v = Ok (datetime_of v).
Proof.
  unfold timestamp_ok, datetime_of, fromtimestamp.
  destruct (as_number v); [|discriminate]. intros ->. reflexivity.
Qed.

Ltac lookup_cases :=
  repeat match goal with
         | H : (_ && _) = true |- _ => apply andb_true_iff in H as [? ?]
         | H : match ?m !! ?k with _ => _ end = true |- _ =>
             let E := fresh "E" in destruct (m !! k) eqn:E; try discriminate H
         | H : match ?v with VNone => _ | _ => _ end = true |- _ =>
             destruct v; try discriminate H
         | H : match ?l with [] => _ | _ => _ end = true |- _ =>
             destruct l; try discriminate H
         end.

Ltac run_step :=
  first [ rewrite M_bind_lift
        | rewrite res_bind_Ok
        | progress cbn [getitem get getitem0]
        | rewrite round2_number by (assumption || (apply temperature_ok_number; assumption))
        | rewrite fromtimestamp_ok by assumption
        | match goal with
          | E : ?m !! ?k = _ |- context [?m !! ?k] => rewrite E
          end ].

Lemma transform_well_formed env d w :
  well_formed_raw d = true ->
  transform_single_record env (VDict d) w =
  (Ok (normalized d (VDatetime (wall_clock env (clock_reads w)))),
   with_clock_reads (S (clock_reads w)) w).
Proof.
  intros H. unfold well_formed_raw in H.
  unfold has_key, lookup_is in H. lookup_cases.
  unfold absent_or_dict in *. lookup_cases.
  all: unfold transform_single_record, try_except, transform_body.
  all: erewrite M_bind_lift, validate_weather_data_in_range by eassumption.
  all: repeat run_step.
  all: unfold normalized, normalized_fields, normalized_city, condition_fields,
    measurement_fields, first_condition, subfield, field.
  all: repeat run_step.
  all: reflexivity.
Qed.

(** ** Only the first weather-condition entry is read *)

Lemma transform_ignores_later_conditions env d e0 rest rest' w :
  d !! "weather" = Some (VList (e0 :: rest)) ->
  transform_single_record env (VDict (<["weather" := VList (e0 :: rest')]> d)) w =
  transform_single_record env (VDict d) w.
Proof.
  intros Hw.
  unfold transform_single_record, try_except, transform_body, validate_weather_data.
  cbn [check_required]. rewrite !contains_dict. cbn [getitem get].
  rewrite lookup_insert_eq, Hw, !res_bind_Ok. cbn [getitem0].
  rewrite !lookup_insert_ne by discriminate.
  reflexivity.
Qed.

(** C9: the entries of the weather-condition list beyond the first never
    influence the result; on a well-formed raw record
    [transform_single_record] succeeds, the condition sub-record carries the
    main, description and icon of the first entry, and each of the optional
    groups (visibility, wind, clouds) that is missing leaves its measurement
    fields [None]. *)
Theorem transform_first_condition_and_optional_groups :
  (forall env d e0 rest rest' w,
      d !! "weather" = Some (VList (e0 :: rest)) ->
      transform_single_record env (VDict (<["weather" := VList (e0 :: rest')]> d)) w =
      transform_single_record env (VDict d) w) /\
  (forall env d w,
      well_formed_raw d = true ->
      exists t c m,
        transform_single_record env (VDict d) w =
          (Ok (VDict t), with_clock_reads (S (clock_reads w)) w) /\
        t !! "condition" = Some (VDict c) /\
        t !! "measurement" = Some (VDict m) /\
        (forall first e1 rest,
            d !! "weather" = Some (VList (VDict first :: e1 :: rest)) ->
            is_Some (first !! "main") /\
            c !! "main_condition" = first !! "main" /\
            c !! "description" = first !! "description" /\
            c !! "icon_code" = first !! "icon") /\
        (d !! "visibility" = None -> m !! "visibility_meters" = Some VNone) /\
        (d !! "wind" = None ->
         m !! "wind_speed_mps" = Some VNone /\
         m !! "wind_direction_degrees" = Some VNone) /\
        (d !! "clouds" = None -> m !! "cloudiness_percent" = Some VNone)).
Proof.
  split; [exact transform_ignores_later_conditions|].
  intros env d w Hwf.
  exists (normalized_fields d (VDatetime (wall_clock env (clock_reads w)))),
    (condition_fields d),
    (measurement_fields d (VDatetime (wall_clock env (clock_reads w)))).
  split; [apply transform_well_formed; exact Hwf|].
  split; [reflexivity|]. split; [reflexivity|].
  split; [|split; [|split]].
  - intros first e1 rest H.
    unfold well_formed_raw in Hwf. rewrite H in Hwf.
    unfold has_key, lookup_is in Hwf. lookup_cases.
    unfold condition_fields, first_condition, field. rewrite H.
    repeat match goal with E : first !! _ = Some _ |- _ => rewrite E; clear E end.
    repeat split. eauto.
  - intros H. unfold measurement_fields, field. rewrite H. reflexivity.
  - intros H. unfold measurement_fields, subfield. rewrite H. split; reflexivity.
  - intros H. unfold measurement_fields, subfield. rewrite H. reflexivity.
Qed.

Lemma transform_first_condition_and_optional_groups_witness :
  (exists t c,
      fst (transform_single_record (quiet_env (fun _ _ => RequestException))
             (VDict two_conditions_raw) initial_world) = Ok (VDict t) /\
      t !! "condition" = Some (VDict c) /\
      c !! "main_condition" = Some (VStr "Rain") /\
      c !! "description" = Some (VStr "light rain")) /\
  (exists t m,
      fst (transform_single_record (quiet_env (fun _ _ => RequestException))
             minimal_data initial_world) = Ok (VDict t) /\
      t !! "measurement" = Some (VDict m) /\
      m !! "visibility_meters" = Some VNone /\
      m !! "wind_speed_mps" = Some VNone /\
      m !! "wind_direction_degrees" = Some VNone /\
      m !! "cloudiness_percent" = Some VNone).
Proof.
  destruct transform_first_condition_and_optional_groups as [_ Hwf].
  split.
  - destruct (Hwf (quiet_env (fun _ _ => RequestException)) two_conditions_raw
                initial_world eq_refl)
      as (t & c & m & Hrun & Hc & _ & Hfirst & _).
    exists t, c. rewrite Hrun. split; [reflexivity|]. split; [exact Hc|].
    destruct (Hfirst _ _ _ eq_refl) as (_ & Hmain & Hdesc & _).
    split; [rewrite Hmain|rewrite Hdesc]; reflexivity.
  - destruct (Hwf (quiet_env (fun _ _ => RequestException))
                (minimal_raw (VFloat (31 # 2)) (VInt 65)) initial_world eq_refl)
      as (t & c & m & Hrun & _ & Hm & _ & Hvis & Hwind & Hclouds).
    exists t, m. unfold minimal_data. rewrite Hrun.
    split; [reflexivity|]. split; [exact Hm|].
    split; [apply Hvis; reflexivity|].
    split; [apply Hwind; reflexivity|].
    split; [apply Hwind; reflexivity|apply Hclouds; reflexivity].
Defined.

(** ** The retry wrapper *)

Section Retry.

Context (max_retries delay : Z) (func : M value).

Lemma retry_loop_returns attempt rest w v w' :
  func w = (Ok v, w') ->
  retry_loop max_retries delay func (attempt :: rest) w = (Ok v, w').
Proof. intros H. cbn [retry_loop]. unfold try_except. rewrite H. reflexivity. Qed.

Lemma retry_loop_last attempt rest w e w' :
  func w = (Raise e, w') -> attempt = max_retries - 1 ->
  retry_loop max_retries delay func (attempt :: rest) w = (Raise e, w').
Proof.
  intros H ->. cbn [retry_loop]. unfold try_except. rewrite H.
  rewrite Z.eqb_refl. reflexivity.
Qed.

Lemma retry_loop_again attempt rest w e w' :
  func w = (Raise e, w') -> attempt <> max_retries - 1 ->
  retry_loop max_retries delay func (attempt :: rest) w =
  retry_loop max_retries delay func rest (with_sleeps (sleeps w' ++ [delay]) w').
Proof.
  intros H Hne. cbn [retry_loop]. unfold try_except. rewrite H.
  apply Z.eqb_neq in Hne. rewrite Hne. reflexivity.
Qed.

End Retry.

Section RetryFetch.

Context (cfg : Config) (env : Env) (city_name : string) (country_code : option string).

Let q := query_of city_name country_code.

Lemma fetch_once_returned w v :
  returned (http_get env (http_calls w) q) = Some v ->
  fetch_weather_by_city_once env city_name country_code w =
  (Ok v, with_http_calls (S (http_calls w)) w).
Proof.
  unfold fetch_weather_by_city_once. fold q.
  destruct (http_get env (http_calls w) q); cbn [returned]; intros [= <-]; reflexivity.
Qed.

Lemma fetch_once_raised w e :
  raised (http_get env (http_calls w) q) = Some e ->
  fetch_weather_by_city_once env city_name country_code w =
  (Raise e, with_http_calls (S (http_calls w)) w).
Proof.
  unfold fetch_weather_by_city_once. fold q.
  destruct (http_get env (http_calls w) q); cbn [raised]; intros [= <-]; reflexivity.
Qed.

Lemma after_requests_step k j d w :
  after_requests k j d
    (with_sleeps (sleeps (with_http_calls (S (http_calls w)) w) ++ [d])
       (with_http_calls (S (http_calls w)) w)) =
  after_requests (S k) (S j) d w.
Proof.
  unfold after_requests, with_sleeps, with_http_calls. cbn.
  f_equal; [lia|]. rewrite <- app_assoc. reflexivity.
Qed.

(** After [j] raising attempts, an attempt that returns ends the loop. *)
Lemma retry_loop_fetch_returns (j : nat) : forall (a len : Z) (w : World) (v : value),
  a + len = MAX_RETRIES cfg -> Z.of_nat j < len ->
  (forall i, (i < j)%nat -> is_Some (raised (http_get env (http_calls w + i) q))) ->
  returned (http_get env (http_calls w + j) q) = Some v ->
  retry_loop (MAX_RETRIES cfg) (RETRY_DELAY cfg)
    (fetch_weather_by_city_once env city_name country_code) (seqZ a len) w =
  (Ok v, after_requests (S j) j (RETRY_DELAY cfg) w).
Proof.
  induction j as [|j IH]; intros a len w v Hlen Hj Hraise Hret.
  - rewrite seqZ_cons by lia. rewrite Nat.add_0_r in Hret.
    erewrite retry_loop_returns by (apply fetch_once_returned; exact Hret).
    f_equal. unfold after_requests, with_sleeps, with_http_calls. cbn.
    rewrite app_nil_r. f_equal. lia.
  - rewrite seqZ_cons by lia.
    destruct (Hraise 0%nat ltac:(lia)) as [e He]. rewrite Nat.add_0_r in He.
    erewrite retry_loop_again; [|apply fetch_once_raised; exact He|lia].
    erewrite IH with (v := v); [|lia|lia| |].
    + rewrite after_requests_step. reflexivity.
    + intros i Hi. cbn. replace (S (http_calls w + i))%nat with (http_calls w + S i)%nat by lia.
      apply Hraise. lia.
    + cbn. replace (S (http_calls w + j))%nat with (http_calls w + S j)%nat by lia.
      exact Hret.
Qed.

(** When every attempt raises, the exception of the last one escapes. *)
Lemma retry_loop_fetch_exhausted (j : nat) : forall (a : Z) (w : World) (e : exn),
  a + Z.of_nat (S j) = MAX_RETRIES cfg ->
  (forall i, (i < j)%nat -> is_Some (raised (http_get env (http_calls w + i) q))) ->
  raised (http_get env (http_calls w + j) q) = Some e ->
  retry_loop (MAX_RETRIES cfg) (RETRY_DELAY cfg)
    (fetch_weather_by_city_once env city_name country_code) (seqZ a (Z.of_nat (S j))) w =
  (Raise e, after_requests (S j) j (RETRY_DELAY cfg) w).
Proof.
  induction j as [|j IH]; intros a w e Hlen Hraise Hlast.
  - rewrite seqZ_cons by lia. rewrite Nat.add_0_r in Hlast.
    erewrite retry_loop_last; [|apply fetch_once_raised; exact Hlast|lia].
    f_equal. unfold after_requests, with_sleeps, with_http_calls. cbn.
    rewrite app_nil_r. f_equal. lia.
  - rewrite seqZ_cons by lia.
    destruct (Hraise 0%nat ltac:(lia)) as [e0 He]. rewrite Nat.add_0_r in He.
    erewrite retry_loop_again; [|apply fetch_once_raised; exact He|lia].
    replace (Z.pred (Z.of_nat (S (S j)))) with (Z.of_nat (S j)) by lia.
    erewrite IH with (e := e); [|lia| |].
    + rewrite after_requests_step. reflexivity.
    + intros i Hi. cbn. replace (S (http_calls w + i))%nat with (http_calls w + S i)%nat by lia.
      apply Hraise. lia.
    + cbn. replace (S (http_calls w + j))%nat with (http_calls w + S j)%nat by lia.
      exact Hlast.
Qed.

End RetryFetch.

(** C3: [fetch_weather_by_city] under its retry wrapper.  An attempt is made
    again only after one that raised: if the first [j] attempts raise and
    the next one returns, its value (be it [None], as after an HTTP error
    status) is the result, after exactly [j + 1] requests and [j] sleeps; in
    particular a first attempt that returns is never repeated.  When all
    [MAX_RETRIES] attempts raise, the exception of the last one is raised
    to the caller. *)
Theorem fetch_weather_by_city_retry cfg env city_name country_code w :
  let outcome i :=
    http_get env (http_calls w + i) (query_of city_name country_code) in
  (forall (j : nat) v,
      Z.of_nat j < MAX_RETRIES cfg ->
      (forall i, (i < j)%nat -> is_Some (raised (outcome i))) ->
      returned (outcome j) = Some v ->
      fetch_weather_by_city cfg env city_name country_code w =
      (Ok v, after_requests (S j) j (RETRY_DELAY cfg) w)) /\
  (forall status_code,
      0 < MAX_RETRIES cfg ->
      outcome 0%nat = HTTPError status_code ->
      fetch_weather_by_city cfg env city_name country_code w =
      (Ok VNone, after_requests 1 0 (RETRY_DELAY cfg) w)) /\
  (forall (j : nat) e,
      Z.of_nat (S j) = MAX_RETRIES cfg ->
      (forall i, (i < j)%nat -> is_Some (raised (outcome i))) ->
      raised (outcome j) = Some e ->
      fetch_weather_by_city cfg env city_name country_code w =
      (Raise e, after_requests (S j) j (RETRY_DELAY cfg) w)).
Proof.
  intros outcome. unfold fetch_weather_by_city, retry_on_failure.
  split; [|split].
  - intros j v Hj Hraise Hret.
    apply retry_loop_fetch_returns; [lia|lia|exact Hraise|exact Hret].
  - intros status_code Hpos Hout.
    apply (retry_loop_fetch_returns cfg env city_name country_code 0%nat);
      [lia|lia|intros i Hi; lia|].
    fold (outcome 0%nat). rewrite Hout. reflexivity.
  - intros j e Hj Hraise Hlast.
    replace (seqZ 0 (MAX_RETRIES cfg)) with (seqZ 0 (Z.of_nat (S j)))
      by (rewrite Hj; reflexivity).
    apply retry_loop_fetch_exhausted; [lia|exact Hraise|exact Hlast].
Qed.

Lemma fetch_weather_by_city_retry_witness :
  let world k sleeps := with_sleeps sleeps (with_http_calls k initial_world) in
  fetch_weather_by_city (sample_config []) (quiet_env (fun _ _ => RequestTimeout))
    "London" (Some "GB") initial_world = (Raise Timeout, world 3%nat [5; 5]) /\
  fetch_weather_by_city (sample_config []) (quiet_env (fun _ _ => HTTPError 404))
    "London" (Some "GB") initial_world = (Ok VNone, world 1%nat []) /\
  fetch_weather_by_city (sample_config [])
    (quiet_env (fun k _ => match k with
                           | O => RequestTimeout
                           | _ => Response sample_raw_weather_data
                           end))
    "London" (Some "GB") initial_world = (Ok sample_raw_weather_data, world 2%nat [5]).
Proof.
  cbv zeta. split; [|split].
  - apply (proj2 (proj2 (fetch_weather_by_city_retry (sample_config [])
        (quiet_env (fun _ _ => RequestTimeout)) "London" (Some "GB") initial_world))
        2%nat Timeout).
    + reflexivity.
    + intros i _. eexists. reflexivity.
    + reflexivity.
  - apply (proj1 (proj2 (fetch_weather_by_city_retry (sample_config [])
        (quiet_env (fun _ _ => HTTPError 404)) "London" (Some "GB") initial_world))
        404).
    + reflexivity.
    + reflexivity.
  - apply (proj1 (fetch_weather_by_city_retry (sample_config []) _
        "London" (Some "GB") initial_world) 1%nat sample_raw_weather_data).
    + reflexivity.
    + intros i Hi. assert (i = 0%nat) as -> by lia. eexists. reflexivity.
    + reflexivity.
Defined.

(** ** The batch fetch *)

Lemma omap_cons {A B} (f : A -> option B) (x : A) (l : list A) :
  omap f (x :: l) = match f x with Some y => y :: omap f l | None => omap f l end.
Proof. reflexivity. Qed.

Section FetchMany.

Context (cfg : Config) (env : Env).

Lemma fetch_loop_each cities : forall weather_data w,
  fetch_loop cfg env cities weather_data w =
  (Ok (weather_data ++ omap kept (fst (fetch_each cfg env cities w)))%list,
   snd (fetch_each cfg env cities w)).
Proof.
  induction cities as [|city rest IH]; intros weather_data w.
  - cbn. rewrite app_nil_r. reflexivity.
  - cbn [fetch_loop fetch_each]. rewrite M_bind_unfold. unfold try_except.
    rewrite M_bind_unfold.
    destruct (fetch_weather_by_city cfg env (name city) (country city) w) as [[data|e] w'].
    + cbn [mret M_ret]. rewrite IH.
      destruct (fetch_each cfg env rest w') as [rs w''].
      cbn [fst snd]. rewrite (omap_cons kept). cbn [kept].
      destruct (truthy data).
      * rewrite <- app_assoc. reflexivity.
      * reflexivity.
    + cbn [mret M_ret]. rewrite IH.
      destruct (fetch_each cfg env rest w') as [rs w'']. reflexivity.
Qed.

Lemma fetch_each_length cities : forall w,
  length (fst (fetch_each cfg env cities w)) = length cities.
Proof.
  induction cities as [|city rest IH]; intros w; [reflexivity|].
  cbn [fetch_each].
  destruct (fetch_weather_by_city cfg env (name city) (country city) w) as [r w'].
  specialize (IH w'). destruct (fetch_each cfg env rest w') as [rs w''].
  cbn in *. rewrite IH. reflexivity.
Qed.

End FetchMany.

(** C5, as amended: [fetch_weather_for_cities] makes one fetch per city, in
    order, and never raises; it returns the results that are true in
    Python's sense (neither [None] nor an empty or zero value), in the order
    of the cities, and drops the cities whose fetch raised or returned
    anything else.  For three cities of which exactly one is dropped, the
    two other records are returned in their order. *)
Theorem fetch_weather_for_cities_kept cfg env cities w :
  length (fst (fetch_each cfg env cities w)) = length cities /\
  fetch_weather_for_cities cfg env cities w =
    (Ok (omap kept (fst (fetch_each cfg env cities w))),
     snd (fetch_each cfg env cities w)) /\
  (forall r1 r2 r3 a b,
      fst (fetch_each cfg env cities w) = [r1; r2; r3] ->
      (kept r1 = None /\ kept r2 = Some a /\ kept r3 = Some b) \/
      (kept r1 = Some a /\ kept r2 = None /\ kept r3 = Some b) \/
      (kept r1 = Some a /\ kept r2 = Some b /\ kept r3 = None) ->
      fst (fetch_weather_for_cities cfg env cities w) = Ok [a; b]).
Proof.
  assert (Hrun : fetch_weather_for_cities cfg env cities w =
    (Ok (omap kept (fst (fetch_each cfg env cities w))),
     snd (fetch_each cfg env cities w))).
  { unfold fetch_weather_for_cities. rewrite fetch_loop_each. reflexivity. }
  split; [apply fetch_each_length|]. split; [exact Hrun|].
  intros r1 r2 r3 a b Heach Hone. rewrite Hrun, Heach. cbn [fst].
  rewrite !omap_cons.
  destruct Hone as [(H1 & H2 & H3)|[(H1 & H2 & H3)|(H1 & H2 & H3)]];
    rewrite H1, H2, H3; reflexivity.
Qed.

Lemma fetch_weather_for_cities_kept_witness :
  fst (fetch_weather_for_cities (sample_config sample_cities)
         (quiet_env (fun k _ => match k with
                                | 1%nat => HTTPError 404
                                | _ => Response sample_raw_weather_data
                                end))
         sample_cities initial_world)
  = Ok [sample_raw_weather_data; sample_raw_weather_data].
Proof.
  eapply (proj2 (proj2 (fetch_weather_for_cities_kept _ _ _ _))).
  - reflexivity.
  - right. left. repeat split; reflexivity.
Defined.

(** The claim fails as stated: a response whose body is the empty object is
    a result other than [None], and the batch does not contain it. *)
Lemma fetch_weather_for_cities_drops_empty_object :
  fst (fetch_each (sample_config [london])
         (quiet_env (fun _ _ => Response (dict []))) [london] initial_world)
    = [Ok (dict [])] /\
  fst (fetch_weather_for_cities (sample_config [london])
         (quiet_env (fun _ _ => Response (dict []))) [london] initial_world)
    = Ok [] /\
  fst (fetch_weather_for_cities (sample_config [london])
         (quiet_env (fun _ _ => Response (dict []))) [london] initial_world)
    <> Ok (omap non_null
             (fst (fetch_each (sample_config [london])
                     (quiet_env (fun _ _ => Response (dict []))) [london]
                     initial_world))).
Proof. split; [reflexivity|]. split; [reflexivity|]. vm_compute. discriminate. Qed.

(** ** The loader: upserts and the measurement insert *)

Lemma sql_eq_str s : sql_eq (VStr s) (VStr s) = true.
Proof. cbn. apply String.eqb_refl. Qed.

Lemma find_snoc_None {A} (p : A -> bool) (l : list A) (x : A) :
  List.find p l = None -> p x = true -> List.find p (l ++ [x]) = Some x.
Proof.
  induction l as [|y l IH]; cbn; intros Hl Hx.
  - rewrite Hx. reflexivity.
  - destruct (p y); [discriminate|]. apply IH; assumption.
Qed.

Section Upserts.

Context (env : Env).

Lemma connect_ok w :
  db_fault env (db_calls w) = false ->
  connect env w = (Ok tt, with_db_calls (S (db_calls w)) w).
Proof. intros H. unfold connect. rewrite H. reflexivity. Qed.

(** The row that [load_city] inserts for the city [m] into the store [d]. *)
Lemma load_city_found m w v_name v_country r :
  db_fault env (db_calls w) = false ->
  m !! "city_name" = Some v_name -> m !! "country_code" = Some v_country ->
  List.find (city_matches v_name v_country) (cities (db w)) = Some r ->
  load_city env (VDict m) w = (Ok (Some (city_id r)), with_db_calls (S (db_calls w)) w).
Proof.
  intros Hf Hn Hc Hfind.
  unfold load_city, try_except, load_city_body.
  rewrite M_bind_unfold, (connect_ok _ Hf).
  rewrite M_bind_lift. cbn [getitem]. rewrite Hn.
  rewrite M_bind_lift. cbn [getitem]. rewrite Hc.
  rewrite M_bind_unfold. unfold select_city. cbn [db with_db_calls].
  rewrite Hfind. reflexivity.
Qed.

Lemma load_city_new m w v_name v_country v_lat v_lon v_tz :
  db_fault env (db_calls w) = false ->
  m !! "city_name" = Some v_name -> m !! "country_code" = Some v_country ->
  m !! "latitude" = Some v_lat -> m !! "longitude" = Some v_lon ->
  m !! "timezone_offset" = Some v_tz ->
  List.find (city_matches v_name v_country) (cities (db w)) = None ->
  load_city env (VDict m) w =
  (Ok (Some (next_city_id (db w))),
   with_db (add_city {| city_id := next_city_id (db w); city_name := v_name;
                        country_code := v_country; latitude := v_lat;
                        longitude := v_lon; timezone_offset := v_tz |} (db w))
     (with_db_calls (S (db_calls w)) w)).
Proof.
  intros Hf Hn Hc Hlat Hlon Htz Hfind.
  unfold load_city, try_except, load_city_body.
  rewrite M_bind_unfold, (connect_ok _ Hf).
  rewrite M_bind_lift. cbn [getitem]. rewrite Hn.
  rewrite M_bind_lift. cbn [getitem]. rewrite Hc.
  rewrite M_bind_unfold. unfold select_city. cbn [db with_db_calls].
  rewrite Hfind.
  repeat (rewrite M_bind_lift; cbn [bind_param]).
  rewrite Hn, Hc, Hlat, Hlon, Htz. reflexivity.
Qed.

Lemma load_weather_condition_found m w v_main v_description r :
  db_fault env (db_calls w) = false ->
  m !! "main_condition" = Some v_main -> m !! "description" = Some v_description ->
  List.find (condition_matches v_main v_description) (weather_conditions (db w)) = Some r ->
  load_weather_condition env (VDict m) w =
  (Ok (Some (condition_id r)), with_db_calls (S (db_calls w)) w).
Proof.
  intros Hf Hm Hd Hfind.
  unfold load_weather_condition, try_except, load_weather_condition_body.
  rewrite M_bind_unfold, (connect_ok _ Hf).
  rewrite M_bind_lift. cbn [getitem]. rewrite Hm.
  rewrite M_bind_lift. cbn [getitem]. rewrite Hd.
  rewrite M_bind_unfold. unfold select_condition. cbn [db with_db_calls].
  rewrite Hfind. reflexivity.
Qed.

Lemma load_weather_condition_new m w v_main v_description v_icon :
  db_fault env (db_calls w) = false ->
  m !! "main_condition" = Some v_main -> m !! "description" = Some v_description ->
  m !! "icon_code" = Some v_icon ->
  List.find (condition_matches v_main v_description) (weather_conditions (db w)) = None ->
  load_weather_condition env (VDict m) w =
  (Ok (Some (next_condition_id (db w))),
   with_db (add_condition {| condition_id := next_condition_id (db w);
                             main_condition := v_main;
                             description := v_description;
                             icon_code := v_icon |} (db w))
     (with_db_calls (S (db_calls w)) w)).
Proof.
  intros Hf Hm Hd Hi Hfind.
  unfold load_weather_condition, try_except, load_weather_condition_body.
  rewrite M_bind_unfold, (connect_ok _ Hf).
  rewrite M_bind_lift. cbn [getitem]. rewrite Hm.
  rewrite M_bind_lift. cbn [getitem]. rewrite Hd.
  rewrite M_bind_unfold. unfold select_condition. cbn [db with_db_calls].
  rewrite Hfind.
  repeat (rewrite M_bind_lift; cbn [bind_param]).
  rewrite Hm, Hd, Hi. reflexivity.
Qed.

Lemma load_measurement_run measurement_data cid did w data row :
  db_fault env (db_calls w) = false ->
  measurement_params measurement_data cid did = Ok data ->
  measurement_values data = Ok row ->
  load_measurement env measurement_data cid did w =
  (Ok true,
   if existsb (conflicts row) (weather_measurements (db w))
   then with_db_calls (S (db_calls w)) w
   else with_db (add_measurement row (db w)) (with_db_calls (S (db_calls w)) w)).
Proof.
  intros Hf Hp Hv.
  unfold load_measurement, try_except, load_measurement_body.
  rewrite M_bind_unfold, (connect_ok _ Hf).
  rewrite M_bind_lift, Hp, M_bind_lift, Hv, M_bind_unfold.
  unfold insert_measurement. cbn [db with_db_calls].
  destruct (existsb (conflicts row) (weather_measurements (db w))); reflexivity.
Qed.

(** Calling [load_city] twice on one city. *)
Lemma load_city_twice m w s_name s_country v_lat v_lon v_tz :
  db_fault env (db_calls w) = false ->
  db_fault env (S (db_calls w)) = false ->
  m !! "city_name" = Some (VStr s_name) ->
  m !! "country_code" = Some (VStr s_country) ->
  m !! "latitude" = Some v_lat -> m !! "longitude" = Some v_lon ->
  m !! "timezone_offset" = Some v_tz ->
  exists id w1 w2,
    load_city env (VDict m) w = (Ok (Some id), w1) /\
    load_city env (VDict m) w1 = (Ok (Some id), w2) /\
    db w2 = db w1 /\
    match List.find (city_matches (VStr s_name) (VStr s_country)) (cities (db w)) with
    | Some r => id = city_id r /\ db w1 = db w
    | None =>
        id = next_city_id (db w) /\
        cities (db w2) =
          (cities (db w) ++
             [{| city_id := id; city_name := VStr s_name;
                 country_code := VStr s_country; latitude := v_lat;
                 longitude := v_lon; timezone_offset := v_tz |}])%list
    end.
Proof.
  intros Hf1 Hf2 Hn Hc Hlat Hlon Htz.
  destruct (List.find (city_matches (VStr s_name) (VStr s_country)) (cities (db w)))
    as [r|] eqn:Hfind.
  - exists (city_id r), (with_db_calls (S (db_calls w)) w),
      (with_db_calls (S (S (db_calls w))) w).
    split; [eapply load_city_found; eassumption|].
    split; [|split; [reflexivity|split; reflexivity]].
    apply (load_city_found m (with_db_calls (S (db_calls w)) w)
             (VStr s_name) (VStr s_country) r Hf2 Hn Hc Hfind).
  - set (row := {| city_id := next_city_id (db w); city_name := VStr s_name;
                   country_code := VStr s_country; latitude := v_lat;
                   longitude := v_lon; timezone_offset := v_tz |}).
    set (w1 := with_db (add_city row (db w)) (with_db_calls (S (db_calls w)) w)).
    exists (next_city_id (db w)), w1, (with_db_calls (S (db_calls w1)) w1).
    split; [eapply load_city_new; eassumption|].
    split; [|split; [reflexivity|split; reflexivity]].
    apply (load_city_found m w1 (VStr s_name) (VStr s_country) row Hf2 Hn Hc).
    apply find_snoc_None; [exact Hfind|].
    unfold city_matches. cbn [row city_name country_code].
    rewrite !sql_eq_str. reflexivity.
Qed.

Lemma load_weather_condition_twice m w s_main s_description v_icon :
  db_fault env (db_calls w) = false ->
  db_fault env (S (db_calls w)) = false ->
  m !! "main_condition" = Some (VStr s_main) ->
  m !! "description" = Some (VStr s_description) ->
  m !! "icon_code" = Some v_icon ->
  exists id w1 w2,
    load_weather_condition env (VDict m) w = (Ok (Some id), w1) /\
    load_weather_condition env (VDict m) w1 = (Ok (Some id), w2) /\
    db w2 = db w1 /\
    match List.find (condition_matches (VStr s_main) (VStr s_description))
            (weather_conditions (db w)) with
    | Some r => id = condition_id r /\ db w1 = db w
    | None =>
        id = next_condition_id (db w) /\
        weather_conditions (db w2) =
          (weather_conditions (db w) ++
             [{| condition_id := id; main_condition := VStr s_main;
                 description := VStr s_description; icon_code := v_icon |}])%list
    end.
Proof.
  intros Hf1 Hf2 Hm Hd Hi.
  destruct (List.find (condition_matches (VStr s_main) (VStr s_description))
              (weather_conditions (db w))) as [r|] eqn:Hfind.
  - exists (condition_id r), (with_db_calls (S (db_calls w)) w),
      (with_db_calls (S (S (db_calls w))) w).
    split; [eapply load_weather_condition_found; eassumption|].
    split; [|split; [reflexivity|split; reflexivity]].
    apply (load_weather_condition_found m (with_db_calls (S (db_calls w)) w)
             (VStr s_main) (VStr s_description) r Hf2 Hm Hd Hfind).
  - set (row := {| condition_id := next_condition_id (db w);
                   main_condition := VStr s_main;
                   description := VStr s_description; icon_code := v_icon |}).
    set (w1 := with_db (add_condition row (db w)) (with_db_calls (S (db_calls w)) w)).
    exists (next_condition_id (db w)), w1, (with_db_calls (S (db_calls w1)) w1).
    split; [eapply load_weather_condition_new; eassumption|].
    split; [|split; [reflexivity|split; reflexivity]].
    apply (load_weather_condition_found m w1 (VStr s_main) (VStr s_description) row
             Hf2 Hm Hd).
    apply find_snoc_None; [exact Hfind|].
    unfold condition_matches. cbn [row main_condition description].
    rewrite !sql_eq_str. reflexivity.
Qed.

(** A measurement whose key is already in the table changes nothing. *)
Lemma load_measurement_conflict measurement_data cid did w data row :
  db_fault env (db_calls w) = false ->
  measurement_params measurement_data cid did = Ok data ->
  measurement_values data = Ok row ->
  existsb (conflicts row) (weather_measurements (db w)) = true ->
  load_measurement env measurement_data cid did w =
  (Ok true, with_db_calls (S (db_calls w)) w).
Proof.
  intros Hf Hp Hv Hex. rewrite (load_measurement_run _ _ _ _ _ _ Hf Hp Hv), Hex.
  reflexivity.
Qed.

Lemma load_measurement_twice measurement_data cid did w data row :
  db_fault env (db_calls w) = false ->
  db_fault env (S (db_calls w)) = false ->
  measurement_params measurement_data cid did = Ok data ->
  measurement_values data = Ok row ->
  conflicts row row = true ->
  exists w1 w2,
    load_measurement env measurement_data cid did w = (Ok true, w1) /\
    load_measurement env measurement_data cid did w1 = (Ok true, w2) /\
    db w2 = db w1.
Proof.
  intros Hf1 Hf2 Hp Hv Hkey.
  rewrite (load_measurement_run _ _ _ _ _ _ Hf1 Hp Hv).
  destruct (existsb (conflicts row) (weather_measurements (db w))) eqn:Hex.
  - exists (with_db_calls (S (db_calls w)) w), (with_db_calls (S (S (db_calls w))) w).
    split; [reflexivity|]. split; [|reflexivity].
    apply (load_measurement_conflict measurement_data cid did
             (with_db_calls (S (db_calls w)) w) data row Hf2 Hp Hv Hex).
  - set (w1 := with_db (add_measurement row (db w)) (with_db_calls (S (db_calls w)) w)).
    exists w1, (with_db_calls (S (db_calls w1)) w1).
    split; [reflexivity|]. split; [|reflexivity].
    apply (load_measurement_conflict measurement_data cid did w1 data row Hf2 Hp Hv).
    cbn [w1 db with_db add_measurement weather_measurements].
    rewrite existsb_app. cbn [existsb]. rewrite Hkey, orb_true_r. reflexivity.
Qed.

End Upserts.

(** C2: when the data layer does not fail, a second [load_city] (or
    [load_weather_condition]) with the same name and country (main condition
    and description) returns the identifier of the first and leaves the
    store as the first left it; the two calls together add exactly one row
    when the key was not in the table, and none when it was.  A
    [load_measurement] whose (city_id, measurement_timestamp) pair is already
    in the table leaves the store unchanged and returns [True], so that a
    second insert of one measurement changes nothing. *)
Theorem loader_upserts_idempotent env :
  (forall m w s_name s_country v_lat v_lon v_tz,
      db_fault env (db_calls w) = false ->
      db_fault env (S (db_calls w)) = false ->
      m !! "city_name" = Some (VStr s_name) ->
      m !! "country_code" = Some (VStr s_country) ->
      m !! "latitude" = Some v_lat -> m !! "longitude" = Some v_lon ->
      m !! "timezone_offset" = Some v_tz ->
      exists id w1 w2,
        load_city env (VDict m) w = (Ok (Some id), w1) /\
        load_city env (VDict m) w1 = (Ok (Some id), w2) /\
        db w2 = db w1 /\
        match List.find (city_matches (VStr s_name) (VStr s_country))
                (cities (db w)) with
        | Some r => id = city_id r /\ db w1 = db w
        | None =>
            id = next_city_id (db w) /\
            cities (db w2) =
              (cities (db w) ++
                 [{| city_id := id; city_name := VStr s_name;
                     country_code := VStr s_country; latitude := v_lat;
                     longitude := v_lon; timezone_offset := v_tz |}])%list
        end) /\
  (forall m w s_main s_description v_icon,
      db_fault env (db_calls w) = false ->
      db_fault env (S (db_calls w)) = false ->
      m !! "main_condition" = Some (VStr s_main) ->
      m !! "description" = Some (VStr s_description) ->
      m !! "icon_code" = Some v_icon ->
      exists id w1 w2,
        load_weather_condition env (VDict m) w = (Ok (Some id), w1) /\
        load_weather_condition env (VDict m) w1 = (Ok (Some id), w2) /\
        db w2 = db w1 /\
        match List.find (condition_matches (VStr s_main) (VStr s_description))
                (weather_conditions (db w)) with
        | Some r => id = condition_id r /\ db w1 = db w
        | None =>
            id = next_condition_id (db w) /\
            weather_conditions (db w2) =
              (weather_conditions (db w) ++
                 [{| condition_id := id; main_condition := VStr s_main;
                     description := VStr s_description;
                     icon_code := v_icon |}])%list
        end) /\
  (forall measurement_data cid did w data row,
      db_fault env (db_calls w) = false ->
      measurement_params measurement_data cid did = Ok data ->
      measurement_values data = Ok row ->
      existsb (conflicts row) (weather_measurements (db w)) = true ->
      load_measurement env measurement_data cid did w =
      (Ok true, with_db_calls (S (db_calls w)) w)) /\
  (forall measurement_data cid did w data row,
      db_fault env (db_calls w) = false ->
      db_fault env (S (db_calls w)) = false ->
      measurement_params measurement_data cid did = Ok data ->
      measurement_values data = Ok row ->
      conflicts row row = true ->
      exists w1 w2,
        load_measurement env measurement_data cid did w = (Ok true, w1) /\
        load_measurement env measurement_data cid did w1 = (Ok true, w2) /\
        db w2 = db w1).
Proof.
  split; [exact (load_city_twice env)|].
  split; [exact (load_weather_condition_twice env)|].
  split; [exact (load_measurement_conflict env)|exact (load_measurement_twice env)].
Qed.

Lemma loader_upserts_idempotent_witness :
  (exists id w1 w2,
      load_city (quiet_env (fun _ _ => RequestException)) sample_city initial_world
        = (Ok (Some id), w1) /\
      load_city (quiet_env (fun _ _ => RequestException)) sample_city w1
        = (Ok (Some id), w2) /\
      length (cities (db w2)) = 1%nat) /\
  (exists w1 w2,
      load_measurement (quiet_env (fun _ _ => RequestException))
        (VDict (sample_measurement (VFloat (31 # 2)) (VInt 65))) 1 1 initial_world
        = (Ok true, w1) /\
      load_measurement (quiet_env (fun _ _ => RequestException))
        (VDict (sample_measurement (VFloat (31 # 2)) (VInt 65))) 1 1 w1
        = (Ok true, w2) /\
      db w2 = db w1).
Proof.
  destruct (loader_upserts_idempotent (quiet_env (fun _ _ => RequestException)))
    as (Hcity & _ & _ & Hmeasurement).
  split.
  - edestruct (Hcity (list_to_map [
        ("city_name", VStr "London"); ("country_code", VStr "GB");
        ("latitude", VFloat (515085 # 10000)); ("longitude", VFloat (-1257 # 10000));
        ("timezone_offset", VInt 0)]) initial_world)
      as (id & w1 & w2 & H1 & H2 & _ & Hrows); try reflexivity.
    cbn in Hrows. destruct Hrows as [_ Hrows].
    exists id, w1, w2. split; [exact H1|]. split; [exact H2|].
    rewrite Hrows. reflexivity.
  - edestruct (Hmeasurement (VDict (sample_measurement (VFloat (31 # 2)) (VInt 65)))
                 1 1 initial_world)
      as (w1 & w2 & H1 & H2 & Hdb); try reflexivity.
    exists w1, w2. split; [exact H1|]. split; [exact H2|exact Hdb].
Defined.

(** ** The capture timestamp is not stored *)

Lemma measurement_params_insert_timestamp m v cid did :
  measurement_params (VDict (<["api_call_timestamp" := v]> m)) cid did =
  measurement_params (VDict (delete "api_call_timestamp" m)) cid did.
Proof.
  unfold measurement_params. do 2 f_equal.
  rewrite !delete_union, delete_insert_eq, delete_delete_eq. reflexivity.
Qed.

Lemma measurement_params_delete_timestamp m cid did :
  measurement_params (VDict (delete "api_call_timestamp" m)) cid did =
  measurement_params (VDict m) cid did.
Proof.
  unfold measurement_params. do 2 f_equal.
  rewrite !delete_union, delete_delete_eq. reflexivity.
Qed.

Lemma load_measurement_params env m1 m2 cid did w :
  measurement_params m1 cid did = measurement_params m2 cid did ->
  load_measurement env m1 cid did w = load_measurement env m2 cid did w.
Proof.
  intros H. unfold load_measurement, load_measurement_body, try_except.
  rewrite !M_bind_unfold. destruct (connect env w) as [[[]|e] w']; [|reflexivity].
  rewrite !M_bind_lift, H. reflexivity.
Qed.

(** C10: the dictionary that [load_measurement] binds to the insert
    statement never has the key [api_call_timestamp]; the stored row is made
    of the thirteen columns of the statement; and whether the measurement
    record has the key, and with what value, changes neither the result nor
    the store. *)
Theorem load_measurement_drops_api_call_timestamp env m v cid did w :
  (exists data,
      measurement_params (VDict m) cid did = Ok (VDict data) /\
      data !! "api_call_timestamp" = None /\
      data !! "city_id" = Some (default (VInt cid) (m !! "city_id")) /\
      data !! "condition_id" = Some (default (VInt did) (m !! "condition_id"))) /\
  load_measurement env (VDict (<["api_call_timestamp" := v]> m)) cid did w =
    load_measurement env (VDict (delete "api_call_timestamp" m)) cid did w /\
  load_measurement env (VDict (<["api_call_timestamp" := v]> m)) cid did w =
    load_measurement env (VDict m) cid did w /\
  (forall data row,
      db_fault env (db_calls w) = false ->
      measurement_params (VDict m) cid did = Ok data ->
      measurement_values data = Ok row ->
      existsb (conflicts row) (weather_measurements (db w)) = false ->
      weather_measurements
        (db (snd (load_measurement env (VDict (<["api_call_timestamp" := v]> m))
                    cid did w))) =
      (weather_measurements (db w) ++ [row])%list).
Proof.
  split; [|split; [|split]]; cycle 3.
  { intros data row Hf Hp Hv Hex.
    rewrite <- measurement_params_delete_timestamp,
      <- (measurement_params_insert_timestamp m v) in Hp.
    rewrite (load_measurement_run _ _ _ _ _ _ _ Hf Hp Hv), Hex. reflexivity. }
  - eexists. split; [reflexivity|].
    split; [apply lookup_delete_eq|].
    rewrite !lookup_delete_ne by discriminate.
    rewrite !lookup_union.
    split.
    + rewrite lookup_insert_eq. destruct (m !! "city_id"); reflexivity.
    + rewrite lookup_insert_ne, lookup_insert_eq by discriminate.
      destruct (m !! "condition_id"); reflexivity.
  - apply load_measurement_params, measurement_params_insert_timestamp.
  - apply load_measurement_params.
    rewrite measurement_params_insert_timestamp.
    apply measurement_params_delete_timestamp.
Qed.

Lemma load_measurement_drops_api_call_timestamp_witness :
  weather_measurements
    (db (snd (load_measurement (quiet_env (fun _ _ => RequestException))
                (VDict (sample_measurement (VFloat (31 # 2)) (VInt 65)))
                1 1 initial_world))) =
  [{| m_city_id := VInt 1; m_condition_id := VInt 1;
      temperature_celsius := VFloat (31 # 2);
      feels_like_celsius := VFloat (71 # 5);
      temp_min_celsius := VFloat 13; temp_max_celsius := VFloat 17;
      pressure_hpa := VInt 1013; humidity_percent := VInt 65;
      visibility_meters := VInt 10000; wind_speed_mps := VFloat (7 # 2);
      wind_direction_degrees := VInt 180; cloudiness_percent := VInt 20;
      measurement_timestamp := VDatetime 1609459200 |}].
Proof.
  pose proof (proj2 (proj2 (proj2 (load_measurement_drops_api_call_timestamp
    (quiet_env (fun _ _ => RequestException))
    (delete "api_call_timestamp" (sample_measurement (VFloat (31 # 2)) (VInt 65)))
    (VDatetime 1609459260) 1 1 initial_world)))) as H.
  specialize (H _ _ eq_refl eq_refl eq_refl eq_refl). exact H.
Defined.

(** ** Loading one record and a batch *)

Section LoadRecord.

Context (env : Env).

(** What a call of [load_city] can come to: the identifier of a row found,
    the identifier of a row inserted, or [None] with the tables untouched. *)
Lemma load_city_cases city_data w :
  (exists r v,
      In r (cities (db w)) /\ getitem city_data "city_name" = Ok v /\
      load_city env city_data w =
      (Ok (Some (city_id r)), with_db_calls (S (db_calls w)) w)) \/
  (exists row v,
      city_id row = next_city_id (db w) /\ getitem city_data "city_name" = Ok v /\
      load_city env city_data w =
      (Ok (Some (next_city_id (db w))),
       with_db (add_city row (db w)) (with_db_calls (S (db_calls w)) w))) \/
  load_city env city_data w = (Ok None, with_db_calls (S (db_calls w)) w).
Proof.
  unfold load_city, try_except, load_city_body.
  rewrite M_bind_unfold. unfold connect.
  destruct (db_fault env (db_calls w)); [right; right; reflexivity|].
  rewrite M_bind_lift.
  destruct (getitem city_data "city_name") as [v_name|e] eqn:Hn;
    [|right; right; destruct e; reflexivity].
  rewrite M_bind_lift.
  destruct (getitem city_data "country_code") as [v_country|e];
    [|right; right; destruct e; reflexivity].
  rewrite M_bind_unfold. unfold select_city. cbn [db with_db_calls].
  destruct (List.find (city_matches v_name v_country) (cities (db w))) as [r|] eqn:Hfind.
  { left. exists r, v_name. apply find_some in Hfind. split; [tauto|]. split; reflexivity. }
  rewrite M_bind_lift.
  destruct (bind_param city_data "city_name") as [p1|e];
    [|right; right; destruct e; reflexivity].
  rewrite M_bind_lift.
  destruct (bind_param city_data "country_code") as [p2|e];
    [|right; right; destruct e; reflexivity].
  rewrite M_bind_lift.
  destruct (bind_param city_data "latitude") as [p3|e];
    [|right; right; destruct e; reflexivity].
  rewrite M_bind_lift.
  destruct (bind_param city_data "longitude") as [p4|e];
    [|right; right; destruct e; reflexivity].
  rewrite M_bind_lift.
  destruct (bind_param city_data "timezone_offset") as [p5|e];
    [|right; right; destruct e; reflexivity].
  right. left. eexists _, v_name. split; [|split; reflexivity]. reflexivity.
Qed.

Lemma load_weather_condition_cases condition_data w :
  (exists r,
      In r (weather_conditions (db w)) /\
      load_weather_condition env condition_data w =
      (Ok (Some (condition_id r)), with_db_calls (S (db_calls w)) w)) \/
  (exists row,
      condition_id row = next_condition_id (db w) /\
      load_weather_condition env condition_data w =
      (Ok (Some (next_condition_id (db w))),
       with_db (add_condition row (db w)) (with_db_calls (S (db_calls w)) w))) \/
  load_weather_condition env condition_data w =
  (Ok None, with_db_calls (S (db_calls w)) w).
Proof.
  unfold load_weather_condition, try_except, load_weather_condition_body.
  rewrite M_bind_unfold. unfold connect.
  destruct (db_fault env (db_calls w)); [right; right; reflexivity|].
  rewrite M_bind_lift.
  destruct (getitem condition_data "main_condition") as [v_main|e];
    [|right; right; destruct e; reflexivity].
  rewrite M_bind_lift.
  destruct (getitem condition_data "description") as [v_description|e];
    [|right; right; destruct e; reflexivity].
  rewrite M_bind_unfold. unfold select_condition. cbn [db with_db_calls].
  destruct (List.find (condition_matches v_main v_description)
              (weather_conditions (db w))) as [r|] eqn:Hfind.
  { left. exists r. apply find_some in Hfind. split; [tauto|reflexivity]. }
  rewrite M_bind_lift.
  destruct (bind_param condition_data "main_condition") as [p1|e];
    [|right; right; destruct e; reflexivity].
  rewrite M_bind_lift.
  destruct (bind_param condition_data "description") as [p2|e];
    [|right; right; destruct e; reflexivity].
  rewrite M_bind_lift.
  destruct (bind_param condition_data "icon_code") as [p3|e];
    [|right; right; destruct e; reflexivity].
  right. left. eexists. split; [|reflexivity]. reflexivity.
Qed.

(** [load_measurement] returns, and touches only the measurements. *)
Lemma load_measurement_returns measurement_data cid did w :
  exists b w',
    load_measurement env measurement_data cid did w = (Ok b, w') /\
    cities (db w') = cities (db w) /\
    weather_conditions (db w') = weather_conditions (db w) /\
    next_city_id (db w') = next_city_id (db w) /\
    next_condition_id (db w') = next_condition_id (db w).
Proof.
  unfold load_measurement, try_except, load_measurement_body.
  rewrite M_bind_unfold. unfold connect.
  destruct (db_fault env (db_calls w)); [eexists _, _; split; [reflexivity|tauto]|].
  rewrite M_bind_lift.
  destruct (measurement_params measurement_data cid did) as [data|e];
    [|destruct e; eexists _, _; (split; [reflexivity|tauto])].
  rewrite M_bind_lift.
  destruct (measurement_values data) as [row|e];
    [|destruct e; eexists _, _; (split; [reflexivity|tauto])].
  rewrite M_bind_unfold. unfold insert_measurement. cbn [db with_db_calls].
  destruct (existsb (conflicts row) (weather_measurements (db w)));
    eexists _, _; (split; [reflexivity|cbn; tauto]).
Qed.


(** The identifiers that the upserts return are positive, and the upserts
    keep the invariant. *)
Lemma load_city_positive city_data w r w1 :
  positive_ids (db w) ->
  load_city env city_data w = (Ok r, w1) ->
  positive_ids (db w1) /\ (forall id, r = Some id -> 0 < id).
Proof.
  intros (Hnc & Hnk & Hc & Hk) Hrun.
  destruct (load_city_cases city_data w)
    as [(row & v & Hin & _ & H)|[(row & v & Hid & _ & H)|H]];
    rewrite H in Hrun; injection Hrun as <- <-.
  - split; [repeat split; assumption|].
    intros id [= <-]. rewrite Forall_forall in Hc. apply Hc.
    apply list_elem_of_In. exact Hin.
  - split; [|intros id [= <-]; exact Hnc].
    repeat split; cbn; try assumption; try lia.
    apply Forall_app. split; [exact Hc|]. constructor; [|constructor].
    rewrite Hid. exact Hnc.
  - split; [repeat split; assumption|]. intros id [=].
Qed.

Lemma load_weather_condition_positive condition_data w r w1 :
  positive_ids (db w) ->
  load_weather_condition env condition_data w = (Ok r, w1) ->
  positive_ids (db w1) /\ (forall id, r = Some id -> 0 < id).
Proof.
  intros (Hnc & Hnk & Hc & Hk) Hrun.
  destruct (load_weather_condition_cases condition_data w)
    as [(row & Hin & H)|[(row & Hid & H)|H]];
    rewrite H in Hrun; injection Hrun as <- <-.
  - split; [repeat split; assumption|].
    intros id [= <-]. rewrite Forall_forall in Hk. apply Hk.
    apply list_elem_of_In. exact Hin.
  - split; [|intros id [= <-]; exact Hnk].
    repeat split; cbn; try assumption; try lia.
    apply Forall_app. split; [exact Hk|]. constructor; [|constructor].
    rewrite Hid. exact Hnk.
  - split; [repeat split; assumption|]. intros id [=].
Qed.

Lemma load_city_Some_name city_data w id w1 :
  load_city env city_data w = (Ok (Some id), w1) ->
  exists v, getitem city_data "city_name" = Ok v.
Proof.
  intros Hrun.
  destruct (load_city_cases city_data w)
    as [(row & v & _ & Hv & _)|[(row & v & _ & Hv & _)|H]]; [eauto|eauto|].
  rewrite H in Hrun. discriminate.
Qed.

Lemma load_weather_record_no_city transformed_data city_data w w1 :
  getitem transformed_data "city" = Ok city_data ->
  load_city env city_data w = (Ok None, w1) ->
  load_weather_record env transformed_data w = (Ok false, w1).
Proof.
  intros Hc Hcity. unfold load_weather_record, try_except, load_weather_record_body.
  rewrite M_bind_lift, Hc, M_bind_unfold, Hcity. reflexivity.
Qed.

Lemma load_weather_record_no_condition transformed_data city_data condition_data
    w cid w1 w2 :
  getitem transformed_data "city" = Ok city_data ->
  load_city env city_data w = (Ok (Some cid), w1) -> cid <> 0 ->
  getitem transformed_data "condition" = Ok condition_data ->
  load_weather_condition env condition_data w1 = (Ok None, w2) ->
  load_weather_record env transformed_data w = (Ok false, w2).
Proof.
  intros Hc Hcity Hcid Hk Hcond.
  unfold load_weather_record, try_except, load_weather_record_body.
  rewrite M_bind_lift, Hc, M_bind_unfold, Hcity.
  apply Z.eqb_neq in Hcid. rewrite Hcid.
  rewrite M_bind_lift, Hk, M_bind_unfold, Hcond. reflexivity.
Qed.

Lemma load_weather_record_measurement transformed_data city_data condition_data
    measurement_data w cid w1 did w2 :
  getitem transformed_data "city" = Ok city_data ->
  load_city env city_data w = (Ok (Some cid), w1) -> cid <> 0 ->
  getitem transformed_data "condition" = Ok condition_data ->
  load_weather_condition env condition_data w1 = (Ok (Some did), w2) -> did <> 0 ->
  getitem transformed_data "measurement" = Ok measurement_data ->
  load_weather_record env transformed_data w =
  load_measurement env measurement_data cid did w2.
Proof.
  intros Hc Hcity Hcid Hk Hcond Hdid Hm.
  unfold load_weather_record, try_except, load_weather_record_body.
  rewrite M_bind_lift, Hc, M_bind_unfold, Hcity.
  apply Z.eqb_neq in Hcid. rewrite Hcid.
  rewrite M_bind_lift, Hk, M_bind_unfold, Hcond.
  apply Z.eqb_neq in Hdid. rewrite Hdid.
  rewrite M_bind_lift, Hm, M_bind_unfold.
  destruct (load_measurement_returns measurement_data cid did w2) as (b & w3 & Hrun & _).
  rewrite Hrun. destruct b.
  - rewrite M_bind_lift, res_bind_Ok.
    destruct (load_city_Some_name _ _ _ _ Hcity) as [v Hv]. rewrite Hv. reflexivity.
  - reflexivity.
Qed.

Lemma load_weather_record_returns transformed_data w :
  exists b w', load_weather_record env transformed_data w = (Ok b, w').
Proof.
  unfold load_weather_record, try_except.
  destruct (load_weather_record_body env transformed_data w) as [[b|e] w']; eauto.
Qed.

Lemma load_loop_each l : forall s f w,
  load_loop env l s f w =
  (Ok ((s + length (List.filter loaded (fst (load_each env l w))))%nat,
       (f + length (List.filter (fun r => negb (loaded r)) (fst (load_each env l w))))%nat),
   snd (load_each env l w)).
Proof.
  induction l as [|data rest IH]; intros s f w.
  - cbn. rewrite !Nat.add_0_r. reflexivity.
  - cbn [load_loop load_each]. rewrite M_bind_unfold.
    destruct (load_weather_record_returns data w) as (b & w' & Hrun). rewrite Hrun.
    destruct b; rewrite IH; destruct (load_each env rest w') as [rs w''];
      cbn [fst snd List.filter loaded negb length]; do 2 f_equal; f_equal; lia.
Qed.

Lemma load_each_length l : forall w,
  length (fst (load_each env l w)) = length l.
Proof.
  induction l as [|data rest IH]; intros w; [reflexivity|].
  cbn [load_each]. destruct (load_weather_record env data w) as [r w'].
  specialize (IH w'). destruct (load_each env rest w') as [rs w''].
  cbn in *. rewrite IH. reflexivity.
Qed.

Lemma filter_partition_length {A} (p : A -> bool) (l : list A) :
  (length (List.filter p l) + length (List.filter (fun x => negb (p x)) l))%nat = length l.
Proof.
  induction l as [|x l IH]; [reflexivity|]. cbn. destruct (p x); cbn; lia.
Qed.

(** Loading a record keeps the invariant of the store. *)
Ltac done_with H := cbn; let E := fresh in intros E; inversion E; subst; exact H.

Lemma load_weather_record_positive transformed_data w r w' :
  positive_ids (db w) ->
  load_weather_record env transformed_data w = (r, w') ->
  positive_ids (db w').
Proof.
  intros Hinv. unfold load_weather_record, try_except, load_weather_record_body.
  rewrite M_bind_lift.
  destruct (getitem transformed_data "city") as [city_data|e];
    [|done_with Hinv].
  rewrite M_bind_unfold.
  destruct (load_city env city_data w) as [[cid|e] w1] eqn:Hcity;
    [|destruct (load_city_cases city_data w)
        as [(? & ? & _ & _ & H)|[(? & ? & _ & _ & H)|H]]; congruence].
  destruct (load_city_positive _ _ _ _ Hinv Hcity) as [Hinv1 _].
  destruct cid as [cid|]; [|done_with Hinv1].
  destruct (cid =? 0); [done_with Hinv1|].
  rewrite M_bind_lift.
  destruct (getitem transformed_data "condition") as [condition_data|e];
    [|done_with Hinv1].
  rewrite M_bind_unfold.
  destruct (load_weather_condition env condition_data w1) as [[did|e] w2] eqn:Hcond;
    [|destruct (load_weather_condition_cases condition_data w1)
        as [(? & _ & H)|[(? & _ & H)|H]]; congruence].
  destruct (load_weather_condition_positive _ _ _ _ Hinv1 Hcond) as [Hinv2 _].
  destruct did as [did|]; [|done_with Hinv2].
  destruct (did =? 0); [done_with Hinv2|].
  rewrite M_bind_lift.
  destruct (getitem transformed_data "measurement") as [measurement_data|e];
    [|done_with Hinv2].
  rewrite M_bind_unfold.
  destruct (load_measurement_returns measurement_data cid did w2)
    as (b & w3 & Hrun & Hc & Hk & Hnc & Hnk).
  rewrite Hrun.
  assert (Hinv3 : positive_ids (db w3)).
  { destruct Hinv2 as (H1 & H2 & H3 & H4).
    unfold positive_ids. rewrite Hc, Hk, Hnc, Hnk. auto. }
  destruct b.
  - rewrite M_bind_lift, res_bind_Ok.
    destruct (getitem city_data "city_name"); done_with Hinv3.
  - done_with Hinv3.
Qed.

Lemma positive_ids_empty : positive_ids empty_database.
Proof. repeat split; try constructor; reflexivity. Qed.

End LoadRecord.

(** C6: [load_weather_record] returns [False] in the world the city upsert
    left when that upsert yields no identifier, and in the world the
    condition upsert left when that one yields none; when both yield one it
    returns what [load_measurement] returns, in the world it leaves.
    [load_multiple_records] loads every record of the list once, in order,
    never raises, and its counts satisfy success + failure = total = the
    length of the list. *)
Theorem load_weather_record_and_batch env :
  (forall transformed_data city_data w w1,
      getitem transformed_data "city" = Ok city_data ->
      load_city env city_data w = (Ok None, w1) ->
      load_weather_record env transformed_data w = (Ok false, w1)) /\
  (forall transformed_data city_data condition_data w cid w1 w2,
      positive_ids (db w) ->
      getitem transformed_data "city" = Ok city_data ->
      load_city env city_data w = (Ok (Some cid), w1) ->
      getitem transformed_data "condition" = Ok condition_data ->
      load_weather_condition env condition_data w1 = (Ok None, w2) ->
      load_weather_record env transformed_data w = (Ok false, w2)) /\
  (forall transformed_data city_data condition_data measurement_data
          w cid w1 did w2,
      positive_ids (db w) ->
      getitem transformed_data "city" = Ok city_data ->
      load_city env city_data w = (Ok (Some cid), w1) ->
      getitem transformed_data "condition" = Ok condition_data ->
      load_weather_condition env condition_data w1 = (Ok (Some did), w2) ->
      getitem transformed_data "measurement" = Ok measurement_data ->
      load_weather_record env transformed_data w =
      load_measurement env measurement_data cid did w2) /\
  (forall transformed_data_list w,
      exists result,
        load_multiple_records env transformed_data_list w =
          (Ok result, snd (load_each env transformed_data_list w)) /\
        length (fst (load_each env transformed_data_list w)) =
          length transformed_data_list /\
        success result =
          length (List.filter loaded (fst (load_each env transformed_data_list w))) /\
        failure result =
          length (List.filter (fun r => negb (loaded r))
                    (fst (load_each env transformed_data_list w))) /\
        total result = length transformed_data_list /\
        (success result + failure result)%nat = total result).
Proof.
  split; [exact (load_weather_record_no_city env)|].
  split; [|split].
  - intros td city cond w cid w1 w2 Hinv Hc Hcity Hk Hcond.
    destruct (load_city_positive env _ _ _ _ Hinv Hcity) as [_ Hpos].
    specialize (Hpos cid eq_refl).
    eapply load_weather_record_no_condition; try eassumption. lia.
  - intros td city cond m w cid w1 did w2 Hinv Hc Hcity Hk Hcond Hm.
    destruct (load_city_positive env _ _ _ _ Hinv Hcity) as [Hinv1 Hpos].
    specialize (Hpos cid eq_refl).
    destruct (load_weather_condition_positive env _ _ _ _ Hinv1 Hcond) as [_ Hpos'].
    specialize (Hpos' did eq_refl).
    eapply load_weather_record_measurement; try eassumption; lia.
  - intros l w. unfold load_multiple_records.
    rewrite M_bind_unfold, load_loop_each. cbn [mret M_ret fst snd].
    eexists. split; [reflexivity|]. cbn [success failure total].
    split; [apply load_each_length|].
    split; [reflexivity|]. split; [reflexivity|]. split; [reflexivity|].
    cbn [success failure total Nat.add].
    rewrite filter_partition_length. apply load_each_length.
Qed.

Lemma load_weather_record_and_batch_witness :
  load_weather_record (store_env (fun _ => true)) sample_transformed_data initial_world
    = (Ok false, with_db_calls 1 initial_world) /\
  fst (load_weather_record (store_env (fun _ => false)) sample_transformed_data
         initial_world) = Ok true /\
  fst (load_multiple_records (store_env (fun k => Nat.eqb k 3))
         [sample_transformed_data; sample_transformed_data; sample_transformed_data]
         initial_world)
    = Ok {| success := 2; failure := 1; total := 3 |}.
Proof.
  split; [|split].
  - apply (proj1 (load_weather_record_and_batch (store_env (fun _ => true)))
             sample_transformed_data sample_city); reflexivity.
  - assert (Hinv : positive_ids (db initial_world)).
    { repeat split; try constructor; reflexivity. }
    rewrite (proj1 (proj2 (proj2 (load_weather_record_and_batch
               (store_env (fun _ => false)))))
               sample_transformed_data sample_city sample_condition
               (VDict (sample_measurement (VFloat (31 # 2)) (VInt 65)))
               initial_world _ _ _ _ Hinv eq_refl eq_refl eq_refl eq_refl eq_refl).
    reflexivity.
  - destruct (proj2 (proj2 (proj2 (load_weather_record_and_batch
               (store_env (fun k => Nat.eqb k 3)))))
               [sample_transformed_data; sample_transformed_data; sample_transformed_data]
               initial_world) as (result & Hrun & _ & Hs & Hf & Ht & _).
    rewrite Hrun. cbn [fst]. destruct result as [s f t]. cbn in Hs, Hf, Ht.
    subst. reflexivity.
Defined.

(** ** The pipeline run *)

(** C8 fails on the code: [main.py] never reports a verdict.  Its line 6
    imports [WeatherTransformer] from [src/transform.py], which defines the
    class under the name [weather_transformer] only, so that loading
    [main.py] raises [ImportError] before [run_etl_pipeline] exists: whatever
    the configuration, the provider and the store, the run returns neither
    [True] nor [False] and leaves the world as it was.  This is so in
    particular when the configuration is valid, the engine is created, the
    connection test passes, and extraction and transformation of the
    configured city each give one record, where the claim has the run
    report SUCCESS. *)
Theorem main_raises_import_error :
  (forall cfg env w, main cfg env w = (Raise ImportError, w)) /\
  (forall env, import_from (src_transform env) "WeatherTransformer" = Raise ImportError) /\
  Config_validate (sample_config [london]) = Ok true /\
  WeatherExtractor_init (sample_config [london]) = Ok tt /\
  WeatherLoader_init (quiet_env (fun _ _ => Response sample_raw_weather_data)) = Ok tt /\
  fst (test_connection (quiet_env (fun _ _ => Response sample_raw_weather_data))
         initial_world) = Ok true /\
  fst (fetch_weather_for_cities (sample_config [london])
         (quiet_env (fun _ _ => Response sample_raw_weather_data)) [london]
         initial_world) = Ok [sample_raw_weather_data] /\
  (exists record,
      fst (transform_multiple_records
             (quiet_env (fun _ _ => Response sample_raw_weather_data))
             [sample_raw_weather_data] initial_world) = Ok [record]) /\
  fst (main (sample_config [london])
         (quiet_env (fun _ _ => Response sample_raw_weather_data)) initial_world)
    = Raise ImportError.
Proof.
  split; [intros cfg env w; reflexivity|].
  split; [intros env; reflexivity|].
  repeat split; try (vm_compute; reflexivity).
  eexists. vm_compute. reflexivity.
Qed.

(** ** Humidity is not checked by the transformer *)

(** The humidity of a well-formed raw record reaches the normalized record
    as it is, whatever its value. *)
Lemma transform_keeps_humidity env d w :
  well_formed_raw d = true ->
  transform_multiple_records env [VDict d] w =
  (Ok [normalized d (VDatetime (wall_clock env (clock_reads w)))],
   with_clock_reads (S (clock_reads w)) w) /\
  measurement_fields d (VDatetime (wall_clock env (clock_reads w))) !! "humidity_percent"
  = Some (subfield d "main" "humidity").
Proof.
  intros Hwf. split; [|reflexivity].
  unfold transform_multiple_records. cbn [transform_loop].
  rewrite M_bind_unfold, (transform_well_formed env d w Hwf). reflexivity.
Qed.

(** C1 fails on the code: the raw sample record with humidity 150 (every
    other field as in the test suite) is well formed for the transformer and
    is in the output of [transform_multiple_records], with its humidity as
    it came, although [validate_transformed_data] rejects the transformed
    record: [transform_single_record] checks the raw temperature only, and
    [transform_multiple_records] never applies the humidity check. *)
Theorem humidity_out_of_range_is_transformed :
  well_formed_raw (sample_raw (VFloat (31 # 2)) (VInt 150)) = true /\
  fst (transform_multiple_records (quiet_env (fun _ _ => RequestException))
         [VDict (sample_raw (VFloat (31 # 2)) (VInt 150))] initial_world)
    = Ok [normalized (sample_raw (VFloat (31 # 2)) (VInt 150)) (VDatetime 1609459260)] /\
  measurement_fields (sample_raw (VFloat (31 # 2)) (VInt 150)) (VDatetime 1609459260)
    !! "humidity_percent" = Some (VInt 150) /\
  validate_transformed_data
    (normalized (sample_raw (VFloat (31 # 2)) (VInt 150)) (VDatetime 1609459260))
    = Ok false.
Proof. repeat split; vm_compute; reflexivity. Qed.

(** * Further properties of the code *)

(** ** What [validate_weather_data] accepts *)

Lemma check_required_Ok d :
  check_required ["coord"; "main"; "name"] (VDict d) = Ok tt <->
  is_Some (d !! "coord") /\ is_Some (d !! "main") /\ is_Some (d !! "name").
Proof.
  cbn [check_required]. rewrite !contains_dict.
  destruct (d !! "coord") as [c|]; cbn.
  2:{ split; [discriminate|]. intros ([? [=]] & _). }
  destruct (d !! "main") as [m|]; cbn.
  2:{ split; [discriminate|]. intros (_ & [? [=]] & _). }
  destruct (d !! "name") as [n|]; cbn.
  2:{ split; [discriminate|]. intros (_ & _ & [? [=]]). }
  split; eauto.
Qed.

Lemma falsy_number_in_range t :
  is_number t = true -> truthy t = false -> temperature_ok t = true.
Proof.
  unfold is_number, temperature_ok.
  destruct t as [|b|n|y| | | |]; cbn [as_number truthy]; try discriminate;
    intros _ Hf.
  - subst b. reflexivity.
  - apply negb_false_iff, Z.eqb_eq in Hf. subst n. reflexivity.
  - apply negb_false_iff, Qeq_bool_iff in Hf.
    rewrite (Qleb_comp _ _ (Qeq_refl _) _ _ Hf), (Qleb_comp _ _ Hf _ _ (Qeq_refl _)).
    reflexivity.
Qed.

Lemma validate_weather_data_dict d m :
  is_Some (d !! "coord") -> d !! "main" = Some (VDict m) -> is_Some (d !! "name") ->
  validate_weather_data (VDict d) =
  match m !! "temp" with
  | None => Ok true
  | Some t =>
      if is_number t
      then if temperature_ok t then Ok true else Raise ValueError
      else if truthy t then Raise TypeError else Ok true
  end.
Proof.
  intros Hc Hm Hn. unfold validate_weather_data.
  rewrite (proj2 (check_required_Ok d)) by (rewrite Hm; eauto).
  rewrite res_bind_Ok. cbn [getitem]. rewrite Hm, res_bind_Ok. cbn [get].
  rewrite res_bind_Ok.
  destruct (m !! "temp") as [t|]; [|reflexivity].
  change (default VNone (Some t)) with t.
  destruct (is_number t) eqn:Hnum.
  - destruct (truthy t) eqn:Ht.
    + unfold is_number in Hnum. unfold temperature_ok, lt_int, gt_int, Qlt_bool.
      destruct (as_number t) as [x|]; [|discriminate]. rewrite res_bind_Ok.
      destruct (Qle_bool (inject_Z (-100)) x); cbn [negb andb]; [|reflexivity].
      rewrite res_bind_Ok.
      destruct (Qle_bool x (inject_Z 60)); reflexivity.
    + rewrite (falsy_number_in_range _ Hnum Ht). reflexivity.
  - destruct (truthy t); [|reflexivity].
    unfold lt_int. unfold is_number in Hnum.
    destruct (as_number t); [discriminate|reflexivity].
Qed.

(** X1: what [validate_weather_data] accepts, for the values of this model:
    [None], booleans, integers, finite floats (read at their exact value),
    strings, lists and dictionaries.  On a dictionary that has its [coord]
    and [name] keys and whose [main] is a dictionary, it returns [True] for a
    record without a temperature and for a temperature that is false in
    Python's sense ([None], zero, an empty string or container); for a
    temperature that is a finite number of value [x] it returns [True] when
    [-100 <= x <= 60] and raises [ValueError] otherwise; for a temperature of
    another type that is true in Python's sense the comparison raises
    [TypeError].  The not-a-number and the infinite floats that a JSON
    decoder also yields are no values of the model, and the theorem says
    nothing of them. *)
Theorem validate_weather_data_finite d m :
  is_Some (d !! "coord") -> d !! "main" = Some (VDict m) -> is_Some (d !! "name") ->
  (m !! "temp" = None -> validate_weather_data (VDict d) = Ok true) /\
  (forall t, m !! "temp" = Some t -> truthy t = false ->
     validate_weather_data (VDict d) = Ok true) /\
  (forall t x, m !! "temp" = Some t -> as_number t = Some x ->
     validate_weather_data (VDict d) =
     if Qle_bool (inject_Z (-100)) x && Qle_bool x (inject_Z 60)
     then Ok true else Raise ValueError) /\
  (forall t, m !! "temp" = Some t -> as_number t = None -> truthy t = true ->
     validate_weather_data (VDict d) = Raise TypeError).
Proof.
  intros Hc Hm Hn. rewrite (validate_weather_data_dict d m Hc Hm Hn).
  split; [|split; [|split]].
  - intros ->. reflexivity.
  - intros t -> Ht. rewrite Ht.
    destruct (is_number t) eqn:Hnum; [|reflexivity].
    rewrite (falsy_number_in_range t Hnum Ht). reflexivity.
  - intros t x -> Hx. unfold is_number, temperature_ok. rewrite Hx. reflexivity.
  - intros t -> Hx Ht. unfold is_number. rewrite Hx, Ht. reflexivity.
Qed.

Lemma validate_weather_data_finite_witness :
  validate_weather_data
    (VDict (list_to_map [("coord", VNone); ("name", VNone); ("main", dict [])])) = Ok true /\
  validate_weather_data
    (VDict (list_to_map [("coord", VNone); ("name", VNone);
                         ("main", dict [("temp", VStr "150")])])) = Raise TypeError /\
  validate_weather_data (VDict (sample_raw (VFloat 60) (VInt 65))) = Ok true /\
  validate_weather_data (VDict (sample_raw (VFloat (600001 # 10000)) (VInt 65)))
    = Raise ValueError.
Proof.
  split; [|split; [|split]].
  - apply (proj1 (validate_weather_data_finite
                    (list_to_map [("coord", VNone); ("name", VNone); ("main", dict [])]) ∅
                    ltac:(eexists; reflexivity) eq_refl ltac:(eexists; reflexivity))).
    reflexivity.
  - apply (proj2 (proj2 (proj2 (validate_weather_data_finite
                    (list_to_map [("coord", VNone); ("name", VNone);
                                  ("main", dict [("temp", VStr "150")])])
                    (list_to_map [("temp", VStr "150")])
                    ltac:(eexists; reflexivity) eq_refl ltac:(eexists; reflexivity))))
             (VStr "150")); reflexivity.
  - rewrite (proj1 (proj2 (proj2 (validate_weather_data_finite
                    (sample_raw (VFloat 60) (VInt 65))
                    (list_to_map [("temp", VFloat 60); ("feels_like", VFloat (71 # 5));
                                  ("temp_min", VFloat 13); ("temp_max", VFloat 17);
                                  ("pressure", VInt 1013); ("humidity", VInt 65)])
                    ltac:(eexists; reflexivity) eq_refl ltac:(eexists; reflexivity))))
               (VFloat 60) 60%Q eq_refl eq_refl).
    reflexivity.
  - rewrite (proj1 (proj2 (proj2 (validate_weather_data_finite
                    (sample_raw (VFloat (600001 # 10000)) (VInt 65))
                    (list_to_map [("temp", VFloat (600001 # 10000));
                                  ("feels_like", VFloat (71 # 5));
                                  ("temp_min", VFloat 13); ("temp_max", VFloat 17);
                                  ("pressure", VInt 1013); ("humidity", VInt 65)])
                    ltac:(eexists; reflexivity) eq_refl ltac:(eexists; reflexivity))))
               (VFloat (600001 # 10000)) (600001 # 10000)%Q eq_refl eq_refl).
    reflexivity.
Defined.

(** ** The outcome of [transform_single_record], case by case *)

Lemma getitem_Ok_inv x k v :
  getitem x k = Ok v -> exists s, x = VDict s /\ s !! k = Some v.
Proof.
  destruct x as [| | | | | | |s]; cbn [getitem]; try discriminate.
  destruct (s !! k) as [y|] eqn:E; [|discriminate]. intros [= <-]. eauto.
Qed.

Lemma get_Ok_inv x k dflt v :
  get x k dflt = Ok v -> exists s, x = VDict s /\ v = default dflt (s !! k).
Proof.
  destruct x as [| | | | | | |s]; cbn [get]; try discriminate.
  intros [= <-]. eauto.
Qed.

Lemma res_bind_Ok_inv {A B} (r : res A) (k : A -> res B) (b : B) :
  (r ≫= k) = Ok b -> exists a, r = Ok a /\ k a = Ok b.
Proof. destruct r as [a|e]; [eauto|discriminate]. Qed.

Lemma getitem2_Ok_inv d k1 k2 v :
  (x ← getitem (VDict d) k1; getitem x k2) = Ok v ->
  exists s, d !! k1 = Some (VDict s) /\ s !! k2 = Some v.
Proof.
  intros H. apply res_bind_Ok_inv in H as (x & H1 & H2).
  apply getitem_Ok_inv in H1 as (d' & [= <-] & H1).
  apply getitem_Ok_inv in H2 as (s & -> & H2). eauto.
Qed.

Lemma round2_Ok_inv t v : round2 t = Ok v -> is_number t = true /\ v = rounded t.
Proof.
  unfold rounded. destruct t; cbn [round2]; try discriminate; intros [= <-]; auto.
Qed.

Lemma getitem_round2_Ok_inv x k v :
  (t ← getitem x k; round2 t) = Ok v ->
  exists s t, x = VDict s /\ s !! k = Some t /\ is_number t = true /\ v = rounded t.
Proof.
  intros H. apply res_bind_Ok_inv in H as (t & H1 & H2).
  apply getitem_Ok_inv in H1 as (s & -> & H1).
  apply round2_Ok_inv in H2 as [H2 ->]. eauto 6.
Qed.

Lemma fromtimestamp_Ok_inv t v :
  fromtimestamp t = Ok v -> timestamp_ok t = true /\ v = datetime_of t.
Proof.
  unfold timestamp_ok, datetime_of, fromtimestamp.
  destruct (as_number t) as [x|]; [|discriminate].
  destruct (representable x); [|discriminate]. intros [= <-]. auto.
Qed.

Lemma validate_weather_data_Ok_inv d b :
  validate_weather_data (VDict d) = Ok b ->
  is_Some (d !! "coord") /\ is_Some (d !! "name") /\
  exists m, d !! "main" = Some (VDict m) /\
    forall t, m !! "temp" = Some t -> is_number t = true -> temperature_ok t = true.
Proof.
  intros H. pose proof H as H'. unfold validate_weather_data in H.
  apply res_bind_Ok_inv in H as ([] & Hreq & H).
  apply check_required_Ok in Hreq as (Hc & Hm & Hn).
  apply res_bind_Ok_inv in H as (x & Hx & H).
  apply getitem_Ok_inv in Hx as (d' & [= <-] & Hx).
  apply res_bind_Ok_inv in H as (t & Ht & _).
  apply get_Ok_inv in Ht as (m & -> & _).
  split; [exact Hc|]. split; [exact Hn|]. exists m. split; [exact Hx|].
  intros t0 Ht0 Hnum.
  rewrite (validate_weather_data_dict d m Hc Hx Hn), Ht0, Hnum in H'.
  destruct (temperature_ok t0); [reflexivity|discriminate].
Qed.

Ltac invert_step H :=
  rewrite M_bind_lift in H;
  match type of H with
  | match ?r with Ok _ => _ | Raise _ => _ end = _ =>
      let E := fresh "E" in destruct r eqn:E; [|discriminate H]
  end.

Lemma transform_body_Ok_inv env d w v w' :
  transform_body env (VDict d) w = (Ok v, w') -> well_formed_raw d = true.
Proof.
  intros H. unfold transform_body in H.
  do 23 invert_step H. clear H.
  apply validate_weather_data_Ok_inv in E as (_ & _ & m & Hmain & Htemp).
  apply getitem_Ok_inv in E0 as (? & [= <-] & Hname).
  apply getitem2_Ok_inv in E1 as (s & Hsys & Hcountry).
  apply getitem2_Ok_inv in E2 as (c & Hcoord & Hlat).
  apply getitem2_Ok_inv in E3 as (c' & Hcoord' & Hlon).
  rewrite Hcoord in Hcoord'. injection Hcoord' as <-.
  apply res_bind_Ok_inv in E5 as (weather & Hweather & Hfirst).
  apply getitem_Ok_inv in Hweather as (? & [= <-] & Hweather).
  apply getitem_Ok_inv in E6 as (first & -> & Hwmain).
  apply getitem_Ok_inv in E7 as (? & [= <-] & Hwdesc).
  apply getitem_Ok_inv in E8 as (? & [= <-] & Hwicon).
  assert (Hlist : exists rest, weather = VList (VDict first :: rest)).
  { destruct weather as [| | | |str| |l|]; cbn [getitem0] in Hfirst; try discriminate.
    - destruct str; discriminate.
    - destruct l as [|x rest]; [discriminate|]. injection Hfirst as ->. eauto. }
  destruct Hlist as [rest ->].
  apply getitem_Ok_inv in E9 as (? & [= <-] & Hmain').
  rewrite Hmain in Hmain'. injection Hmain' as <-.
  apply getitem_round2_Ok_inv in E11 as (? & t1 & [= <-] & Ht1 & Hn1 & _).
  apply getitem_round2_Ok_inv in E12 as (? & t2 & [= <-] & Ht2 & Hn2 & _).
  apply getitem_round2_Ok_inv in E13 as (? & t3 & [= <-] & Ht3 & Hn3 & _).
  apply getitem_round2_Ok_inv in E14 as (? & t4 & [= <-] & Ht4 & Hn4 & _).
  apply getitem_Ok_inv in E15 as (? & [= <-] & Hpressure).
  apply getitem_Ok_inv in E16 as (? & [= <-] & Hhumidity).
  apply get_Ok_inv in E10 as (? & [= <-] & ->).
  apply get_Ok_inv in E18 as (wind & Hwind & _).
  apply res_bind_Ok_inv in E20 as (clouds & Hclouds & Hall).
  apply get_Ok_inv in Hclouds as (? & [= <-] & ->).
  apply get_Ok_inv in Hall as (cl & Hcl & _).
  apply res_bind_Ok_inv in E21 as (dt & Hdt & Hstamp).
  apply getitem_Ok_inv in Hdt as (? & [= <-] & Hdt).
  apply fromtimestamp_Ok_inv in Hstamp as [Hstamp _].
  unfold well_formed_raw, has_key, lookup_is, absent_or_dict.
  rewrite Hname, Hcoord, Hlat, Hlon, Hsys, Hcountry, Hweather, Hwmain, Hwdesc, Hwicon,
    Hmain, Ht1, Ht2, Ht3, Ht4, Hpressure, Hhumidity, Hdt, Hn2, Hn3, Hn4, Hstamp,
    (Htemp _ Ht1 Hn1).
  cbn [andb].
  destruct (d !! "wind") as [x|]; [destruct x; try discriminate Hwind|];
    (destruct (d !! "clouds") as [y|]; [destruct y; try discriminate Hcl|]); reflexivity.
Qed.

Ltac raise_step H :=
  rewrite M_bind_lift in H;
  match type of H with
  | match ?r with Ok _ => _ | Raise _ => _ end = _ =>
      destruct r; [|injection H as _ <-; reflexivity]
  end.

(** A failing transformation does not read the clock. *)
Lemma transform_body_Raise_world env raw w e w' :
  transform_body env raw w = (Raise e, w') -> w' = w.
Proof.
  intros H. unfold transform_body in H.
  do 23 raise_step H. discriminate H.
Qed.

Lemma validate_weather_data_not_dict raw :
  (forall d, raw <> VDict d) -> exists e, validate_weather_data raw = Raise e.
Proof.
  intros Hraw. unfold validate_weather_data.
  destruct (check_required ["coord"; "main"; "name"] raw) as [[]|e]; [|eauto].
  rewrite res_bind_Ok.
  destruct raw as [| | | | | | |d]; cbn [getitem]; eauto.
  destruct (Hraw d eq_refl).
Qed.

(** [transform_single_record] never raises; it returns a record exactly
    when the raw value is a dictionary that is well formed, and [None] in
    the world it was called in otherwise. *)
Lemma transform_single_record_cases env raw w :
  transform_single_record env raw w =
  match raw with
  | VDict d =>
      if well_formed_raw d
      then (Ok (normalized d (VDatetime (wall_clock env (clock_reads w)))),
            with_clock_reads (S (clock_reads w)) w)
      else (Ok VNone, w)
  | _ => (Ok VNone, w)
  end.
Proof.
  assert (Hnot : (forall d, raw <> VDict d) ->
                 transform_single_record env raw w = (Ok VNone, w)).
  { intros Hraw. destruct (validate_weather_data_not_dict raw Hraw) as [e He].
    exact (transform_single_record_invalid env raw e w He). }
  destruct raw as [| | | | | | |d]; try (apply Hnot; discriminate).
  destruct (well_formed_raw d) eqn:Hwf; [exact (transform_well_formed env d w Hwf)|].
  unfold transform_single_record, try_except.
  destruct (transform_body env (VDict d) w) as [[v|e] w'] eqn:Hbody.
  - apply transform_body_Ok_inv in Hbody. congruence.
  - apply transform_body_Raise_world in Hbody. subst w'. destruct e; reflexivity.
Qed.

(** A record that [transform_single_record] returns comes from a
    well-formed dictionary and is its field-by-field mapping. *)
Lemma transform_single_record_record env raw w v w' :
  transform_single_record env raw w = (Ok v, w') -> v <> VNone ->
  exists d,
    raw = VDict d /\ well_formed_raw d = true /\
    v = normalized d (VDatetime (wall_clock env (clock_reads w))) /\
    w' = with_clock_reads (S (clock_reads w)) w.
Proof.
  intros Hrun Hv.
  assert (Hd : exists d, raw = VDict d).
  { destruct raw as [| | | | | | |d]; eauto;
      match type of Hrun with transform_single_record _ ?r _ = _ =>
        destruct (validate_weather_data_not_dict r ltac:(discriminate)) as [e He];
        rewrite (transform_single_record_invalid env r e w He) in Hrun;
        injection Hrun as <- _; congruence
      end. }
  destruct Hd as [d ->]. exists d. split; [reflexivity|].
  assert (Hwf : well_formed_raw d = true).
  { unfold transform_single_record, try_except in Hrun.
    destruct (transform_body env (VDict d) w) as [[v0|e] w0] eqn:Hbody.
    - exact (transform_body_Ok_inv _ _ _ _ _ Hbody).
    - destruct e; injection Hrun as <- _; congruence. }
  split; [exact Hwf|].
  rewrite (transform_well_formed env d w Hwf) in Hrun.
  injection Hrun as <- <-. split; reflexivity.
Qed.

(** ** Rounding keeps a value between two integers *)

Lemma Qround2_bounds (x : Q) (lo hi : Z) :
  (inject_Z lo <= x)%Q -> (x <= inject_Z hi)%Q ->
  (inject_Z lo <= Qround2 x)%Q /\ (Qround2 x <= inject_Z hi)%Q.
Proof.
  destruct x as [a b]. unfold Qle. cbn [Qnum Qden inject_Z].
  intros Hlo Hhi. unfold Qround2. cbn [Qnum Qden].
  set (n := a * 100). set (d := Z.pos b).
  assert (Hd : 0 < d) by (unfold d; lia).
  pose proof (Z.div_mod n d ltac:(lia)) as Hdm.
  pose proof (Z.mod_pos_bound n d Hd) as Hr.
  set (q := n / d) in *. set (r := n mod d) in *.
  assert (Hq1 : 100 * lo <= q).
  { apply Z.div_le_lower_bound; [exact Hd|]. unfold n. nia. }
  assert (Hq2 : q <= 100 * hi).
  { assert (q < 100 * hi + 1); [|lia].
    apply Z.div_lt_upper_bound; [exact Hd|]. unfold n. nia. }
  assert (Hup : forall k, (k = q \/ (k = q + 1 /\ d <= 2 * r)) ->
                100 * lo <= k <= 100 * hi).
  { intros k [->|[-> Hk]]; [lia|]. split; [lia|].
    assert (q <> 100 * hi); [|lia]. intros Heq.
    assert (n <= 100 * hi * d) by (unfold n; nia). nia. }
  assert (Hk : exists k, Qred ((if match 2 * r ?= d with
                                  | Eq => Z.odd q | Lt => false | Gt => true
                                  end then q + 1 else q) # 100) = Qred (k # 100) /\
                         100 * lo <= k <= 100 * hi).
  { destruct (Z.compare_spec (2 * r) d) as [He|Hl|Hg].
    - destruct (Z.odd q); eexists; (split; [reflexivity|]); apply Hup; [right|left]; lia.
    - eexists; split; [reflexivity|]. apply Hup. left. reflexivity.
    - eexists; split; [reflexivity|]. apply Hup. right. lia. }
  destruct Hk as (k & -> & Hk1 & Hk2).
  pose proof (Qred_correct (k # 100)) as Hred.
  split.
  - change (inject_Z lo <= Qred (k # 100))%Q. rewrite Hred.
    unfold Qle. cbn. lia.
  - change (Qred (k # 100) <= inject_Z hi)%Q. rewrite Hred.
    unfold Qle. cbn. lia.
Qed.

Lemma rounded_temperature_ok t : temperature_ok t = true -> temperature_ok (rounded t) = true.
Proof.
  unfold temperature_ok, rounded.
  destruct t as [|b|n|x| | | |]; cbn [as_number round2]; try discriminate.
  - destruct b; reflexivity.
  - auto.
  - intros H. apply andb_true_iff in H as [H1 H2].
    apply Qle_bool_iff in H1, H2.
    destruct (Qround2_bounds x (-100) 60 H1 H2) as [H3 H4].
    apply andb_true_iff. split; apply Qle_bool_iff; assumption.
Qed.

(** ** Records that the transformer returns, seen by the validation gate *)

Lemma well_formed_temperature d :
  well_formed_raw d = true -> temperature_ok (subfield d "main" "temp") = true.
Proof.
  intros Hwf. unfold well_formed_raw in Hwf.
  unfold has_key, lookup_is in Hwf. lookup_cases.
  unfold subfield, field.
  repeat match goal with E : _ !! _ = Some _ |- _ => rewrite E; clear E end.
  assumption.
Qed.

Lemma validate_transformed_temperature_ok td m temp hum :
  is_Some (td !! "city") -> is_Some (td !! "condition") ->
  td !! "measurement" = Some (VDict m) ->
  m !! "temperature_celsius" = Some temp ->
  m !! "humidity_percent" = Some hum ->
  temperature_ok temp = true ->
  validate_transformed_data (VDict td) = Ok (humidity_ok hum).
Proof.
  intros Hc Hk Hm Ht Hh Hrange.
  unfold validate_transformed_data, validate_transformed_body.
  cbn [sections_present]. rewrite !contains_dict, Hm.
  rewrite !bool_decide_true by eauto. cbn [negb].
  rewrite !res_bind_Ok. cbn [negb getitem]. rewrite Hm. rewrite !res_bind_Ok. cbn [getitem].
  rewrite Ht, Hh, !res_bind_Ok.
  unfold temperature_ok in Hrange.
  unfold py_or, lt_int, gt_int, Qlt_bool, humidity_ok.
  destruct (as_number temp) as [x|]; [|discriminate].
  apply andb_true_iff in Hrange as [-> ->]. rewrite !res_bind_Ok. cbn [negb].
  rewrite !res_bind_Ok.
  destruct (as_number hum) as [h|]; [|reflexivity].
  rewrite res_bind_Ok.
  destruct (Qle_bool (inject_Z 0) h); cbn [negb andb]; [|reflexivity].
  rewrite res_bind_Ok. destruct (Qle_bool h (inject_Z 100)); reflexivity.
Qed.

Lemma validate_transformed_normalized d called :
  well_formed_raw d = true ->
  validate_transformed_data (normalized d called) =
  Ok (humidity_ok (subfield d "main" "humidity")).
Proof.
  intros Hwf.
  pose proof (rounded_temperature_ok _ (well_formed_temperature d Hwf)) as Hrange.
  apply (validate_transformed_temperature_ok (normalized_fields d called)
           (measurement_fields d called) (rounded (subfield d "main" "temp")));
    try reflexivity; try (eexists; reflexivity). exact Hrange.
Qed.

(** X3: validation of what the transformer returns, for the values of this
    model (finite numbers; the not-a-number and infinite floats of a JSON
    decoder are no values of it).  When [transform_single_record] returns a
    record for a raw record whose temperature is a finite number, the
    temperature of the record is a finite number within [-100, 60]
    (rounding keeps the bounds) and its humidity is that of the raw record,
    so that [validate_transformed_data] decides on the humidity alone: for a
    humidity that is a finite number of value [h] it returns [True] when
    [0 <= h <= 100] and [False] otherwise, and for a humidity that is no
    number it returns [False]. *)
Theorem transform_output_validation env d w v w' t :
  transform_single_record env (VDict d) w = (Ok v, w') -> v <> VNone ->
  as_number (subfield d "main" "temp") = Some t ->
  exists m temp t',
    getitem v "measurement" = Ok (VDict m) /\
    m !! "temperature_celsius" = Some temp /\
    as_number temp = Some t' /\
    Qle_bool (inject_Z (-100)) t' && Qle_bool t' (inject_Z 60) = true /\
    m !! "humidity_percent" = Some (subfield d "main" "humidity") /\
    (forall h, as_number (subfield d "main" "humidity") = Some h ->
       validate_transformed_data v =
       Ok (Qle_bool (inject_Z 0) h && Qle_bool h (inject_Z 100))) /\
    (as_number (subfield d "main" "humidity") = None ->
     validate_transformed_data v = Ok false).
Proof.
  intros Hrun Hv _.
  destruct (transform_single_record_record env (VDict d) w v w' Hrun Hv)
    as (d' & [= <-] & Hwf & -> & _).
  pose proof (rounded_temperature_ok _ (well_formed_temperature d Hwf)) as Hrange.
  pose proof (validate_transformed_normalized d
                (VDatetime (wall_clock env (clock_reads w))) Hwf) as Hval.
  unfold temperature_ok in Hrange.
  destruct (as_number (rounded (subfield d "main" "temp"))) as [t'|] eqn:Ht';
    [|discriminate].
  exists (measurement_fields d (VDatetime (wall_clock env (clock_reads w)))),
    (rounded (subfield d "main" "temp")), t'.
  split; [reflexivity|]. split; [reflexivity|]. split; [exact Ht'|].
  split; [exact Hrange|]. split; [reflexivity|].
  rewrite Hval. unfold humidity_ok. split.
  - intros h ->. reflexivity.
  - intros ->. reflexivity.
Qed.

Lemma transform_output_validation_witness :
  exists v,
    fst (transform_single_record (quiet_env (fun _ _ => RequestException))
           (VDict (sample_raw (VFloat (31 # 2)) (VInt 150))) initial_world) = Ok v /\
    validate_transformed_data v = Ok false.
Proof.
  destruct (transform_single_record (quiet_env (fun _ _ => RequestException))
              (VDict (sample_raw (VFloat (31 # 2)) (VInt 150))) initial_world)
    as [r w'] eqn:Hrun.
  assert (Hr : exists v, r = Ok v /\ v <> VNone).
  { vm_compute in Hrun. injection Hrun as <- _. eexists. split; [reflexivity|discriminate]. }
  destruct Hr as (v & -> & Hv).
  destruct (transform_output_validation _ _ _ _ _ (31 # 2)%Q Hrun Hv eq_refl)
    as (m & temp & t' & _ & _ & _ & _ & _ & Hval & _).
  exists v. split; [reflexivity|]. rewrite (Hval (inject_Z 150) eq_refl). reflexivity.
Defined.

(** ** The batch transformation *)

Lemma transform_loop_each env raw_data_list : forall transformed_records w,
  transform_loop env raw_data_list transformed_records w =
  (Ok (transformed_records ++ omap kept (fst (transform_each env raw_data_list w)))%list,
   snd (transform_each env raw_data_list w)).
Proof.
  induction raw_data_list as [|raw rest IH]; intros acc w.
  - cbn. rewrite app_nil_r. reflexivity.
  - cbn [transform_loop transform_each]. rewrite M_bind_unfold.
    destruct (transform_single_record_returns env raw w) as (v & w' & Hrun).
    rewrite Hrun, IH.
    destruct (transform_each env rest w') as [rs w'']. cbn [fst snd].
    rewrite (omap_cons kept). cbn [kept].
    destruct (truthy v); [rewrite <- app_assoc|]; reflexivity.
Qed.

Lemma transform_each_world env raw_data_list : forall w,
  (length (omap kept (fst (transform_each env raw_data_list w))) <=
   length raw_data_list)%nat /\
  snd (transform_each env raw_data_list w) =
  with_clock_reads
    (clock_reads w + length (omap kept (fst (transform_each env raw_data_list w))))%nat w.
Proof.
  induction raw_data_list as [|raw rest IH]; intros w.
  - cbn. split; [lia|]. rewrite Nat.add_0_r. destruct w. reflexivity.
  - cbn [transform_each]. rewrite transform_single_record_cases.
    assert (Hskip :
      (length (omap kept (fst (let '(rs, w'') := transform_each env rest w in
                               (Ok VNone :: rs, w'')))) <= length (raw :: rest))%nat /\
      snd (let '(rs, w'') := transform_each env rest w in (Ok VNone :: rs, w'')) =
      with_clock_reads
        (clock_reads w +
         length (omap kept (fst (let '(rs, w'') := transform_each env rest w in
                                 (Ok VNone :: rs, w'')))))%nat w).
    { specialize (IH w). destruct (transform_each env rest w) as [rs w''].
      cbn [fst snd] in *. rewrite (omap_cons kept). cbn [kept truthy length].
      destruct IH as [IH1 IH2]. split; [lia|exact IH2]. }
    destruct raw as [| | | | | | |d]; try exact Hskip.
    destruct (well_formed_raw d); [|exact Hskip].
    specialize (IH (with_clock_reads (S (clock_reads w)) w)).
    destruct (transform_each env rest _) as [rs w'']. cbn [fst snd] in *.
    rewrite (omap_cons kept). cbn [kept].
    change (truthy (normalized d (VDatetime (wall_clock env (clock_reads w))))) with true.
    cbn [length]. destruct IH as [IH1 IH2]. split; [lia|].
    rewrite IH2. unfold with_clock_reads. cbn. f_equal. lia.
Qed.

(** X2: the transformer never raises and touches nothing but the clock.
    [transform_single_record] either returns [None] in the world it was
    called in, or reads the clock once and returns a dictionary with the
    sections [city], [condition] and [measurement], whose
    [api_call_timestamp] is that reading of the clock; on a value that is no
    dictionary it returns [None].  [transform_multiple_records] returns the
    results of [transform_single_record] on the items of its list that are
    true in Python's sense, that is, the records and not the [None]s, in
    the order of the list: at most as many records as items, with one
    reading of the clock per record returned and nothing else changed. *)
Theorem transform_records_kept env :
  (forall raw w,
      transform_single_record env raw w = (Ok VNone, w) \/
      exists fields m,
        transform_single_record env raw w =
        (Ok (VDict fields), with_clock_reads (S (clock_reads w)) w) /\
        is_Some (fields !! "city") /\ is_Some (fields !! "condition") /\
        fields !! "measurement" = Some (VDict m) /\
        m !! "api_call_timestamp" = Some (VDatetime (wall_clock env (clock_reads w))) /\
        truthy (VDict fields) = true) /\
  (forall raw w, (forall d, raw <> VDict d) ->
      transform_single_record env raw w = (Ok VNone, w)) /\
  (forall raw_data_list w,
      transform_multiple_records env raw_data_list w =
      (Ok (omap kept (fst (transform_each env raw_data_list w))),
       snd (transform_each env raw_data_list w))) /\
  (forall raw_data_list w,
      (length (omap kept (fst (transform_each env raw_data_list w))) <=
       length raw_data_list)%nat /\
      snd (transform_each env raw_data_list w) =
      with_clock_reads
        (clock_reads w +
         length (omap kept (fst (transform_each env raw_data_list w))))%nat w).
Proof.
  split; [|split; [|split]].
  - intros raw w. rewrite transform_single_record_cases.
    destruct raw as [| | | | | | |d]; auto.
    destruct (well_formed_raw d); [|auto].
    right. eexists _, _. split; [reflexivity|].
    split; [eexists; reflexivity|]. split; [eexists; reflexivity|].
    split; [reflexivity|]. split; reflexivity.
  - intros raw w Hraw. rewrite transform_single_record_cases.
    destruct raw; try reflexivity. exfalso. eapply Hraw. reflexivity.
  - intros l w. unfold transform_multiple_records. rewrite transform_loop_each.
    reflexivity.
  - intros l w. apply transform_each_world.
Qed.

(** ** The retry wrapper, for any wrapped function *)

Lemma retry_loop_shift max_retries delay func (attempts : list Z) :
  retry_loop max_retries delay func (Z.add 1 <$> attempts) =
  retry_loop (max_retries - 1) delay func attempts.
Proof.
  induction attempts as [|attempt rest IH]; [reflexivity|].
  cbn [fmap list_fmap retry_loop]. fold (Z.add 1 <$> rest). rewrite IH.
  replace (1 + attempt =? max_retries - 1) with (attempt =? max_retries - 1 - 1);
    [reflexivity|].
  destruct (Z.eqb_spec attempt (max_retries - 1 - 1)),
    (Z.eqb_spec (1 + attempt) (max_retries - 1)); lia || reflexivity.
Qed.

(** X4: [retry_on_failure], whatever it wraps.  With no attempt to make
    ([max_retries <= 0]) the function is not called and the wrapper returns
    [None].  Otherwise a call that returns ends the wrapper with its value;
    a call that raises on the last attempt ([max_retries = 1]) raises to the
    caller without sleeping; and after any other call that raises the
    wrapper sleeps [delay], for a [delay] that is not negative ([time.sleep]
    raises on a negative one), and goes on as the wrapper with one attempt
    fewer. *)
Theorem retry_on_failure_law max_retries delay func w :
  (max_retries <= 0 ->
   retry_on_failure max_retries delay func w = (Ok VNone, w)) /\
  (forall v w', 0 < max_retries -> func w = (Ok v, w') ->
   retry_on_failure max_retries delay func w = (Ok v, w')) /\
  (forall e w', max_retries = 1 -> func w = (Raise e, w') ->
   retry_on_failure max_retries delay func w = (Raise e, w')) /\
  (forall e w', 1 < max_retries -> 0 <= delay -> func w = (Raise e, w') ->
   retry_on_failure max_retries delay func w =
   retry_on_failure (max_retries - 1) delay func
     (with_sleeps (sleeps w' ++ [delay]) w')).
Proof.
  unfold retry_on_failure. split; [|split; [|split]].
  - intros Hn. rewrite seqZ_nil by lia. reflexivity.
  - intros v w' Hn Hf. rewrite seqZ_cons by lia.
    apply retry_loop_returns. exact Hf.
  - intros e w' -> Hf. rewrite seqZ_cons by lia.
    apply retry_loop_last; [exact Hf|reflexivity].
  - intros e w' Hn _ Hf. rewrite seqZ_cons by lia.
    rewrite (retry_loop_again _ _ _ _ _ _ _ _ Hf) by lia.
    change (Z.succ 0) with (1 + 0). rewrite <- fmap_add_seqZ, retry_loop_shift.
    replace (Z.pred max_retries) with (max_retries - 1) by lia. reflexivity.
Qed.

Lemma retry_on_failure_law_witness :
  retry_on_failure 0 5 (fun w => (Raise Timeout, w)) initial_world
    = (Ok VNone, initial_world) /\
  retry_on_failure 2 5 (fun w => (Raise Timeout, w)) initial_world
    = retry_on_failure 1 5 (fun w => (Raise Timeout, w))
        (with_sleeps [5] initial_world).
Proof.
  split.
  - apply (proj1 (retry_on_failure_law 0 5 _ initial_world)). lia.
  - apply (proj2 (proj2 (proj2 (retry_on_failure_law 2 5 _ initial_world)))
             Timeout initial_world); [lia|lia|reflexivity].
Defined.

(** ** How far a fetch can go *)

Section FetchBounds.

Context (cfg : Config) (env : Env).

Lemma fetch_once_world city_name country_code w :
  snd (fetch_weather_by_city_once env city_name country_code w) =
  with_http_calls (S (http_calls w)) w.
Proof.
  unfold fetch_weather_by_city_once.
  destruct (http_get env (http_calls w) (query_of city_name country_code)); reflexivity.
Qed.

Lemma retry_loop_fetch_bounded city_name country_code (len : nat) : forall a w,
  a + Z.of_nat (S len) = MAX_RETRIES cfg ->
  exists k : nat,
    (1 <= k <= S len)%nat /\
    snd (retry_loop (MAX_RETRIES cfg) (RETRY_DELAY cfg)
           (fetch_weather_by_city_once env city_name country_code)
           (seqZ a (Z.of_nat (S len))) w) =
    after_requests k (k - 1) (RETRY_DELAY cfg) w.
Proof.
  assert (Hone : forall w, with_http_calls (S (http_calls w)) w =
                           after_requests 1 0 (RETRY_DELAY cfg) w).
  { intros w. unfold after_requests, with_sleeps, with_http_calls. cbn.
    rewrite app_nil_r. f_equal. lia. }
  induction len as [|len IH]; intros a w Hlen.
  - exists 1%nat. split; [lia|]. rewrite seqZ_cons by lia.
    pose proof (fetch_once_world city_name country_code w) as Hw.
    destruct (fetch_weather_by_city_once env city_name country_code w) as [[v|e] w1] eqn:Hf;
      cbn [snd] in Hw; subst w1.
    + erewrite retry_loop_returns by exact Hf. apply Hone.
    + erewrite retry_loop_last; [|exact Hf|lia]. apply Hone.
  - rewrite seqZ_cons by lia.
    pose proof (fetch_once_world city_name country_code w) as Hw.
    destruct (fetch_weather_by_city_once env city_name country_code w) as [[v|e] w1] eqn:Hf;
      cbn [snd] in Hw; subst w1.
    + exists 1%nat. split; [lia|]. erewrite retry_loop_returns by exact Hf. apply Hone.
    + erewrite retry_loop_again; [|exact Hf|lia].
      replace (Z.pred (Z.of_nat (S (S len)))) with (Z.of_nat (S len)) by lia.
      destruct (IH (Z.succ a)
                  (with_sleeps (sleeps (with_http_calls (S (http_calls w)) w)
                                ++ [RETRY_DELAY cfg])
                     (with_http_calls (S (http_calls w)) w)) ltac:(lia))
        as (k & Hk & Hrun).
      exists (S k). split; [lia|]. rewrite Hrun.
      replace (S k - 1)%nat with (S (k - 1)) by lia.
      apply after_requests_step.
Qed.

Lemma fetch_weather_by_city_requests city_name country_code w :
  0 < MAX_RETRIES cfg ->
  exists k : nat,
    (1 <= k)%nat /\ Z.of_nat k <= MAX_RETRIES cfg /\
    snd (fetch_weather_by_city cfg env city_name country_code w) =
    after_requests k (k - 1) (RETRY_DELAY cfg) w.
Proof.
  intros Hn. unfold fetch_weather_by_city, retry_on_failure.
  destruct (retry_loop_fetch_bounded city_name country_code
              (Z.to_nat (MAX_RETRIES cfg - 1)) 0 w ltac:(lia)) as (k & Hk & Hrun).
  replace (Z.of_nat (S (Z.to_nat (MAX_RETRIES cfg - 1)))) with (MAX_RETRIES cfg)
    in Hrun by lia.
  exists k. split; [lia|]. split; [lia|exact Hrun].
Qed.

(** X5: with at least one attempt configured, a call of
    [fetch_weather_by_city] issues between one and [MAX_RETRIES] requests,
    sleeps [RETRY_DELAY] once between two consecutive requests and never
    after the last, and touches neither the clock nor the store. *)
Theorem fetch_weather_by_city_bounded city_name country_code w :
  0 < MAX_RETRIES cfg ->
  exists k : nat,
    (1 <= k)%nat /\ Z.of_nat k <= MAX_RETRIES cfg /\
    snd (fetch_weather_by_city cfg env city_name country_code w) =
    after_requests k (k - 1) (RETRY_DELAY cfg) w.
Proof. exact (fetch_weather_by_city_requests city_name country_code w). Qed.

End FetchBounds.

Lemma fetch_weather_by_city_bounded_witness :
  exists k : nat,
    (1 <= k)%nat /\ Z.of_nat k <= 3 /\
    snd (fetch_weather_by_city (sample_config []) (quiet_env (fun _ _ => RequestTimeout))
           "London" (Some "GB") initial_world) =
    after_requests k (k - 1) 5 initial_world.
Proof.
  apply (fetch_weather_by_city_bounded (sample_config [])
           (quiet_env (fun _ _ => RequestTimeout)) "London" (Some "GB") initial_world).
  reflexivity.
Defined.


Lemma fetch_each_bounded cfg env cities : forall w,
  0 < MAX_RETRIES cfg ->
  (http_calls w + length cities <= http_calls (snd (fetch_each cfg env cities w)))%nat /\
  Z.of_nat (http_calls (snd (fetch_each cfg env cities w))) <=
    Z.of_nat (http_calls w) + MAX_RETRIES cfg * Z.of_nat (length cities) /\
  clock_reads (snd (fetch_each cfg env cities w)) = clock_reads w /\
  db_calls (snd (fetch_each cfg env cities w)) = db_calls w /\
  db (snd (fetch_each cfg env cities w)) = db w.
Proof.
  intros w Hn. revert w.
  induction cities as [|city rest IH]; intros w.
  - cbn. repeat split; lia.
  - cbn [fetch_each].
    destruct (fetch_weather_by_city_requests cfg env (name city) (country city) w Hn)
      as (k & Hk1 & Hk2 & Hw).
    destruct (fetch_weather_by_city cfg env (name city) (country city) w) as [r w1].
    cbn [snd] in Hw. subst w1.
    specialize (IH (after_requests k (k - 1) (RETRY_DELAY cfg) w)).
    destruct (fetch_each cfg env rest _) as [rs w2]. cbn [snd length] in *.
    unfold after_requests, with_sleeps, with_http_calls in IH.
    cbn [http_calls clock_reads db_calls db] in IH.
    destruct IH as (H1 & H2 & H3 & H4 & H5). repeat split; try assumption; nia.
Qed.

Lemma omap_kept_truthy (rs : list (res value)) :
  Forall (fun v => truthy v = true) (omap kept rs) /\
  (length (omap kept rs) <= length rs)%nat.
Proof.
  induction rs as [|r rs [IH1 IH2]]; [split; [constructor|reflexivity]|].
  rewrite omap_cons. destruct r as [v|e]; cbn [kept length].
  - destruct (truthy v) eqn:Hv; cbn [length]; split; try (constructor; assumption);
      try assumption; lia.
  - split; [assumption|lia].
Qed.

Lemma fetch_each_app cfg env before rest : forall w,
  snd (fetch_each cfg env (before ++ rest) w) =
  snd (fetch_each cfg env rest (snd (fetch_each cfg env before w))).
Proof.
  induction before as [|city before IH]; intros w; [reflexivity|].
  cbn [app fetch_each].
  destruct (fetch_weather_by_city cfg env (name city) (country city) w) as [r w1].
  specialize (IH w1).
  destruct (fetch_each cfg env (before ++ rest) w1) as [rs w2].
  destruct (fetch_each cfg env before w1) as [rs' w2']. cbn [snd] in *. exact IH.
Qed.

Lemma fetch_each_one cfg env city w :
  snd (fetch_each cfg env [city] w) =
  snd (fetch_weather_by_city cfg env (name city) (country city) w).
Proof.
  cbn [fetch_each].
  destruct (fetch_weather_by_city cfg env (name city) (country city) w). reflexivity.
Qed.

(** X6: with at least one attempt configured, [fetch_weather_for_cities]
    never raises and returns at most one record per city, each of them true
    in Python's sense.  It fetches the cities one after the other: the fetch
    of each city starts in the world that the fetches of the cities before it
    left and issues between one and [MAX_RETRIES] requests, sleeping
    [RETRY_DELAY] once less than that.  Hence the call issues at least as
    many requests as there are cities and at most [MAX_RETRIES] times as
    many, and touches neither the clock nor the store. *)
Theorem fetch_weather_for_cities_bounded cfg env cities w :
  0 < MAX_RETRIES cfg ->
  exists weather_data w',
    fetch_weather_for_cities cfg env cities w = (Ok weather_data, w') /\
    (length weather_data <= length cities)%nat /\
    Forall (fun v => truthy v = true) weather_data /\
    w' = snd (fetch_each cfg env cities w) /\
    (forall before city rest, cities = (before ++ city :: rest)%list ->
       exists k : nat,
         (1 <= k)%nat /\ Z.of_nat k <= MAX_RETRIES cfg /\
         snd (fetch_each cfg env (before ++ [city]) w) =
         after_requests k (k - 1) (RETRY_DELAY cfg)
           (snd (fetch_each cfg env before w))) /\
    (http_calls w + length cities <= http_calls w')%nat /\
    Z.of_nat (http_calls w') <=
      Z.of_nat (http_calls w) + MAX_RETRIES cfg * Z.of_nat (length cities) /\
    clock_reads w' = clock_reads w /\ db_calls w' = db_calls w /\ db w' = db w.
Proof.
  intros Hn. unfold fetch_weather_for_cities. rewrite fetch_loop_each. cbn [app].
  eexists _, _. split; [reflexivity|].
  destruct (omap_kept_truthy (fst (fetch_each cfg env cities w))) as [Ht Hl].
  rewrite fetch_each_length in Hl.
  split; [exact Hl|]. split; [exact Ht|]. split; [reflexivity|]. split.
  - intros before city rest _.
    rewrite fetch_each_app, fetch_each_one.
    destruct (fetch_weather_by_city_requests cfg env (name city) (country city)
                (snd (fetch_each cfg env before w)) Hn) as (k & Hk1 & Hk2 & Hw).
    exists k. auto.
  - exact (fetch_each_bounded cfg env cities w Hn).
Qed.

Lemma fetch_weather_for_cities_bounded_witness :
  exists weather_data w' (k : nat),
    fetch_weather_for_cities (sample_config sample_cities)
      (quiet_env (fun _ _ => RequestTimeout)) sample_cities initial_world
      = (Ok weather_data, w') /\
    (3 <= http_calls w' <= 9)%nat /\
    (1 <= k <= 3)%nat /\
    snd (fetch_each (sample_config sample_cities) (quiet_env (fun _ _ => RequestTimeout))
           [london; paris] initial_world) =
    after_requests k (k - 1) 5
      (snd (fetch_each (sample_config sample_cities)
              (quiet_env (fun _ _ => RequestTimeout)) [london] initial_world)).
Proof.
  destruct (fetch_weather_for_cities_bounded (sample_config sample_cities)
              (quiet_env (fun _ _ => RequestTimeout)) sample_cities initial_world eq_refl)
    as (out & w' & Hrun & _ & _ & _ & Hcity & Hlo & Hhi & _).
  destruct (Hcity [london] paris [tokyo] eq_refl) as (k & Hk1 & Hk2 & Hw).
  exists out, w', k. split; [exact Hrun|].
  cbn in Hlo, Hhi, Hk2. split; [lia|]. split; [lia|exact Hw].
Defined.

(** ** The connection test of the extractor *)

(** X7: [test_api_connection] never raises.  When the first [j] attempts of
    its fetch raise and the next one returns, it returns the truth value of
    what was returned ([False] after an HTTP error status); when all
    [MAX_RETRIES] attempts raise, it returns [False]. *)
Theorem test_api_connection_outcome cfg env w :
  let outcome i := http_get env (http_calls w + i) "London,GB" in
  (forall (j : nat) v,
      Z.of_nat j < MAX_RETRIES cfg ->
      (forall i, (i < j)%nat -> is_Some (raised (outcome i))) ->
      returned (outcome j) = Some v ->
      test_api_connection cfg env w =
      (Ok (truthy v), after_requests (S j) j (RETRY_DELAY cfg) w)) /\
  (forall (j : nat),
      Z.of_nat (S j) = MAX_RETRIES cfg ->
      (forall i, (i <= j)%nat -> is_Some (raised (outcome i))) ->
      test_api_connection cfg env w =
      (Ok false, after_requests (S j) j (RETRY_DELAY cfg) w)).
Proof.
  intros outcome. unfold test_api_connection, try_except.
  unfold fetch_weather_by_city, retry_on_failure. split.
  - intros j v Hj Hraise Hret. rewrite M_bind_unfold.
    rewrite (retry_loop_fetch_returns cfg env "London" (Some "GB") j 0
               (MAX_RETRIES cfg) w v); [reflexivity|lia|lia|exact Hraise|exact Hret].
  - intros j Hj Hraise. rewrite M_bind_unfold.
    destruct (Hraise j ltac:(lia)) as [e He].
    replace (seqZ 0 (MAX_RETRIES cfg)) with (seqZ 0 (Z.of_nat (S j)))
      by (rewrite Hj; reflexivity).
    rewrite (retry_loop_fetch_exhausted cfg env "London" (Some "GB") j 0 w e);
      [reflexivity|lia| |exact He].
    intros i Hi. apply Hraise. lia.
Qed.

Lemma test_api_connection_outcome_witness :
  fst (test_api_connection (sample_config []) (quiet_env (fun _ _ => RequestTimeout))
         initial_world) = Ok false /\
  fst (test_api_connection (sample_config []) (quiet_env (fun _ _ => HTTPError 401))
         initial_world) = Ok false /\
  fst (test_api_connection (sample_config [])
         (quiet_env (fun _ _ => Response sample_raw_weather_data)) initial_world) = Ok true.
Proof.
  split; [|split].
  - rewrite (proj2 (test_api_connection_outcome (sample_config [])
               (quiet_env (fun _ _ => RequestTimeout)) initial_world) 2%nat);
      [reflexivity|reflexivity|]. intros i _. eexists. reflexivity.
  - rewrite (proj1 (test_api_connection_outcome (sample_config [])
               (quiet_env (fun _ _ => HTTPError 401)) initial_world) 0%nat VNone);
      [reflexivity|reflexivity|intros i Hi; lia|reflexivity].
  - rewrite (proj1 (test_api_connection_outcome (sample_config [])
               (quiet_env (fun _ _ => Response sample_raw_weather_data)) initial_world)
               0%nat sample_raw_weather_data);
      [reflexivity|reflexivity|intros i Hi; lia|reflexivity].
Defined.

(** ** What the loader commits to the store *)

Lemma sql_eq_sym a b : sql_eq a b = sql_eq b a.
Proof.
  destruct a, b; cbn; try reflexivity.
  - destruct b, b0; reflexivity.
  - apply Z.eqb_sym.
  - apply eq_true_iff_eq. rewrite !Qeq_bool_iff. split; intros H; symmetry; exact H.
  - apply eq_true_iff_eq. rewrite !Qeq_bool_iff. split; intros H; symmetry; exact H.
  - apply eq_true_iff_eq. rewrite !Qeq_bool_iff. split; intros H; symmetry; exact H.
  - apply String.eqb_sym.
  - apply eq_true_iff_eq. rewrite !Qeq_bool_iff. split; intros H; symmetry; exact H.
Qed.

Lemma bind_param_getitem v k x y :
  getitem v k = Ok x -> bind_param v k = Ok y -> y = x.
Proof.
  destruct v; cbn; try discriminate.
  destruct (d !! k); [|discriminate]. congruence.
Qed.

Lemma store_only_refl n w : store_only n w w.
Proof. unfold store_only. repeat split; lia. Qed.

Lemma store_only_trans n1 n2 w1 w2 w3 :
  store_only n1 w1 w2 -> store_only n2 w2 w3 -> store_only (n1 + n2) w1 w3.
Proof. unfold store_only. intros (-> & -> & -> & ?) (-> & -> & -> & ?). repeat split; lia. Qed.

Lemma store_only_weaken n1 n2 w1 w2 :
  (n1 <= n2)%nat -> store_only n1 w1 w2 -> store_only n2 w1 w2.
Proof. unfold store_only. intros ? (-> & -> & -> & ?). repeat split; lia. Qed.

Section Commits.

Context (env : Env).

(** What a call of [load_city] comes to, with the row it found or inserted. *)
Lemma load_city_post city_data w :
  load_city env city_data w = (Ok None, with_db_calls (S (db_calls w)) w) \/
  (exists v_name v_country r,
      getitem city_data "city_name" = Ok v_name /\
      getitem city_data "country_code" = Ok v_country /\
      List.find (city_matches v_name v_country) (cities (db w)) = Some r /\
      load_city env city_data w =
      (Ok (Some (city_id r)), with_db_calls (S (db_calls w)) w)) \/
  (exists v_name v_country v_lat v_lon v_tz,
      getitem city_data "city_name" = Ok v_name /\
      getitem city_data "country_code" = Ok v_country /\
      List.find (city_matches v_name v_country) (cities (db w)) = None /\
      load_city env city_data w =
      (Ok (Some (next_city_id (db w))),
       with_db (add_city {| city_id := next_city_id (db w); city_name := v_name;
                            country_code := v_country; latitude := v_lat;
                            longitude := v_lon; timezone_offset := v_tz |} (db w))
         (with_db_calls (S (db_calls w)) w))).
Proof.
  unfold load_city, try_except, load_city_body.
  rewrite M_bind_unfold. unfold connect.
  destruct (db_fault env (db_calls w)); [left; reflexivity|].
  rewrite M_bind_lift.
  destruct (getitem city_data "city_name") as [v_name|e] eqn:Hn;
    [|left; destruct e; reflexivity].
  rewrite M_bind_lift.
  destruct (getitem city_data "country_code") as [v_country|e] eqn:Hc;
    [|left; destruct e; reflexivity].
  rewrite M_bind_unfold. unfold select_city. cbn [db with_db_calls].
  destruct (List.find (city_matches v_name v_country) (cities (db w))) as [r|] eqn:Hfind.
  { right. left. exists v_name, v_country, r. auto. }
  rewrite M_bind_lift.
  destruct (bind_param city_data "city_name") as [p1|e] eqn:Hp1;
    [|left; destruct e; reflexivity].
  rewrite M_bind_lift.
  destruct (bind_param city_data "country_code") as [p2|e] eqn:Hp2;
    [|left; destruct e; reflexivity].
  rewrite M_bind_lift.
  destruct (bind_param city_data "latitude") as [p3|e];
    [|left; destruct e; reflexivity].
  rewrite M_bind_lift.
  destruct (bind_param city_data "longitude") as [p4|e];
    [|left; destruct e; reflexivity].
  rewrite M_bind_lift.
  destruct (bind_param city_data "timezone_offset") as [p5|e];
    [|left; destruct e; reflexivity].
  rewrite (bind_param_getitem _ _ _ _ Hn Hp1), (bind_param_getitem _ _ _ _ Hc Hp2).
  right. right. exists v_name, v_country, p3, p4, p5. auto.
Qed.

Lemma load_weather_condition_post condition_data w :
  load_weather_condition env condition_data w =
    (Ok None, with_db_calls (S (db_calls w)) w) \/
  (exists v_main v_description r,
      getitem condition_data "main_condition" = Ok v_main /\
      getitem condition_data "description" = Ok v_description /\
      List.find (condition_matches v_main v_description)
                (weather_conditions (db w)) = Some r /\
      load_weather_condition env condition_data w =
      (Ok (Some (condition_id r)), with_db_calls (S (db_calls w)) w)) \/
  (exists v_main v_description v_icon,
      getitem condition_data "main_condition" = Ok v_main /\
      getitem condition_data "description" = Ok v_description /\
      List.find (condition_matches v_main v_description)
                (weather_conditions (db w)) = None /\
      load_weather_condition env condition_data w =
      (Ok (Some (next_condition_id (db w))),
       with_db (add_condition {| condition_id := next_condition_id (db w);
                                 main_condition := v_main;
                                 description := v_description;
                                 icon_code := v_icon |} (db w))
         (with_db_calls (S (db_calls w)) w))).
Proof.
  unfold load_weather_condition, try_except, load_weather_condition_body.
  rewrite M_bind_unfold. unfold connect.
  destruct (db_fault env (db_calls w)); [left; reflexivity|].
  rewrite M_bind_lift.
  destruct (getitem condition_data "main_condition") as [v_main|e] eqn:Hn;
    [|left; destruct e; reflexivity].
  rewrite M_bind_lift.
  destruct (getitem condition_data "description") as [v_description|e] eqn:Hc;
    [|left; destruct e; reflexivity].
  rewrite M_bind_unfold. unfold select_condition. cbn [db with_db_calls].
  destruct (List.find (condition_matches v_main v_description)
              (weather_conditions (db w))) as [r|] eqn:Hfind.
  { right. left. exists v_main, v_description, r. auto. }
  rewrite M_bind_lift.
  destruct (bind_param condition_data "main_condition") as [p1|e] eqn:Hp1;
    [|left; destruct e; reflexivity].
  rewrite M_bind_lift.
  destruct (bind_param condition_data "description") as [p2|e] eqn:Hp2;
    [|left; destruct e; reflexivity].
  rewrite M_bind_lift.
  destruct (bind_param condition_data "icon_code") as [p3|e];
    [|left; destruct e; reflexivity].
  rewrite (bind_param_getitem _ _ _ _ Hn Hp1), (bind_param_getitem _ _ _ _ Hc Hp2).
  right. right. exists v_main, v_description, p3. auto.
Qed.

(** What a call of [load_measurement] comes to, with the row it built. *)
Lemma load_measurement_post measurement_data cid did w :
  load_measurement env measurement_data cid did w =
    (Ok false, with_db_calls (S (db_calls w)) w) \/
  (exists data row,
      measurement_params measurement_data cid did = Ok data /\
      measurement_values data = Ok row /\
      existsb (conflicts row) (weather_measurements (db w)) = true /\
      load_measurement env measurement_data cid did w =
      (Ok true, with_db_calls (S (db_calls w)) w)) \/
  (exists data row,
      measurement_params measurement_data cid did = Ok data /\
      measurement_values data = Ok row /\
      existsb (conflicts row) (weather_measurements (db w)) = false /\
      load_measurement env measurement_data cid did w =
      (Ok true, with_db (add_measurement row (db w)) (with_db_calls (S (db_calls w)) w))).
Proof.
  unfold load_measurement, try_except, load_measurement_body.
  rewrite M_bind_unfold. unfold connect.
  destruct (db_fault env (db_calls w)); [left; reflexivity|].
  rewrite M_bind_lift.
  destruct (measurement_params measurement_data cid did) as [data|e] eqn:Hp;
    [|left; destruct e; reflexivity].
  rewrite M_bind_lift.
  destruct (measurement_values data) as [row|e] eqn:Hv;
    [|left; destruct e; reflexivity].
  rewrite M_bind_unfold. unfold insert_measurement. cbn [db with_db_calls].
  destruct (existsb (conflicts row) (weather_measurements (db w))) eqn:Hex.
  - right. left. exists data, row. auto.
  - right. right. exists data, row. auto.
Qed.

Lemma store_only_scope w : store_only 1 w (with_db_calls (S (db_calls w)) w).
Proof. unfold store_only. cbn. repeat split; lia. Qed.

Lemma store_only_scope_db d w :
  store_only 1 w (with_db d (with_db_calls (S (db_calls w)) w)).
Proof. unfold store_only. cbn. repeat split; lia. Qed.

(** Each upsert returns, opens one scope, and commits at most one insert. *)
Lemma load_city_commits city_data w :
  exists o w',
    load_city env city_data w = (Ok o, w') /\ store_only 1 w w' /\
    (db w' = db w \/ commits (db w) (db w')) /\
    weather_measurements (db w') = weather_measurements (db w).
Proof.
  destruct (load_city_post city_data w)
    as [H|[(vn & vc & r & _ & _ & _ & H)|(vn & vc & v3 & v4 & v5 & _ & _ & Hf & H)]];
    rewrite H; eexists _, _; (split; [reflexivity|]).
  - split; [apply store_only_scope|]. cbn. auto.
  - split; [apply store_only_scope|]. cbn. auto.
  - split; [apply store_only_scope_db|]. cbn. split; [|reflexivity].
    right. apply commits_city; [reflexivity|exact Hf].
Qed.

Lemma load_weather_condition_commits condition_data w :
  exists o w',
    load_weather_condition env condition_data w = (Ok o, w') /\ store_only 1 w w' /\
    (db w' = db w \/ commits (db w) (db w')) /\
    weather_measurements (db w') = weather_measurements (db w).
Proof.
  destruct (load_weather_condition_post condition_data w)
    as [H|[(vn & vc & r & _ & _ & _ & H)|(vn & vc & v3 & _ & _ & Hf & H)]];
    rewrite H; eexists _, _; (split; [reflexivity|]).
  - split; [apply store_only_scope|]. cbn. auto.
  - split; [apply store_only_scope|]. cbn. auto.
  - split; [apply store_only_scope_db|]. cbn. split; [|reflexivity].
    right. apply commits_condition; [reflexivity|exact Hf].
Qed.

Lemma load_measurement_commits measurement_data cid did w :
  exists b w',
    load_measurement env measurement_data cid did w = (Ok b, w') /\
    store_only 1 w w' /\
    (db w' = db w \/ commits (db w) (db w')) /\
    (length (weather_measurements (db w')) <=
     length (weather_measurements (db w)) + (if b then 1 else 0))%nat.
Proof.
  destruct (load_measurement_post measurement_data cid did w)
    as [H|[(data & row & _ & _ & _ & H)|(data & row & _ & _ & Hex & H)]];
    rewrite H; eexists _, _; (split; [reflexivity|]).
  - split; [apply store_only_scope|]. cbn. split; [auto|lia].
  - split; [apply store_only_scope|]. cbn. split; [auto|lia].
  - split; [apply store_only_scope_db|]. cbn. split; [|rewrite length_app; cbn; lia].
    right. apply commits_measurement. exact Hex.
Qed.

Lemma rtc_commits_step d1 d2 d3 :
  rtc commits d1 d2 -> d3 = d2 \/ commits d2 d3 -> rtc commits d1 d3.
Proof.
  intros H [->|Hs]; [exact H|]. eapply rtc_r; eassumption.
Qed.

(** Loading a record returns, opens at most three scopes, commits at most
    three inserts, and adds a measurement only when it returns [True]. *)
Lemma load_weather_record_commits transformed_data w :
  exists b w',
    load_weather_record env transformed_data w = (Ok b, w') /\
    store_only 3 w w' /\ rtc commits (db w) (db w') /\
    (length (weather_measurements (db w')) <=
     length (weather_measurements (db w)) + (if b then 1 else 0))%nat.
Proof.
  unfold load_weather_record, try_except, load_weather_record_body.
  rewrite M_bind_lift.
  destruct (getitem transformed_data "city") as [city_data|e].
  2:{ eexists _, _. split; [reflexivity|]. split; [apply store_only_refl|].
      split; [reflexivity|cbn; lia]. }
  rewrite M_bind_unfold.
  destruct (load_city_commits city_data w) as (o1 & w1 & H1 & Hs1 & Hd1 & Hm1).
  rewrite H1.
  assert (Hr1 : rtc commits (db w) (db w1)) by (eapply rtc_commits_step; [reflexivity|exact Hd1]).
  assert (Hs1' : store_only 3 w w1) by (eapply store_only_weaken; [|exact Hs1]; lia).
  assert (Hl1 : (length (weather_measurements (db w1)) <=
                 length (weather_measurements (db w)) + 0)%nat) by (rewrite Hm1; lia).
  destruct o1 as [cid|]; [|cbn; eauto 7].
  destruct (cid =? 0); [cbn; eauto 7|].
  rewrite M_bind_lift.
  destruct (getitem transformed_data "condition") as [condition_data|e]; [|cbn; eauto 7].
  rewrite M_bind_unfold.
  destruct (load_weather_condition_commits condition_data w1)
    as (o2 & w2 & H2 & Hs2 & Hd2 & Hm2).
  rewrite H2.
  assert (Hr2 : rtc commits (db w) (db w2)) by (eapply rtc_commits_step; [exact Hr1|exact Hd2]).
  assert (Hs2' : store_only 3 w w2).
  { eapply store_only_weaken; [|eapply store_only_trans; [exact Hs1|exact Hs2]]. lia. }
  assert (Hl2 : (length (weather_measurements (db w2)) <=
                 length (weather_measurements (db w)) + 0)%nat) by (rewrite Hm2; lia).
  destruct o2 as [did|]; [|cbn; eauto 7].
  destruct (did =? 0); [cbn; eauto 7|].
  rewrite M_bind_lift.
  destruct (getitem transformed_data "measurement") as [measurement_data|e]; [|cbn; eauto 7].
  rewrite M_bind_unfold.
  destruct (load_measurement_commits measurement_data cid did w2)
    as (b & w3 & H3 & Hs3 & Hd3 & Hm3).
  rewrite H3.
  assert (Hr3 : rtc commits (db w) (db w3)) by (eapply rtc_commits_step; [exact Hr2|exact Hd3]).
  assert (Hs3' : store_only 3 w w3).
  { eapply store_only_weaken;
      [|eapply store_only_trans; [eapply store_only_trans; [exact Hs1|exact Hs2]|exact Hs3]].
    lia. }
  assert (Hl3 : (length (weather_measurements (db w3)) <=
                 length (weather_measurements (db w)) + (if b then 1 else 0))%nat) by lia.
  destruct b.
  - rewrite M_bind_lift, res_bind_Ok.
    destruct (load_city_Some_name env _ _ _ _ H1) as [v Hv]. rewrite Hv.
    cbn. eauto 7.
  - cbn. eauto 7.
Qed.

Lemma load_each_commits l : forall w,
  store_only (3 * length l) w (snd (load_each env l w)) /\
  rtc commits (db w) (db (snd (load_each env l w))) /\
  (length (weather_measurements (db (snd (load_each env l w)))) <=
   length (weather_measurements (db w)) +
   length (List.filter loaded (fst (load_each env l w))))%nat.
Proof.
  induction l as [|data rest IH]; intros w.
  - cbn. split; [apply store_only_refl|]. split; [reflexivity|lia].
  - cbn [load_each].
    destruct (load_weather_record_commits data w) as (b & w1 & H & Hs & Hr & Hm).
    rewrite H. specialize (IH w1).
    destruct (load_each env rest w1) as [rs w2]. cbn [fst snd] in *.
    destruct IH as (Hs' & Hr' & Hm'). split; [|split].
    + eapply store_only_weaken; [|eapply store_only_trans; [exact Hs|exact Hs']].
      cbn [length]. lia.
    + etrans; eassumption.
    + cbn [List.filter loaded]. destruct b; cbn [length]; lia.
Qed.

Lemma load_multiple_records_commits l w :
  exists result w',
    load_multiple_records env l w = (Ok result, w') /\
    store_only (3 * length l) w w' /\ rtc commits (db w) (db w') /\
    (length (weather_measurements (db w')) <=
     length (weather_measurements (db w)) + success result)%nat.
Proof.
  unfold load_multiple_records. rewrite M_bind_unfold, load_loop_each.
  eexists _, _. split; [reflexivity|]. cbn [success fst]. apply load_each_commits.
Qed.

End Commits.

(** ** What a commit keeps *)

Lemma commits_extends d d' : commits d d' -> extends d d'.
Proof.
  unfold extends.
  intros [row _ _|row _ _|row _]; cbn;
    repeat split; try reflexivity; try lia; apply prefix_app_r; reflexivity.
Qed.

Lemma extends_refl d : extends d d.
Proof. unfold extends. repeat split; try reflexivity; lia. Qed.

Lemma extends_trans d1 d2 d3 : extends d1 d2 -> extends d2 d3 -> extends d1 d3.
Proof.
  unfold extends. intros (?&?&?&?&?) (?&?&?&?&?).
  repeat split; try (etrans; eassumption); lia.
Qed.

Lemma rtc_commits_extends d d' : rtc commits d d' -> extends d d'.
Proof.
  induction 1 as [|d1 d2 d3 Hs _ IH]; [apply extends_refl|].
  eapply extends_trans; [apply commits_extends; exact Hs|exact IH].
Qed.

Lemma commits_positive d d' : commits d d' -> positive_ids d -> positive_ids d'.
Proof.
  unfold positive_ids.
  intros [row Hid _|row Hid _|row _] (H1 & H2 & H3 & H4); cbn;
    repeat split; try assumption; try lia.
  - apply Forall_app. split; [exact H3|]. repeat constructor. lia.
  - apply Forall_app. split; [exact H4|]. repeat constructor. lia.
Qed.

Lemma distinct_snoc {A} (same : A -> A -> bool) (l : list A) (x : A) :
  distinct same l ->
  (forall y, y ∈ l -> same x y = false /\ same y x = false) ->
  distinct same (l ++ [x]).
Proof.
  intros Hl Hx i j a b Hi Hj Hs.
  apply lookup_snoc_Some in Hi as [[Hi Ha]|[-> <-]];
    apply lookup_snoc_Some in Hj as [[Hj Hb]|[-> <-]].
  - eapply Hl; eassumption.
  - apply list_elem_of_lookup_2 in Ha. apply Hx in Ha as [_ Ha]. congruence.
  - apply list_elem_of_lookup_2 in Hb. apply Hx in Hb as [Hb _]. congruence.
  - reflexivity.
Qed.

Lemma find_none_elem {A} (p : A -> bool) (l : list A) y :
  List.find p l = None -> y ∈ l -> p y = false.
Proof.
  intros H Hy. eapply find_none; [exact H|]. apply list_elem_of_In. exact Hy.
Qed.

Lemma existsb_false_elem {A} (p : A -> bool) (l : list A) y :
  existsb p l = false -> y ∈ l -> p y = false.
Proof.
  intros H Hy. destruct (p y) eqn:E; [|reflexivity].
  assert (existsb p l = true); [|congruence].
  apply existsb_exists. exists y. split; [apply list_elem_of_In; exact Hy|exact E].
Qed.

Lemma NoDup_snoc_fresh (l : list Z) (n : Z) :
  NoDup l -> Forall (fun x => x < n) l -> NoDup (l ++ [n]).
Proof.
  intros Hl Hlt. apply NoDup_app. split; [exact Hl|]. split; [|apply NoDup_singleton].
  intros x Hx Hn. apply list_elem_of_singleton in Hn as ->.
  rewrite Forall_forall in Hlt. apply Hlt in Hx. lia.
Qed.

Lemma commits_schema d d' : commits d d' -> schema_constraints d -> schema_constraints d'.
Proof.
  unfold schema_constraints.
  intros [row Hid Hf|row Hid Hf|row Hex] (H1 & H2 & H3 & H4 & H5 & H6 & H7); cbn.
  - repeat split; try assumption.
    + apply Forall_app. split; [|repeat constructor; lia].
      eapply Forall_impl; [exact H1|]. cbn. intros; lia.
    + rewrite fmap_app. cbn. rewrite Hid. apply NoDup_snoc_fresh; [exact H3|].
      apply Forall_fmap. exact H1.
    + apply distinct_snoc; [exact H5|]. intros y Hy.
      pose proof (find_none_elem _ _ _ Hf Hy) as Hn. split.
      * exact Hn.
      * unfold same_city, city_matches in *.
        rewrite (sql_eq_sym (city_name row)), (sql_eq_sym (country_code row)). exact Hn.
  - repeat split; try assumption.
    + apply Forall_app. split; [|repeat constructor; lia].
      eapply Forall_impl; [exact H2|]. cbn. intros; lia.
    + rewrite fmap_app. cbn. rewrite Hid. apply NoDup_snoc_fresh; [exact H4|].
      apply Forall_fmap. exact H2.
    + apply distinct_snoc; [exact H6|]. intros y Hy.
      pose proof (find_none_elem _ _ _ Hf Hy) as Hn. split.
      * exact Hn.
      * unfold same_condition, condition_matches in *.
        rewrite (sql_eq_sym (main_condition row)), (sql_eq_sym (description row)). exact Hn.
  - repeat split; try assumption.
    apply distinct_snoc; [exact H7|]. intros y Hy.
    pose proof (existsb_false_elem _ _ _ Hex Hy) as Hn. split.
    + exact Hn.
    + unfold conflicts in *.
      rewrite (sql_eq_sym (m_city_id row)), (sql_eq_sym (measurement_timestamp row)).
      exact Hn.
Qed.

Lemma rtc_commits_schema d d' :
  rtc commits d d' -> schema_constraints d -> schema_constraints d'.
Proof.
  induction 1 as [|d1 d2 d3 Hs _ IH]; [auto|].
  intros H. apply IH. eapply commits_schema; eassumption.
Qed.

Lemma rtc_commits_positive d d' :
  rtc commits d d' -> positive_ids d -> positive_ids d'.
Proof.
  induction 1 as [|d1 d2 d3 Hs _ IH]; [auto|].
  intros H. apply IH. eapply commits_positive; eassumption.
Qed.

Lemma schema_constraints_empty : schema_constraints empty_database.
Proof.
  unfold schema_constraints, distinct. cbn.
  repeat split; try constructor; intros i j x y Hi; rewrite lookup_nil in Hi; discriminate.
Qed.

Lemma load_city_fault env city_data w :
  db_fault env (db_calls w) = true ->
  load_city env city_data w = (Ok None, with_db_calls (S (db_calls w)) w).
Proof.
  intros H. unfold load_city, try_except, load_city_body.
  rewrite M_bind_unfold. unfold connect. rewrite H. reflexivity.
Qed.

Lemma load_weather_condition_fault env condition_data w :
  db_fault env (db_calls w) = true ->
  load_weather_condition env condition_data w =
  (Ok None, with_db_calls (S (db_calls w)) w).
Proof.
  intros H. unfold load_weather_condition, try_except, load_weather_condition_body.
  rewrite M_bind_unfold. unfold connect. rewrite H. reflexivity.
Qed.

Lemma find_some_elem {A} (p : A -> bool) (l : list A) r :
  List.find p l = Some r -> r ∈ l /\ p r = true.
Proof.
  intros H. apply find_some in H as [H1 H2]. split; [apply list_elem_of_In; exact H1|exact H2].
Qed.

(** X8: [load_city] and [load_weather_condition] never raise and open
    exactly one connection scope.  When the scope fails they return [None],
    and whenever they return [None] the store is as it was.  An identifier
    they return is that of a row of the table after the call: either a row
    that was there and matches the name and country (the main condition and
    description) of the argument, the store being unchanged, or the one row
    appended, which carries them under the next identifier of the sequence,
    no row having matched. *)
Theorem upserts_return_row_of_key env :
  (forall city_data w, exists o w',
      load_city env city_data w = (Ok o, w') /\
      store_only 1 w w' /\ db_calls w' = S (db_calls w) /\
      extends (db w) (db w') /\
      (o = None -> db w' = db w) /\
      (db_fault env (db_calls w) = true -> o = None) /\
      (forall id, o = Some id ->
         exists v_name v_country row,
           getitem city_data "city_name" = Ok v_name /\
           getitem city_data "country_code" = Ok v_country /\
           row ∈ cities (db w') /\ city_id row = id /\
           (city_matches v_name v_country row = true /\ db w' = db w \/
            city_name row = v_name /\ country_code row = v_country /\
            id = next_city_id (db w) /\
            List.find (city_matches v_name v_country) (cities (db w)) = None /\
            db w' = add_city row (db w)))) /\
  (forall condition_data w, exists o w',
      load_weather_condition env condition_data w = (Ok o, w') /\
      store_only 1 w w' /\ db_calls w' = S (db_calls w) /\
      extends (db w) (db w') /\
      (o = None -> db w' = db w) /\
      (db_fault env (db_calls w) = true -> o = None) /\
      (forall id, o = Some id ->
         exists v_main v_description row,
           getitem condition_data "main_condition" = Ok v_main /\
           getitem condition_data "description" = Ok v_description /\
           row ∈ weather_conditions (db w') /\ condition_id row = id /\
           (condition_matches v_main v_description row = true /\ db w' = db w \/
            main_condition row = v_main /\ description row = v_description /\
            id = next_condition_id (db w) /\
            List.find (condition_matches v_main v_description)
                      (weather_conditions (db w)) = None /\
            db w' = add_condition row (db w)))).
Proof.
  split.
  - intros city_data w.
    destruct (load_city_post env city_data w)
      as [H|[(vn & vc & r & Hn & Hc & Hf & H)|(vn & vc & v3 & v4 & v5 & Hn & Hc & Hf & H)]];
      rewrite H; eexists _, _; (split; [reflexivity|]).
    + split; [apply store_only_scope|]. split; [reflexivity|].
      split; [apply extends_refl|]. split; [reflexivity|]. split; [reflexivity|discriminate].
    + split; [apply store_only_scope|]. split; [reflexivity|].
      split; [apply extends_refl|]. split; [reflexivity|]. split.
      { intros Hfault. rewrite (load_city_fault _ _ _ Hfault) in H. discriminate. }
      intros id [= <-]. apply find_some_elem in Hf as [Hin Hm].
      exists vn, vc, r. cbn. auto 10.
    + split; [apply store_only_scope_db|]. split; [reflexivity|].
      split; [apply commits_extends, commits_city; [reflexivity|exact Hf]|].
      split; [discriminate|]. split.
      { intros Hfault. rewrite (load_city_fault _ _ _ Hfault) in H. discriminate. }
      intros id [= <-]. eexists vn, vc, _. cbn.
      split; [exact Hn|]. split; [exact Hc|].
      split; [apply elem_of_app; right; apply list_elem_of_singleton; reflexivity|].
      split; [reflexivity|]. right. cbn. auto.
  - intros condition_data w.
    destruct (load_weather_condition_post env condition_data w)
      as [H|[(vn & vc & r & Hn & Hc & Hf & H)|(vn & vc & v3 & Hn & Hc & Hf & H)]];
      rewrite H; eexists _, _; (split; [reflexivity|]).
    + split; [apply store_only_scope|]. split; [reflexivity|].
      split; [apply extends_refl|]. split; [reflexivity|]. split; [reflexivity|discriminate].
    + split; [apply store_only_scope|]. split; [reflexivity|].
      split; [apply extends_refl|]. split; [reflexivity|]. split.
      { intros Hfault. rewrite (load_weather_condition_fault _ _ _ Hfault) in H. discriminate. }
      intros id [= <-]. apply find_some_elem in Hf as [Hin Hm].
      exists vn, vc, r. cbn. auto 10.
    + split; [apply store_only_scope_db|]. split; [reflexivity|].
      split; [apply commits_extends, commits_condition; [reflexivity|exact Hf]|].
      split; [discriminate|]. split.
      { intros Hfault. rewrite (load_weather_condition_fault _ _ _ Hfault) in H. discriminate. }
      intros id [= <-]. eexists vn, vc, _. cbn.
      split; [exact Hn|]. split; [exact Hc|].
      split; [apply elem_of_app; right; apply list_elem_of_singleton; reflexivity|].
      split; [reflexivity|]. right. cbn. auto.
Qed.

(** X9: [load_weather_record] and [load_multiple_records] never raise, issue
    no request, do not sleep or read the clock, and open at most three
    connection scopes per record.  All they do to the store is a sequence of
    inserts: no row is changed or removed, the tables of the store after the
    call begin with the tables before it, and the number of measurements
    grows by at most one for a record that loads and not at all for one that
    does not, hence by at most the count of successes for a batch. *)
Theorem loader_inserts_only env :
  (forall transformed_data w, exists b w',
      load_weather_record env transformed_data w = (Ok b, w') /\
      store_only 3 w w' /\ rtc commits (db w) (db w') /\ extends (db w) (db w') /\
      (length (weather_measurements (db w')) <=
       length (weather_measurements (db w)) + (if b then 1 else 0))%nat) /\
  (forall transformed_data_list w, exists result w',
      load_multiple_records env transformed_data_list w = (Ok result, w') /\
      store_only (3 * length transformed_data_list) w w' /\
      rtc commits (db w) (db w') /\ extends (db w) (db w') /\
      (length (weather_measurements (db w')) <=
       length (weather_measurements (db w)) + success result)%nat).
Proof.
  split.
  - intros data w.
    destruct (load_weather_record_commits env data w) as (b & w' & H & Hs & Hr & Hm).
    exists b, w'. repeat split; try assumption; try apply rtc_commits_extends, Hr; apply Hs.
  - intros l w.
    destruct (load_multiple_records_commits env l w) as (r & w' & H & Hs & Hr & Hm).
    exists r, w'. repeat split; try assumption; try apply rtc_commits_extends, Hr; apply Hs.
Qed.

(** X10: the loader keeps the constraints of the schema.  If, before a call
    of [load_weather_record] or [load_multiple_records], the identifiers of
    the cities and of the conditions are unique and below the next ones of
    their sequences, no two cities share name and country, no two conditions
    share main condition and description, and no two measurements share city
    and timestamp, then the same holds after the call; and identifiers that
    were positive stay positive. *)
Theorem loader_keeps_schema_constraints env :
  (forall transformed_data w r w',
      schema_constraints (db w) ->
      load_weather_record env transformed_data w = (r, w') ->
      schema_constraints (db w') /\ (positive_ids (db w) -> positive_ids (db w'))) /\
  (forall transformed_data_list w r w',
      schema_constraints (db w) ->
      load_multiple_records env transformed_data_list w = (r, w') ->
      schema_constraints (db w') /\ (positive_ids (db w) -> positive_ids (db w'))).
Proof.
  split.
  - intros data w r w' Hinv Hrun.
    destruct (load_weather_record_commits env data w) as (b & w1 & H & _ & Hr & _).
    rewrite H in Hrun. injection Hrun as _ <-.
    split; [eapply rtc_commits_schema|apply rtc_commits_positive]; eassumption.
  - intros l w r w' Hinv Hrun.
    destruct (load_multiple_records_commits env l w) as (b & w1 & H & _ & Hr & _).
    rewrite H in Hrun. injection Hrun as _ <-.
    split; [eapply rtc_commits_schema|apply rtc_commits_positive]; eassumption.
Qed.

Lemma loader_keeps_schema_constraints_witness :
  schema_constraints (db initial_world) /\
  schema_constraints
    (db (snd (load_multiple_records (quiet_env (fun _ _ => RequestException))
                [sample_transformed_data; sample_transformed_data] initial_world))).
Proof.
  split; [apply schema_constraints_empty|].
  eapply (proj2 (loader_keeps_schema_constraints (quiet_env (fun _ _ => RequestException)))
            [sample_transformed_data; sample_transformed_data] initial_world).
  - apply schema_constraints_empty.
  - apply surjective_pairing.
Defined.

(** ** References of the measurements *)

Lemma references_grow d d' :
  references_resolve d -> extends d d' ->
  weather_measurements d' = weather_measurements d -> references_resolve d'.
Proof.
  unfold references_resolve. intros H (Hc & Hk & _) ->.
  eapply Forall_impl; [exact H|]. cbn.
  intros r [(c & Hin & Hc') (k & Hkin & Hk')].
  split; [exists c|exists k]; (split; [eapply elem_of_prefix; eassumption|assumption]).
Qed.

Lemma measurement_row_ids m cid did data row :
  m !! "city_id" = None -> m !! "condition_id" = None ->
  measurement_params (VDict m) cid did = Ok data ->
  measurement_values data = Ok row ->
  m_city_id row = VInt cid /\ m_condition_id row = VInt did.
Proof.
  intros Hc Hk [= <-]. unfold measurement_values. cbn [bind_param].
  rewrite (lookup_delete_ne _ "api_call_timestamp" "city_id") by discriminate.
  rewrite (lookup_union_r m _ "city_id") by assumption.
  rewrite lookup_insert_eq, res_bind_Ok.
  rewrite (lookup_delete_ne _ "api_call_timestamp" "condition_id") by discriminate.
  rewrite (lookup_union_r m _ "condition_id") by assumption.
  rewrite lookup_insert_ne by discriminate.
  rewrite lookup_insert_eq, res_bind_Ok.
  repeat match goal with
         | |- context [match ?x with Some _ => _ | None => _ end] =>
             destruct x; [rewrite res_bind_Ok|discriminate]
         end.
  intros [= <-]. auto.
Qed.

Section References.

Context (env : Env).

Lemma load_city_row city_data w cid w1 :
  load_city env city_data w = (Ok (Some cid), w1) ->
  exists c, c ∈ cities (db w1) /\ city_id c = cid.
Proof.
  intros Hrun.
  destruct (load_city_post env city_data w)
    as [H|[(vn & vc & r & _ & _ & Hf & H)|(vn & vc & v3 & v4 & v5 & _ & _ & _ & H)]];
    rewrite H in Hrun; inversion Hrun; subst; clear Hrun.
  - apply find_some_elem in Hf as [Hin _]. exists r. auto.
  - eexists. split; [cbn; apply elem_of_app; right; apply list_elem_of_singleton; reflexivity|].
    reflexivity.
Qed.

Lemma load_weather_condition_row condition_data w did w1 :
  load_weather_condition env condition_data w = (Ok (Some did), w1) ->
  exists k, k ∈ weather_conditions (db w1) /\ condition_id k = did.
Proof.
  intros Hrun.
  destruct (load_weather_condition_post env condition_data w)
    as [H|[(vn & vc & r & _ & _ & Hf & H)|(vn & vc & v3 & _ & _ & _ & H)]];
    rewrite H in Hrun; inversion Hrun; subst; clear Hrun.
  - apply find_some_elem in Hf as [Hin _]. exists r. auto.
  - eexists. split; [cbn; apply elem_of_app; right; apply list_elem_of_singleton; reflexivity|].
    reflexivity.
Qed.

Ltac returns_in H := cbn; let E := fresh in intros E; inversion E; subst; exact H.

Lemma extends_step d d' : d' = d \/ commits d d' -> extends d d'.
Proof. intros [->|H]; [apply extends_refl|apply commits_extends, H]. Qed.

Lemma load_weather_record_references transformed_data w r w' :
  references_resolve (db w) -> ids_from_loader transformed_data ->
  load_weather_record env transformed_data w = (r, w') ->
  references_resolve (db w').
Proof.
  intros Hinv Hids. unfold load_weather_record, try_except, load_weather_record_body.
  rewrite M_bind_lift.
  destruct (getitem transformed_data "city") as [city_data|e]; [|returns_in Hinv].
  rewrite M_bind_unfold.
  destruct (load_city_commits env city_data w) as (o1 & w1 & H1 & _ & Hd1 & Hm1).
  rewrite H1.
  assert (Hinv1 : references_resolve (db w1)).
  { apply references_grow with (db w); [exact Hinv|apply extends_step, Hd1|exact Hm1]. }
  destruct o1 as [cid|]; [|returns_in Hinv1].
  destruct (load_city_row _ _ _ _ H1) as (c & Hc & Hcid).
  destruct (cid =? 0); [returns_in Hinv1|].
  rewrite M_bind_lift.
  destruct (getitem transformed_data "condition") as [condition_data|e];
    [|returns_in Hinv1].
  rewrite M_bind_unfold.
  destruct (load_weather_condition_commits env condition_data w1)
    as (o2 & w2 & H2 & _ & Hd2 & Hm2).
  rewrite H2.
  assert (Hext2 : extends (db w1) (db w2)) by apply extends_step, Hd2.
  assert (Hinv2 : references_resolve (db w2)).
  { apply references_grow with (db w1); assumption. }
  destruct o2 as [did|]; [|returns_in Hinv2].
  destruct (load_weather_condition_row _ _ _ _ H2) as (k & Hk & Hdid).
  assert (Hc2 : c ∈ cities (db w2)) by (eapply elem_of_prefix; [exact Hc|apply Hext2]).
  destruct (did =? 0); [returns_in Hinv2|].
  rewrite M_bind_lift.
  destruct (getitem transformed_data "measurement") as [measurement_data|e] eqn:Hm;
    [|returns_in Hinv2].
  rewrite M_bind_unfold.
  destruct (load_city_Some_name env _ _ _ _ H1) as [v Hv].
  destruct (load_measurement_post env measurement_data cid did w2)
    as [H|[(data & row & _ & _ & _ & H)|(data & row & Hp & Hrow & _ & H)]];
    rewrite H.
  - returns_in Hinv2.
  - rewrite M_bind_lift, res_bind_Ok, Hv. returns_in Hinv2.
  - rewrite M_bind_lift, res_bind_Ok, Hv. cbn. intros E. inversion E; subst. cbn.
    unfold references_resolve. cbn. apply Forall_app. split; [exact Hinv2|].
    constructor; [|constructor].
    destruct measurement_data as [| | | | | | |m]; try discriminate.
    destruct (Hids m Hm) as [Hn1 Hn2].
    destruct (measurement_row_ids _ _ _ _ _ Hn1 Hn2 Hp Hrow) as [-> ->].
    split; [exists c|exists k]; auto.
Qed.

Lemma load_each_references l : forall w,
  references_resolve (db w) -> Forall ids_from_loader l ->
  references_resolve (db (snd (load_each env l w))).
Proof.
  induction l as [|data rest IH]; intros w Hinv Hl; [exact Hinv|].
  cbn [load_each]. inversion Hl as [|? ? Hd Hrest]; subst.
  destruct (load_weather_record env data w) as [r w1] eqn:H.
  specialize (IH w1 (load_weather_record_references _ _ _ _ Hinv Hd H) Hrest).
  destruct (load_each env rest w1) as [rs w2]. exact IH.
Qed.

End References.

Lemma ids_from_loader_normalized d called : ids_from_loader (normalized d called).
Proof.
  intros m [= <-]. split; reflexivity.
Qed.

Lemma references_resolve_empty : references_resolve empty_database.
Proof. constructor. Qed.

(** X11: the loader keeps the references of the measurements.  If every
    measurement of the store refers to a city and to a condition of the
    store, then so does every measurement after [load_weather_record], and
    after [load_multiple_records], on records whose measurement section has
    no [city_id] or [condition_id] key of its own; the records that the
    transformer builds are of that kind. *)
Theorem loader_keeps_references env :
  (forall transformed_data w r w',
      references_resolve (db w) -> ids_from_loader transformed_data ->
      load_weather_record env transformed_data w = (r, w') ->
      references_resolve (db w')) /\
  (forall transformed_data_list w r w',
      references_resolve (db w) -> Forall ids_from_loader transformed_data_list ->
      load_multiple_records env transformed_data_list w = (r, w') ->
      references_resolve (db w')) /\
  (forall d called, ids_from_loader (normalized d called)).
Proof.
  split; [|split].
  - intros data w r w'. apply load_weather_record_references.
  - intros l w r w' Hinv Hl. unfold load_multiple_records.
    rewrite M_bind_unfold, load_loop_each. intros E. inversion E; subst.
    apply load_each_references; assumption.
  - apply ids_from_loader_normalized.
Qed.

Lemma loader_keeps_references_witness :
  references_resolve (db initial_world) /\
  Forall ids_from_loader [sample_transformed_data] /\
  references_resolve
    (db (snd (load_multiple_records (quiet_env (fun _ _ => RequestException))
                [sample_transformed_data] initial_world))).
Proof.
  assert (Hids : Forall ids_from_loader [sample_transformed_data]).
  { constructor; [|constructor]. intros m. vm_compute. intros E. inversion E; subst.
    split; reflexivity. }
  split; [apply references_resolve_empty|]. split; [exact Hids|].
  eapply (proj1 (proj2 (loader_keeps_references (quiet_env (fun _ _ => RequestException))))
            [sample_transformed_data] initial_world).
  - apply references_resolve_empty.
  - exact Hids.
  - apply surjective_pairing.
Defined.

(** ** Loading what the transformer built *)

Lemma measurement_values_fields v1 v2 v3 v4 v5 v6 v7 v8 v9 v10 v11 called cid did :
  exists data,
    measurement_params
      (VDict (list_to_map [
         ("temperature_celsius", v1); ("feels_like_celsius", v2);
         ("temp_min_celsius", v3); ("temp_max_celsius", v4);
         ("pressure_hpa", v5); ("humidity_percent", v6);
         ("visibility_meters", v7); ("wind_speed_mps", v8);
         ("wind_direction_degrees", v9); ("cloudiness_percent", v10);
         ("measurement_timestamp", v11); ("api_call_timestamp", called)]))
      cid did = Ok data /\
    measurement_values data =
    Ok {| m_city_id := VInt cid; m_condition_id := VInt did;
          temperature_celsius := v1; feels_like_celsius := v2;
          temp_min_celsius := v3; temp_max_celsius := v4;
          pressure_hpa := v5; humidity_percent := v6;
          visibility_meters := v7; wind_speed_mps := v8;
          wind_direction_degrees := v9; cloudiness_percent := v10;
          measurement_timestamp := v11 |}.
Proof. eexists. split; [reflexivity|]. vm_compute. reflexivity. Qed.

Lemma normalized_row_values d called cid did :
  exists data,
    measurement_params (VDict (measurement_fields d called)) cid did = Ok data /\
    measurement_values data = Ok (normalized_row d cid did).
Proof. unfold measurement_fields, normalized_row. apply measurement_values_fields. Qed.

Lemma well_formed_timestamp d :
  well_formed_raw d = true -> exists t, datetime_of (field d "dt") = VDatetime t.
Proof.
  intros Hwf. unfold well_formed_raw in Hwf.
  unfold has_key, lookup_is in Hwf. lookup_cases.
  unfold field.
  repeat match goal with E : _ !! _ = Some _ |- _ => rewrite E; clear E end.
  cbv [default from_option id].
  match goal with H : timestamp_ok ?v = true |- _ =>
    unfold timestamp_ok in H; unfold datetime_of, fromtimestamp;
    destruct (as_number v) as [t|]; [rewrite H; eauto|discriminate]
  end.
Qed.

Lemma normalized_row_self d cid did :
  well_formed_raw d = true ->
  conflicts (normalized_row d cid did) (normalized_row d cid did) = true.
Proof.
  intros Hwf. destruct (well_formed_timestamp d Hwf) as [t Ht].
  unfold conflicts. cbn [m_city_id measurement_timestamp normalized_row].
  rewrite Ht. cbn [sql_eq]. rewrite Z.eqb_refl. cbn.
  apply Qeq_bool_iff. reflexivity.
Qed.

Lemma find_app_Some {A} (p : A -> bool) (l l' : list A) r :
  List.find p l = Some r -> List.find p (l ++ l') = Some r.
Proof.
  induction l as [|y l IH]; cbn; [discriminate|].
  destruct (p y); [auto|exact IH].
Qed.

Lemma find_prefix_Some {A} (p : A -> bool) (l l' : list A) r :
  l `prefix_of` l' -> List.find p l = Some r -> List.find p l' = Some r.
Proof. intros [k ->]. apply find_app_Some. Qed.

Section Reingest.

Context (env : Env).

(** A city that [load_city] returned is found again in any later store. *)
Lemma load_city_again m w w1 id s_name s_country wx :
  m !! "city_name" = Some (VStr s_name) ->
  m !! "country_code" = Some (VStr s_country) ->
  load_city env (VDict m) w = (Ok (Some id), w1) ->
  cities (db w1) `prefix_of` cities (db wx) ->
  db_fault env (db_calls wx) = false ->
  load_city env (VDict m) wx = (Ok (Some id), with_db_calls (S (db_calls wx)) wx).
Proof.
  intros Hn Hc Hrun Hpre Hf.
  assert (exists r, List.find (city_matches (VStr s_name) (VStr s_country))
                              (cities (db w1)) = Some r /\ city_id r = id)
    as (r & Hfind & <-).
  { destruct (load_city_post env (VDict m) w)
      as [H|[(vn & vc & r & Hn' & Hc' & Hfd & H)|(vn & vc & v3 & v4 & v5 & Hn' & Hc' & Hfd & H)]];
      rewrite H in Hrun; inversion Hrun; subst; clear Hrun;
      cbn [getitem] in Hn', Hc'; rewrite Hn in Hn'; rewrite Hc in Hc';
      inversion Hn'; inversion Hc'; subst.
    - exists r. auto.
    - eexists. split; [cbn; apply find_snoc_None; [exact Hfd|]|reflexivity].
      unfold city_matches. cbn [city_name country_code]. rewrite !sql_eq_str. reflexivity. }
  eapply load_city_found; [exact Hf|exact Hn|exact Hc|].
  eapply find_prefix_Some; eassumption.
Qed.

Lemma load_weather_condition_again m w w1 id s_main s_description wx :
  m !! "main_condition" = Some (VStr s_main) ->
  m !! "description" = Some (VStr s_description) ->
  load_weather_condition env (VDict m) w = (Ok (Some id), w1) ->
  weather_conditions (db w1) `prefix_of` weather_conditions (db wx) ->
  db_fault env (db_calls wx) = false ->
  load_weather_condition env (VDict m) wx =
  (Ok (Some id), with_db_calls (S (db_calls wx)) wx).
Proof.
  intros Hn Hc Hrun Hpre Hf.
  assert (exists r, List.find (condition_matches (VStr s_main) (VStr s_description))
                              (weather_conditions (db w1)) = Some r /\
                    condition_id r = id)
    as (r & Hfind & <-).
  { destruct (load_weather_condition_post env (VDict m) w)
      as [H|[(vn & vc & r & Hn' & Hc' & Hfd & H)|(vn & vc & v3 & Hn' & Hc' & Hfd & H)]];
      rewrite H in Hrun; inversion Hrun; subst; clear Hrun;
      cbn [getitem] in Hn', Hc'; rewrite Hn in Hn'; rewrite Hc in Hc';
      inversion Hn'; inversion Hc'; subst.
    - exists r. auto.
    - eexists. split; [cbn; apply find_snoc_None; [exact Hfd|]|reflexivity].
      unfold condition_matches. cbn [main_condition description].
      rewrite !sql_eq_str. reflexivity. }
  eapply load_weather_condition_found; [exact Hf|exact Hn|exact Hc|].
  eapply find_prefix_Some; eassumption.
Qed.

(** The upserts of the city and of the condition of a normalized record
    succeed when their scopes do not fail. *)
Lemma load_city_normalized d w :
  db_fault env (db_calls w) = false ->
  exists cid w1,
    load_city env (normalized_city d) w = (Ok (Some cid), w1) /\
    db_calls w1 = S (db_calls w).
Proof.
  intros Hf. unfold normalized_city, dict.
  destruct (List.find (city_matches (field d "name") (subfield d "sys" "country"))
              (cities (db w))) as [r|] eqn:Hfind.
  - eexists _, _. split; [eapply load_city_found; [exact Hf| | |exact Hfind]; reflexivity|].
    reflexivity.
  - eexists _, _.
    split; [eapply load_city_new; [exact Hf| | | | | |exact Hfind]; reflexivity|].
    reflexivity.
Qed.

Lemma load_weather_condition_normalized d w :
  db_fault env (db_calls w) = false ->
  exists did w1,
    load_weather_condition env (VDict (condition_fields d)) w = (Ok (Some did), w1) /\
    db_calls w1 = S (db_calls w).
Proof.
  intros Hf. unfold condition_fields.
  destruct (List.find (condition_matches (field (first_condition d) "main")
                         (field (first_condition d) "description"))
              (weather_conditions (db w))) as [r|] eqn:Hfind.
  - eexists _, _.
    split; [eapply load_weather_condition_found; [exact Hf| | |exact Hfind]; reflexivity|].
    reflexivity.
  - eexists _, _.
    split; [eapply load_weather_condition_new; [exact Hf| | | |exact Hfind]; reflexivity|].
    reflexivity.
Qed.

(** The three steps of the load of a normalized record. *)
Lemma load_normalized_steps d called w :
  positive_ids (db w) ->
  (forall i, (i < 3)%nat -> db_fault env (db_calls w + i) = false) ->
  exists cid did w1 w2,
    load_city env (normalized_city d) w = (Ok (Some cid), w1) /\
    load_weather_condition env (VDict (condition_fields d)) w1 = (Ok (Some did), w2) /\
    db_calls w2 = S (S (db_calls w)) /\
    db_fault env (db_calls w2) = false /\
    positive_ids (db w2) /\
    load_weather_record env (normalized d called) w =
    load_measurement env (VDict (measurement_fields d called)) cid did w2.
Proof.
  intros Hpos Hf.
  destruct (load_city_normalized d w) as (cid & w1 & H1 & Hc1).
  { rewrite <- (Nat.add_0_r (db_calls w)). apply Hf. lia. }
  destruct (load_city_positive env _ _ _ _ Hpos H1) as [Hpos1 Hcid].
  destruct (load_weather_condition_normalized d w1) as (did & w2 & H2 & Hc2).
  { rewrite Hc1, <- Nat.add_1_r. apply Hf. lia. }
  destruct (load_weather_condition_positive env _ _ _ _ Hpos1 H2) as [Hpos2 Hdid].
  exists cid, did, w1, w2. split; [exact H1|]. split; [exact H2|].
  split; [lia|]. split.
  { rewrite Hc2, Hc1. replace (S (S (db_calls w))) with (db_calls w + 2)%nat by lia.
    apply Hf. lia. }
  split; [exact Hpos2|].
  eapply load_weather_record_measurement; try eassumption; try reflexivity.
  - specialize (Hcid cid eq_refl). lia.
  - specialize (Hdid did eq_refl). lia.
Qed.


Lemma load_normalized_record d called w :
  well_formed_raw d = true ->
  positive_ids (db w) ->
  (forall i, (i < 3)%nat -> db_fault env (db_calls w + i) = false) ->
  exists cid did w1 w2 w',
    load_city env (normalized_city d) w = (Ok (Some cid), w1) /\
    load_weather_condition env (VDict (condition_fields d)) w1 = (Ok (Some did), w2) /\
    load_weather_record env (normalized d called) w = (Ok true, w') /\
    db_calls w' = (db_calls w + 3)%nat /\
    cities (db w') = cities (db w2) /\
    weather_conditions (db w') = weather_conditions (db w2) /\
    cities (db w1) `prefix_of` cities (db w2) /\
    positive_ids (db w') /\
    existsb (conflicts (normalized_row d cid did)) (weather_measurements (db w')) = true /\
    (weather_measurements (db w') = weather_measurements (db w) \/
     weather_measurements (db w') =
     (weather_measurements (db w) ++ [normalized_row d cid did])%list).
Proof.
  intros Hwf Hpos Hf.
  destruct (load_normalized_steps d called w Hpos Hf)
    as (cid & did & w1 & w2 & H1 & H2 & Hc2 & Hf2 & Hpos2 & Hrec).
  destruct (normalized_row_values d called cid did) as (data & Hp & Hv).
  rewrite (load_measurement_run env _ _ _ _ _ _ Hf2 Hp Hv) in Hrec.
  destruct (load_city_commits env (normalized_city d) w) as (o1 & u1 & G1 & _ & _ & Hm1).
  rewrite H1 in G1. inversion G1; subst o1 u1; clear G1.
  destruct (load_weather_condition_commits env (VDict (condition_fields d)) w1)
    as (o2 & u2 & G2 & _ & Hd2 & Hm2).
  rewrite H2 in G2. inversion G2; subst o2 u2; clear G2.
  assert (Hpre : cities (db w1) `prefix_of` cities (db w2)).
  { destruct Hd2 as [->|Hd2]; [reflexivity|]. apply commits_extends in Hd2. apply Hd2. }
  exists cid, did, w1, w2. eexists. split; [exact H1|]. split; [exact H2|].
  split; [exact Hrec|].
  destruct (existsb (conflicts (normalized_row d cid did)) (weather_measurements (db w2)))
    eqn:Hex; cbn.
  - repeat split; try assumption; try lia; try apply Hpos2.
    left. congruence.
  - repeat split; try assumption; try lia; try apply Hpos2.
    + rewrite existsb_app. cbn. rewrite (normalized_row_self d cid did Hwf).
      rewrite orb_true_r. reflexivity.
    + right. congruence.
Qed.

End Reingest.



(** X13: loading a record a second time changes nothing.  For a well-formed
    raw record whose city name, country, main condition and description are
    strings, when the identifiers of the store are positive and six
    connection scopes in a row do not fail, [load_weather_record] returns
    [True] on the normalized record, returns [True] again on the record
    normalized at any other time of call, and the second load leaves every
    table of the store as the first left it. *)
Theorem normalized_record_reingest env d called called' w
    s_name s_country s_main s_description :
  well_formed_raw d = true ->
  field d "name" = VStr s_name ->
  subfield d "sys" "country" = VStr s_country ->
  field (first_condition d) "main" = VStr s_main ->
  field (first_condition d) "description" = VStr s_description ->
  positive_ids (db w) ->
  (forall i, (i < 6)%nat -> db_fault env (db_calls w + i) = false) ->
  exists w1 w2,
    load_weather_record env (normalized d called) w = (Ok true, w1) /\
    load_weather_record env (normalized d called') w1 = (Ok true, w2) /\
    db w2 = db w1.
Proof.
  intros Hwf Hname Hcountry Hmain Hdescr Hpos Hf.
  destruct (load_normalized_record env d called w Hwf Hpos)
    as (cid & did & u1 & u2 & w1 & H1 & H2 & Hrec & Hc & Hci & Hco & Hpre & Hpos1 & Hex & _).
  { intros i Hi. apply Hf. lia. }
  exists w1. eexists. split; [exact Hrec|].
  assert (Hf3 : db_fault env (db_calls w1) = false).
  { rewrite Hc. apply Hf. lia. }
  assert (Hf4 : db_fault env (S (db_calls w1)) = false).
  { rewrite Hc. replace (S (db_calls w + 3)) with (db_calls w + 4)%nat by lia. apply Hf. lia. }
  assert (Hf5 : db_fault env (S (S (db_calls w1))) = false).
  { rewrite Hc. replace (S (S (db_calls w + 3))) with (db_calls w + 5)%nat by lia.
    apply Hf. lia. }
  assert (G1 : load_city env (normalized_city d) w1 =
               (Ok (Some cid), with_db_calls (S (db_calls w1)) w1)).
  { unfold normalized_city, dict in *.
    eapply (load_city_again env _ w u1 cid s_name s_country w1); [| |exact H1| |exact Hf3].
    - rewrite <- Hname. reflexivity.
    - rewrite <- Hcountry. reflexivity.
    - rewrite Hci. exact Hpre. }
  set (v1 := with_db_calls (S (db_calls w1)) w1) in G1.
  assert (G2 : load_weather_condition env (VDict (condition_fields d)) v1 =
               (Ok (Some did), with_db_calls (S (db_calls v1)) v1)).
  { eapply (load_weather_condition_again env _ u1 u2 did s_main s_description v1);
      [| |exact H2| |exact Hf4].
    - rewrite <- Hmain. reflexivity.
    - rewrite <- Hdescr. reflexivity.
    - unfold v1. cbn. rewrite Hco. reflexivity. }
  set (v2 := with_db_calls (S (db_calls v1)) v1) in G2.
  destruct (normalized_row_values d called' cid did) as (data & Hp & Hv).
  assert (Hcid : cid <> 0).
  { destruct (load_city_positive env _ _ _ _ Hpos H1) as [_ Hid].
    specialize (Hid cid eq_refl). lia. }
  assert (Hdid : did <> 0).
  { destruct (load_city_positive env _ _ _ _ Hpos H1) as [Hp1 _].
    destruct (load_weather_condition_positive env _ _ _ _ Hp1 H2) as [_ Hid].
    specialize (Hid did eq_refl). lia. }
  split.
  - rewrite (load_weather_record_measurement env (normalized d called')
               (normalized_city d) (VDict (condition_fields d))
               (VDict (measurement_fields d called')) w1 cid v1 did v2
               eq_refl G1 Hcid eq_refl G2 Hdid eq_refl).
    apply (load_measurement_conflict env _ _ _ v2 _ _ Hf5 Hp Hv). exact Hex.
  - reflexivity.
Qed.

Lemma normalized_record_reingest_witness :
  exists w1 w2,
    load_weather_record (quiet_env (fun _ _ => RequestException))
      (normalized (sample_raw (VFloat (31 # 2)) (VInt 65)) (VDatetime 1700000000))
      initial_world = (Ok true, w1) /\
    load_weather_record (quiet_env (fun _ _ => RequestException))
      (normalized (sample_raw (VFloat (31 # 2)) (VInt 65)) (VDatetime 1700003600))
      w1 = (Ok true, w2) /\
    db w2 = db w1.
Proof.
  eapply (normalized_record_reingest (quiet_env (fun _ _ => RequestException))
            (sample_raw (VFloat (31 # 2)) (VInt 65)) _ _ initial_world).
  - vm_compute. reflexivity.
  - vm_compute. reflexivity.
  - vm_compute. reflexivity.
  - vm_compute. reflexivity.
  - vm_compute. reflexivity.
  - apply positive_ids_empty.
  - intros i _. reflexivity.
Defined.

(** ** Keys that are null *)

Lemma sql_eq_null a : sql_eq a VNone = false.
Proof. destruct a; reflexivity. Qed.

Lemma find_city_null v_name v_country l :
  v_name = VNone \/ v_country = VNone ->
  List.find (city_matches v_name v_country) l = None.
Proof.
  intros H. induction l as [|r l IH]; [reflexivity|]. cbn [List.find].
  replace (city_matches v_name v_country r) with false; [exact IH|].
  unfold city_matches. destruct H as [-> | ->]; rewrite sql_eq_null.
  - reflexivity.
  - rewrite andb_false_r. reflexivity.
Qed.

Lemma find_condition_null v_main v_description l :
  v_main = VNone \/ v_description = VNone ->
  List.find (condition_matches v_main v_description) l = None.
Proof.
  intros H. induction l as [|r l IH]; [reflexivity|]. cbn [List.find].
  replace (condition_matches v_main v_description r) with false; [exact IH|].
  unfold condition_matches. destruct H as [-> | ->]; rewrite sql_eq_null.
  - reflexivity.
  - rewrite andb_false_r. reflexivity.
Qed.

(** X14: the upserts are not idempotent on a key with a null part.  When the
    name or the country of a city is [None], the select of [load_city]
    matches no row, whatever the table holds, so that every call whose scope
    does not fail inserts a new row under a new identifier: two calls in a
    row return two consecutive identifiers and leave two more cities.  The
    same holds of [load_weather_condition] when the main condition or the
    description is [None]. *)
Theorem upsert_null_key_inserts_again env :
  (forall m w v_name v_country v_lat v_lon v_tz,
      db_fault env (db_calls w) = false ->
      db_fault env (S (db_calls w)) = false ->
      m !! "city_name" = Some v_name -> m !! "country_code" = Some v_country ->
      m !! "latitude" = Some v_lat -> m !! "longitude" = Some v_lon ->
      m !! "timezone_offset" = Some v_tz ->
      v_name = VNone \/ v_country = VNone ->
      exists w1 w2,
        load_city env (VDict m) w = (Ok (Some (next_city_id (db w))), w1) /\
        load_city env (VDict m) w1 = (Ok (Some (next_city_id (db w) + 1)), w2) /\
        length (cities (db w2)) = (length (cities (db w)) + 2)%nat) /\
  (forall m w v_main v_description v_icon,
      db_fault env (db_calls w) = false ->
      db_fault env (S (db_calls w)) = false ->
      m !! "main_condition" = Some v_main -> m !! "description" = Some v_description ->
      m !! "icon_code" = Some v_icon ->
      v_main = VNone \/ v_description = VNone ->
      exists w1 w2,
        load_weather_condition env (VDict m) w =
          (Ok (Some (next_condition_id (db w))), w1) /\
        load_weather_condition env (VDict m) w1 =
          (Ok (Some (next_condition_id (db w) + 1)), w2) /\
        length (weather_conditions (db w2)) =
          (length (weather_conditions (db w)) + 2)%nat).
Proof.
  split.
  - intros m w v_name v_country v_lat v_lon v_tz Hf1 Hf2 Hn Hc Hlat Hlon Htz Hnull.
    pose proof (load_city_new env m w _ _ _ _ _ Hf1 Hn Hc Hlat Hlon Htz
                  (find_city_null _ _ _ Hnull)) as H1.
    match type of H1 with _ = (_, ?x) => set (w1 := x) in * end.
    pose proof (load_city_new env m w1 _ _ _ _ _ Hf2 Hn Hc Hlat Hlon Htz
                  (find_city_null _ _ _ Hnull)) as H2.
    exists w1. eexists. split; [exact H1|]. split; [exact H2|].
    cbn. rewrite !length_app. cbn. lia.
  - intros m w v_main v_description v_icon Hf1 Hf2 Hn Hc Hi Hnull.
    pose proof (load_weather_condition_new env m w _ _ _ Hf1 Hn Hc Hi
                  (find_condition_null _ _ _ Hnull)) as H1.
    match type of H1 with _ = (_, ?x) => set (w1 := x) in * end.
    pose proof (load_weather_condition_new env m w1 _ _ _ Hf2 Hn Hc Hi
                  (find_condition_null _ _ _ Hnull)) as H2.
    exists w1. eexists. split; [exact H1|]. split; [exact H2|].
    cbn. rewrite !length_app. cbn. lia.
Qed.

Lemma upsert_null_key_inserts_again_witness :
  exists w1 w2,
    load_city (quiet_env (fun _ _ => RequestException))
      (dict [("city_name", VStr "London"); ("country_code", VNone);
             ("latitude", VFloat (515 # 10)); ("longitude", VFloat (-1 # 10));
             ("timezone_offset", VInt 0)]) initial_world = (Ok (Some 1), w1) /\
    load_city (quiet_env (fun _ _ => RequestException))
      (dict [("city_name", VStr "London"); ("country_code", VNone);
             ("latitude", VFloat (515 # 10)); ("longitude", VFloat (-1 # 10));
             ("timezone_offset", VInt 0)]) w1 = (Ok (Some 2), w2) /\
    length (cities (db w2)) = 2%nat.
Proof.
  apply (proj1 (upsert_null_key_inserts_again (quiet_env (fun _ _ => RequestException)))
           (list_to_map [("city_name", VStr "London"); ("country_code", VNone);
                         ("latitude", VFloat (515 # 10)); ("longitude", VFloat (-1 # 10));
                         ("timezone_offset", VInt 0)])
           initial_world (VStr "London") VNone (VFloat (515 # 10)) (VFloat (-1 # 10)) (VInt 0));
    try reflexivity.
  right. reflexivity.
Defined.
